(** * CPPEvalV2Client / EvalMultithreads.cpp

    A shallow embedding of the multi-threaded evaluation example
    [Examples/Evaluation/CPPEvalV2Client/EvalMultithreads.cpp] and the
    properties of it that the specification states.

    The example builds feed-forward classifier graphs over parameters that
    are created once and shared, validates the graphs, and feeds them
    synthetic batches.  The graph library ([CNTKLibrary.h]) and the C
    runtime ([rand], [srand], [RAND_MAX], [float] arithmetic) are not part
    of the file: the library is modelled as the symbolic graphs its
    operators build, the C runtime is a parameter of the development. *)

From Stdlib Require Import QArith.
From stdpp Require Import gmap strings list.

Set Warnings "-register-all,-clear-no-such-hyp".

Local Open Scope string_scope.
Local Open Scope list_scope.
Local Open Scope N_scope.

(** ** Machine integers *)

(** [size_t] is the 64-bit unsigned integer of the target; arithmetic on
    it wraps around. *)
Definition size_t := N.
Definition size_wrap (n : N) : size_t := n mod 2 ^ 64.
Definition size_add (a b : size_t) : size_t := size_wrap (a + b).
Definition size_mul (a b : size_t) : size_t := size_wrap (a * b).

(** An [int] converted to [size_t] (the usual arithmetic conversions of
    [int % size_t]): reduction modulo [2^64]. *)
Definition size_of_int (z : Z) : size_t := Z.to_N (z mod 2 ^ 64)%Z.

(** ** The graph library *)

(** Modelled from the spec: [NDShape], the dimensions of a tensor, and
    [NDShape::Rank()]. *)
Definition NDShape := list size_t.
Definition Rank (s : NDShape) : nat := length s.

(** Modelled from the spec: [DataType]. *)
Inductive DataType := Float | Double.

(** Modelled from the spec: [DeviceDescriptor], the abstraction selecting
    where a tensor computation executes. *)
Inductive DeviceDescriptor :=
| CPUDevice
| GPUDevice (id : N).

(** Modelled from the spec: the initial contents of a parameter tensor,
    random-uniform or constant:
    [NDArrayView::RandomUniform<float>(shape, lo, hi, seed, device)] or the
    constant fill of [Parameter(shape, value, device)]. *)
Inductive ParameterInit :=
| RandomUniform (rangeStart rangeEnd : Q) (seed : N)
| ConstantInit (value : Q).

(** Modelled from the spec: the library's [Parameter] (a reserved word
    here, hence [Parameter_]), a handle on a tensor that is owned once and
    referenced, not copied, by every graph built from it.  [param_uid] is
    the identity of the tensor the handle refers to; copying a handle keeps
    it. *)
Record Parameter_ := mkParameter {
  param_uid : N;
  param_shape : NDShape;
  param_init : ParameterInit;
  param_device : DeviceDescriptor
}.

(** Modelled from the spec: the library's [Variable] ([Variable_] for the
    same reason), here the leaves of a graph: a named input or a
    parameter. *)
Inductive Variable_ :=
| InputVar (uid : N) (shape : NDShape) (dataType : DataType) (name : string)
| ParameterVar (p : Parameter_).

(** Modelled from the spec: the identity and the shape of a leaf. *)
Definition Uid (v : Variable_) : N :=
  match v with
  | InputVar uid _ _ _ => uid
  | ParameterVar p => param_uid p
  end.

Definition Shape (v : Variable_) : NDShape :=
  match v with
  | InputVar _ shape _ _ => shape
  | ParameterVar p => param_shape p
  end.

(** Modelled from the spec: the library's [Function], the composed
    computation that the primitive graph operators build (affine map,
    elementwise nonlinearity, cross-entropy-with-softmax,
    classification-error, multi-output combine).  An operand is a leaf
    [Variable] or the output of another [Function]; the implicit conversion
    of a [FunctionPtr] to its output [Variable] is the identity here. *)
Inductive Function :=
| Var (v : Variable_)
| Times (leftOperand rightOperand : Function) (outputRank : size_t) (name : string)
| Plus (leftOperand rightOperand : Function) (name : string)
| Sigmoid (operand : Function) (name : string)
| CrossEntropyWithSoftmax (prediction labels : Function) (name : string)
| ClassificationError (prediction labels : Function) (name : string)
| Combine (operands : list Function) (name : string).

Coercion ParameterVar : Parameter_ >-> Variable_.
Coercion Var : Variable_ >-> Function.

(** Modelled from the spec: the leaf variables a graph refers to, in
    depth-first order, one entry per use. *)
Fixpoint Inputs (f : Function) : list Variable_ :=
  match f with
  | Var v => [v]
  | Times l r _ _ => Inputs l ++ Inputs r
  | Plus l r _ => Inputs l ++ Inputs r
  | Sigmoid x _ => Inputs x
  | CrossEntropyWithSoftmax p l _ => Inputs p ++ Inputs l
  | ClassificationError p l _ => Inputs p ++ Inputs l
  | Combine ops _ => flat_map Inputs ops
  end.

(** Modelled from the spec: tensors are counted by identity; [uniq] keeps
    the first entry of every identity. *)
Fixpoint uniq_from (seen : gset N) (vs : list Variable_) : list Variable_ :=
  match vs with
  | [] => []
  | v :: vs =>
      if decide (Uid v ∈ seen) then uniq_from seen vs
      else v :: uniq_from ({[Uid v]} ∪ seen) vs
  end.

Definition uniq (vs : list Variable_) : list Variable_ := uniq_from ∅ vs.

(** Modelled from the spec: the kind of a leaf. *)
Definition is_parameter (v : Variable_) : bool :=
  match v with ParameterVar _ => true | InputVar _ _ _ _ => false end.

Definition is_input (v : Variable_) : bool :=
  match v with InputVar _ _ _ _ => true | ParameterVar _ => false end.

(** Modelled from the spec: [Function::Parameters()], the distinct
    parameter tensors the graph refers to. *)
Definition Parameters (f : Function) : list Variable_ :=
  uniq (filter (λ v, is_parameter v = true) (Inputs f)).

(** Modelled from the spec: [Function::Arguments()], the distinct named
    inputs the graph refers to. *)
Definition Arguments (f : Function) : list Variable_ :=
  uniq (filter (λ v, is_input v = true) (Inputs f)).

(** Modelled from the spec: [Function::Outputs()], one entry per output; a
    combined graph exposes the outputs of its operands. *)
Fixpoint Outputs (f : Function) : list Function :=
  match f with
  | Combine ops _ => flat_map Outputs ops
  | _ => [f]
  end.

(** Modelled from the spec: [f->Output()], the single output of a graph
    that is not a combination. *)
Definition Output (f : Function) : Function := f.

(** [std::vector::size()]. *)
Definition vector_size {A} (l : list A) : size_t := N.of_nat (length l).

(** ** Tensor views, values and what the program does to the outside *)

(** A [float] is modelled by the rational it denotes; every operation
    rounds its exact result (see [round] below). *)
Definition float := Q.

(** Modelled from the spec: the runtime's tensor-view type,
    [NDArrayView(shape, dataBuffer, numBufferElements, device, readOnly)],
    a view on a buffer the caller owns. *)
Record NDArrayView := mkNDArrayView {
  view_shape : NDShape;
  view_dataBuffer : list float;
  view_numBufferElements : size_t;
  view_device : DeviceDescriptor;
  view_readOnly : bool
}.

(** Modelled from the spec: [MakeSharedObject<Value>(view)]. *)
Record Value := mkValue { Data : NDArrayView }.

(** The arguments [std::thread] binds for a worker. *)
Record WorkerArgs := mkWorkerArgs {
  arg_inputDim : size_t;
  arg_numOutputClasses : size_t;
  arg_numHiddenLayers : size_t;
  arg_inputTimesParam : Parameter_;
  arg_inputPlusParam : Parameter_;
  arg_hiddenLayerTimesParam : list Parameter_;
  arg_hiddenLayerPlusParam : list Parameter_;
  arg_outputTimesParam : Parameter_;
  arg_computeDevice : DeviceDescriptor
}.

(** The arguments the program passes to [fprintf] after the format. *)
Inductive PrintfArg :=
| ArgInt (n : Z)
| ArgVariables (vs : list Variable_)
| ArgFunctions (fs : list Function).

(** What a run does besides computing: calls of the library's forward
    evaluation ([Function::Forward(arguments, outputs, computeDevice)],
    taking a mapping from the declared inputs to values and an output
    mapping to be populated), thread starts and joins, and the calls of
    [fprintf] and [fflush] on [stderr]: a call of [fprintf] is recorded
    with its format and the arguments it is given, not with the text that
    results. *)
Inductive Event :=
| Forward (f : Function) (arguments : list (Variable_ * Value))
    (outputs : list (Function * option Value)) (computeDevice : DeviceDescriptor)
| ThreadStart (th : N) (args : WorkerArgs)
| ThreadJoin (th : N)
| Fprintf_stderr (format : string) (args : list PrintfArg)
| Fflush_stderr.

(** How a call can end other than by returning: a C++ exception
    ([std::runtime_error], [std::length_error], [std::system_error]), an
    operation whose behaviour is undefined (a subscript outside an array, a
    remainder by zero), or [std::terminate] for an exception that leaves a
    thread. *)
Inductive Failure :=
| runtime_error (what : string)
| length_error
| OutOfBounds
| DivisionByZero
| system_error
| Terminate (cause : Failure).

(** Modelled from the spec: [Variable::Shape()] of an operand.  The source
    gives a layer with inputs of dimension [inputDim] a weight of shape
    [{outputDim, inputDim}] and a bias of shape [{outputDim}], and feeds
    its output to a layer whose [inputDim] is that [outputDim]: the affine
    map keeps the leading [outputRank] axes of the weight, sums and
    elementwise nonlinearities keep the shape of their operand, the loss
    and the error metric are scalars. *)
Fixpoint ShapeOf (f : Function) : NDShape :=
  match f with
  | Var v => Shape v
  | Times l r outputRank _ =>
      take (N.to_nat outputRank) (ShapeOf l)
        ++ drop (Rank (ShapeOf l) - N.to_nat outputRank) (ShapeOf r)
  | Plus l r _ =>
      if (Rank (ShapeOf l) <? Rank (ShapeOf r))%nat then ShapeOf r else ShapeOf l
  | Sigmoid x _ => ShapeOf x
  | CrossEntropyWithSoftmax _ _ _ => [1]
  | ClassificationError _ _ _ => [1]
  | Combine ops _ => []
  end.

(** The line feed that ends the format strings. *)
Definition LF : string := String (Ascii.ascii_of_nat 10) EmptyString.

(** ** What a graph computes *)

(** The operators of the library read in a domain [T] of tensor values.
    Names play no part in what is computed. *)
Record Algebra (T : Type) := mkAlgebra {
  leaf : Variable_ → T;
  times : size_t → T → T → T;
  plus : T → T → T;
  sigmoid : T → T;
  cross_entropy_with_softmax : T → T → T;
  classification_error : T → T → T;
  combine : list T → T
}.
Arguments leaf {T}.
Arguments times {T}.
Arguments plus {T}.
Arguments sigmoid {T}.
Arguments cross_entropy_with_softmax {T}.
Arguments classification_error {T}.
Arguments combine {T}.

Fixpoint denote {T} (I : Algebra T) (f : Function) : T :=
  match f with
  | Var v => leaf I v
  | Times l r outputRank _ => times I outputRank (denote I l) (denote I r)
  | Plus l r _ => plus I (denote I l) (denote I r)
  | Sigmoid x _ => sigmoid I (denote I x)
  | CrossEntropyWithSoftmax p l _ =>
      cross_entropy_with_softmax I (denote I p) (denote I l)
  | ClassificationError p l _ => classification_error I (denote I p) (denote I l)
  | Combine ops _ => combine I (map (denote I) ops)
  end.

(** The classifier in the words of the specification: a layer computes
    [nonlinearity(weight × input + bias)]; the classifier is the input
    layer, then one more layer per entry of [hidden], then the final linear
    projection [weight × input] with no nonlinearity. *)
Definition layer_value {T} (I : Algebra T) (nonlinearity : T → T)
    (weight bias input : T) : T :=
  nonlinearity (plus I (times I 1 weight input) bias).

Definition classifier_value {T} (I : Algebra T) (nonlinearity : T → T)
    (x W_in b_in : T) (hidden : list (T * T)) (W_out : T) : T :=
  let input_layer := layer_value I nonlinearity W_in b_in x in
  let last_hidden :=
    fold_left (λ prev Wb, layer_value I nonlinearity Wb.1 Wb.2 prev) hidden input_layer in
  times I 1 W_out last_hidden.

(** The integers as a domain of (one-element) tensors, to evaluate graphs
    on examples. *)
Definition Z_algebra (inputs : Variable_ → Z) : Algebra Z :=
  mkAlgebra Z inputs (λ _, Z.mul) Z.add (λ z, z / 2)%Z Z.sub Z.sub (foldr Z.add 0%Z).

(** ** A C runtime to run the program with *)

(** The generator of Microsoft's C runtime, the platform of the
    CPPEvalV2Client project: a linear congruential generator on 32 bits,
    of which [rand] returns bits 16 to 30. *)
Module MSVC.
Definition RandState := N.
Definition srand_state (seed : N) : RandState := seed.
Definition rand_step (holdrand : RandState) : Z * RandState :=
  let holdrand := (holdrand * 214013 + 2531011) mod 2 ^ 32 in
  (Z.of_N ((holdrand / 2 ^ 16) mod 2 ^ 15), holdrand).
Definition RAND_MAX : Z := 32767.
End MSVC.

(** The generator the C standard gives as an example of a portable
    implementation (ISO C, 7.22.2.2): [static unsigned long int next],
    one state for the whole process, of which [rand] returns
    [(next / 65536) % 32768].  The numbers returned are the same whether
    [unsigned long] has 32 bits, as here, or 64. *)
Module ISO_C.
Definition RandState := N.
Definition srand_state (seed : N) : RandState := seed.
Definition rand_step (next : RandState) : Z * RandState :=
  let next := (next * 1103515245 + 12345) mod 2 ^ 32 in
  (Z.of_N ((next / 65536) mod 32768), next).
Definition RAND_MAX : Z := 32767.
End ISO_C.

(** A thread as it sees the generator: its calls of [rand] return given
    numbers [rs], in order (and 0 once these are used up), from its call
    of [srand] on. *)
Module Replay.
Definition RandState := list Z.
Definition srand_state (rs : list Z) (seed : N) : RandState := rs.
Definition rand_step (rs : RandState) : Z * RandState := (hd 0%Z rs, tl rs).
End Replay.

(** Rounding that keeps the exact quotient. *)
Definition exact (q : Q) : Q := q.

(** Small tensors and variables to run the program on. *)
Module Example.
Definition tensor (uid : N) : Parameter_ :=
  mkParameter uid [2; 2] (ConstantInit 0) CPUDevice.
Definition x : Variable_ := InputVar 7 [2] Float "Features".
Definition values (v : Variable_) : Z := (Z.of_N (Uid v) + 1)%Z.
Definition half (z : Z) : Z := (z / 2)%Z.
End Example.

(** ** The program *)

Section Program.

Set Default Proof Using "Type".

(** The C runtime the program is linked with: the state of its random
    number generator, the state [srand] installs for a seed, one step of
    [rand], and [RAND_MAX]. *)
Variable RandState : Type.
Variable srand_state : N → RandState.
Variable rand_step : RandState → Z * RandState.
Variable RAND_MAX : Z.

(** The rounding of [float] arithmetic: the representable number an
    exact result is replaced by. *)
Variable round : Q → Q.

Definition float_of_int (z : Z) : float := round (inject_Z z).
Definition float_div (x y : float) : float := round (x / y).

(** *** State, outcomes and sequencing *)

Record World := mkWorld {
  next_uid : N;
  rand_state : RandState;
  trace : list Event
}.

Inductive Outcome (A : Type) :=
| Ok (a : A) (w : World)
| Fail (e : Failure) (w : World).
Arguments Ok {A} a w.
Arguments Fail {A} e w.

Definition M (A : Type) : Type := World → Outcome A.

#[local] Instance M_ret : MRet M := λ A a w, Ok a w.

#[local] Instance M_bind : MBind M := λ A B k c w,
  match c w with
  | Ok a w' => k a w'
  | Fail e w' => Fail e w'
  end.

Definition fail {A} (e : Failure) : M A := λ w, Fail e w.

(** [throw std::runtime_error(what)] when [cond] holds. *)
Definition throw_if (cond : bool) (e : Failure) : M unit :=
  if cond then fail e else mret tt.

Definition emit (ev : Event) : M unit :=
  λ w, Ok tt (mkWorld (next_uid w) (rand_state w) (trace w ++ [ev])).

(** A fresh identity for a newly created tensor, variable or thread. *)
Definition fresh_uid : M N :=
  λ w, Ok (next_uid w) (mkWorld (N.succ (next_uid w)) (rand_state w) (trace w)).

Definition srand (seed : N) : M unit :=
  λ w, Ok tt (mkWorld (next_uid w) (srand_state seed) (trace w)).

Definition rand : M Z :=
  λ w, let '(r, s) := rand_step (rand_state w) in
       Ok r (mkWorld (next_uid w) s (trace w)).

(** [for (size_t i = lo; i < hi; ++i) body], with the variables the body
    updates as the loop state. *)
Fixpoint for_loop {S} (n : nat) (i : size_t) (body : size_t → S → M S) (s : S) : M S :=
  match n with
  | O => mret s
  | Datatypes.S n' => s' ← body i s; for_loop n' (N.succ i) body s'
  end.

Definition for_ {S} (lo hi : size_t) (body : size_t → S → M S) (s : S) : M S :=
  for_loop (N.to_nat (hi - lo)) lo body s.

(** [a[i]] on a C array or a vector: the behaviour is undefined outside
    the array. *)
Definition subscript {A} (a : list A) (i : size_t) : M A :=
  match a !! N.to_nat i with
  | Some x => mret x
  | None => fail OutOfBounds
  end.

(** [a[i] = x]. *)
Definition assign {A} (a : list A) (i : size_t) (x : A) : M (list A) :=
  if decide (N.to_nat i < length a)%nat then mret (<[N.to_nat i := x]> a)
  else fail OutOfBounds.

(** [std::vector<T> v(n, x)]. *)
Definition vector_new {A} (n : size_t) (x : A) : list A := replicate (N.to_nat n) x.

(** [a % b] on [size_t]. *)
Definition size_rem (a b : size_t) : M size_t :=
  if b =? 0 then fail DivisionByZero else mret (a mod b).

(** *** Library calls that create identities *)

(** Modelled from the spec: [InputVariable(shape, dataType, name)], a new
    named input of a graph. *)
Definition InputVariable (shape : NDShape) (dataType : DataType) (name : string)
  : M Variable_ :=
  uid ← fresh_uid; mret (InputVar uid shape dataType name).

(** Modelled from the spec: parameter creation,
    [Parameter(NDArrayView::RandomUniform<float>(shape, lo, hi, seed, device))]
    and [Parameter(shape, value, device)]; the tensor created is a new
    one. *)
Definition NewParameter (shape : NDShape) (init : ParameterInit)
    (device : DeviceDescriptor) : M Parameter_ :=
  uid ← fresh_uid; mret (mkParameter uid shape init device).

(** *** Lines 8-22 *)

(** [assert(input.Shape().Rank() == 1)] is compiled out of a release
    build; the condition is kept as a definition. *)
Definition assert_rank1 (input : Function) : Prop := Rank (ShapeOf input) = 1%nat.

Definition FullyConnectedDNNLayerWithSharedParameters
    (input : Function) (timesParam plusParam : Parameter_)
    (nonLinearity : Function → Function) : Function :=
  let timesFunction := Times timesParam input 1 "" in
  let plusFunction := Plus plusParam timesFunction "" in
  nonLinearity plusFunction.

(** *** Lines 24-42 *)

(** [assert(numHiddenLayers >= 1)], kept in the same way. *)
Definition assert_numHiddenLayers (numHiddenLayers : size_t) : Prop :=
  1 ≤ numHiddenLayers.

Definition FullyConnectedFeedForwardClassifierNetWithSharedParameters
    (input : Function) (numHiddenLayers : size_t)
    (inputTimesParam inputPlusParam : Parameter_)
    (hiddenLayerTimesParam hiddenLayerPlusParam : list Parameter_)
    (outputTimesParam : Parameter_)
    (nonLinearity : Function → Function) : M Function :=
  let classifierRoot :=
    FullyConnectedDNNLayerWithSharedParameters input inputTimesParam inputPlusParam nonLinearity in
  classifierRoot ←
    for_ 1 numHiddenLayers (λ i classifierRoot,
      timesParam ← subscript hiddenLayerTimesParam (i - 1);
      plusParam ← subscript hiddenLayerPlusParam (i - 1);
      mret (FullyConnectedDNNLayerWithSharedParameters classifierRoot timesParam plusParam nonLinearity))
      classifierRoot;
  let classifierRoot := Times outputTimesParam classifierRoot 1 "" in
  mret classifierRoot.

(** *** Lines 44-107 *)

(** The graph and the handles on it that the rest of the function uses. *)
Record Network := mkNetwork {
  inputVar : Variable_;
  labelsVar : Variable_;
  classifierOutputFunction : Function;
  predictionFunction : Function;
  ffNet : Function
}.

(** Lines 56-71: create the network using the shared parameters. *)
Definition AssembleNetwork (inputDim numOutputClasses numHiddenLayers : size_t)
    (inputTimesParam inputPlusParam : Parameter_)
    (hiddenLayerTimesParam hiddenLayerPlusParam : list Parameter_)
    (outputTimesParam : Parameter_) : M Network :=
  inputVar ← InputVariable [inputDim] Float "Features";
  classifierOutputFunction ←
    FullyConnectedFeedForwardClassifierNetWithSharedParameters inputVar
      numHiddenLayers inputTimesParam inputPlusParam
      hiddenLayerTimesParam hiddenLayerPlusParam outputTimesParam
      (λ f, Sigmoid f "");
  labelsVar ← InputVariable [numOutputClasses] Float "Labels";
  let trainingLossFunction :=
    CrossEntropyWithSoftmax classifierOutputFunction (labelsVar : Variable_) "LossFunction" in
  let predictionFunction :=
    ClassificationError classifierOutputFunction labelsVar "ClassificationError" in
  let ffNet :=
    Combine [trainingLossFunction; predictionFunction; classifierOutputFunction]
      "ClassifierModel" in
  mret (mkNetwork inputVar labelsVar classifierOutputFunction predictionFunction ffNet).

(** Lines 73-80 (and 226-233, with another prefix in the messages): the
    three checks on the structure of the graph. *)
Definition CheckStructure (who : string) (ffNet : Function) (numHiddenLayers : size_t)
  : M unit :=
  throw_if (negb (vector_size (Parameters ffNet) =? size_add (size_mul numHiddenLayers 2) 1))
    (runtime_error (who +:+ ": Function does not have expected Parameter count"));;
  throw_if (negb (vector_size (Arguments ffNet) =? 2))
    (runtime_error (who +:+ ": Function does not have expected Argument count"));;
  throw_if (negb (vector_size (Outputs ffNet) =? 3))
    (runtime_error (who +:+ ": Function does not have expected Output count")).

(** Lines 89-91. *)
Definition FillInputData (inputDim numSamples : size_t) : M (list float) :=
  let inputData := vector_new (size_mul inputDim numSamples) 0%Q in
  for_ 0 (vector_size inputData) (λ i inputData,
    r ← rand;
    assign inputData i (float_div (float_of_int r) (float_of_int RAND_MAX)))
    inputData.

(** Lines 96-98. *)
Definition FillLabelData (numOutputClasses numSamples : size_t) : M (list float) :=
  let labelData := vector_new (size_mul numOutputClasses numSamples) 0%Q in
  for_ 0 numSamples (λ i labelData,
    r ← rand;
    class ← size_rem (size_of_int r) numOutputClasses;
    assign labelData (size_add (size_mul i numOutputClasses) class) 1%Q)
    labelData.

(** Lines 89-101: the input and label values of one iteration. *)
Definition GenerateBatch (inputDim numOutputClasses numSamples : size_t)
  : M (Value * Value) :=
  inputData ← FillInputData inputDim numSamples;
  let inputShape := [inputDim; 1; numSamples] in
  let inputValue :=
    mkValue (mkNDArrayView inputShape inputData (vector_size inputData) CPUDevice true) in
  labelData ← FillLabelData numOutputClasses numSamples;
  let labelShape := [numOutputClasses; 1; numSamples] in
  let labelValue :=
    mkValue (mkNDArrayView labelShape labelData (vector_size labelData) CPUDevice true) in
  mret (inputValue, labelValue).

(** Lines 103-105: the forward evaluation of one iteration. *)
Definition ForwardCall (net : Network) (computeDevice : DeviceDescriptor)
    (batch : Value * Value) : Event :=
  let outputs := [(Output (classifierOutputFunction net), None);
                  (Output (predictionFunction net), None)] in
  Forward (ffNet net) [(inputVar net, batch.1); (labelsVar net, batch.2)]
    outputs computeDevice.

(** Lines 82-106: evaluate the network in several runs. *)
Definition EvaluateNetwork (inputDim numOutputClasses : size_t) (net : Network)
    (computeDevice : DeviceDescriptor) : M unit :=
  let iterationCount := 4 in
  let randSeed := 2 in
  srand randSeed;;
  let numSamples := 3 in
  for_ 0 iterationCount (λ t _,
    batch ← GenerateBatch inputDim numOutputClasses numSamples;
    emit (ForwardCall net computeDevice batch))
    tt.

Definition EvaluationNewNetworkWithSharedParameters
    (inputDim numOutputClasses numHiddenLayers : size_t)
    (inputTimesParam inputPlusParam : Parameter_)
    (hiddenLayerTimesParam hiddenLayerPlusParam : list Parameter_)
    (outputTimesParam : Parameter_)
    (computeDevice : DeviceDescriptor) : M unit :=
  net ← AssembleNetwork inputDim numOutputClasses numHiddenLayers
          inputTimesParam inputPlusParam hiddenLayerTimesParam hiddenLayerPlusParam
          outputTimesParam;
  CheckStructure "EvaluationNewNetworkWithSharedParameters" (ffNet net) numHiddenLayers;;
  EvaluateNetwork inputDim numOutputClasses net computeDevice.

(** *** Lines 109-148 *)

(** A [std::thread] object: the identity of the thread it owns, if any. *)
Definition thread := option N.

(** [std::thread(EvaluationNewNetworkWithSharedParameters, args...)].
    The worker is run to completion where it is started: one of the
    schedules of the program, in which the worker's calls of [rand] are
    not interleaved with another worker's ([run_shared] and [run_own]
    below take the other schedules).  An exception that leaves the worker
    terminates the process. *)
Definition run_to_completion (th : N) (args : WorkerArgs) : M thread :=
  λ w,
    match EvaluationNewNetworkWithSharedParameters
            (arg_inputDim args) (arg_numOutputClasses args) (arg_numHiddenLayers args)
            (arg_inputTimesParam args) (arg_inputPlusParam args)
            (arg_hiddenLayerTimesParam args) (arg_hiddenLayerPlusParam args)
            (arg_outputTimesParam args) (arg_computeDevice args) w with
    | Ok _ w' => Ok (Some th) w'
    | Fail e w' => Fail (Terminate e) w'
    end.

Definition std_thread (args : WorkerArgs) : M thread :=
  th ← fresh_uid;
  emit (ThreadStart th args);;
  run_to_completion th args.

Definition join (t : thread) : M unit :=
  match t with
  | Some th => emit (ThreadJoin th)
  | None => fail system_error
  end.

(** [std::vector<std::thread> threadList(threadCount)]: the [int] is
    converted to [size_t], and a size above [max_size()] is refused. *)
Definition thread_vector_max_size : N := (2 ^ 63 - 1) / 8.

Definition thread_vector (threadCount : Z) : M (list thread) :=
  let n := size_of_int threadCount in
  if thread_vector_max_size <? n then fail length_error
  else mret (vector_new n None).

Definition EvalMultiThreadsWithNewNetwork (device : DeviceDescriptor) (threadCount : Z)
  : M unit :=
  let inputDim := 937 in
  let numOutputClasses := 9304 in
  let numHiddenLayers := 6 in
  let hiddenLayersDim := 2048 in
  (* Define model parameters that should be shared among evaluation requests *)
  inputTimesParam ←
    NewParameter [hiddenLayersDim; inputDim] (RandomUniform (-0.5) 0.5 1) device;
  inputPlusParam ← NewParameter [hiddenLayersDim] (ConstantInit 0) device;
  t0 ← NewParameter [hiddenLayersDim; hiddenLayersDim] (RandomUniform (-0.5) 0.5 1) device;
  t1 ← NewParameter [hiddenLayersDim; hiddenLayersDim] (RandomUniform (-0.5) 0.5 1) device;
  t2 ← NewParameter [hiddenLayersDim; hiddenLayersDim] (RandomUniform (-0.5) 0.5 1) device;
  t3 ← NewParameter [hiddenLayersDim; hiddenLayersDim] (RandomUniform (-0.5) 0.5 1) device;
  t4 ← NewParameter [hiddenLayersDim; hiddenLayersDim] (RandomUniform (-0.5) 0.5 1) device;
  let hiddenLayerTimesParam := [t0; t1; t2; t3; t4] in
  p0 ← NewParameter [hiddenLayersDim] (ConstantInit 0) device;
  p1 ← NewParameter [hiddenLayersDim] (ConstantInit 0) device;
  p2 ← NewParameter [hiddenLayersDim] (ConstantInit 0) device;
  p3 ← NewParameter [hiddenLayersDim] (ConstantInit 0) device;
  p4 ← NewParameter [hiddenLayersDim] (ConstantInit 0) device;
  let hiddenLayerPlusParam := [p0; p1; p2; p3; p4] in
  outputTimesParam ←
    NewParameter [numOutputClasses; hiddenLayersDim] (RandomUniform (-0.5) 0.5 1) device;
  (* Run evaluation in parallel *)
  threadList ← thread_vector threadCount;
  threadList ←
    for_ 0 (Z.to_N threadCount) (λ th threadList,
      t ← std_thread (mkWorkerArgs inputDim numOutputClasses numHiddenLayers
                        inputTimesParam inputPlusParam
                        hiddenLayerTimesParam hiddenLayerPlusParam
                        outputTimesParam device);
      assign threadList th t)
      threadList;
  for_ 0 (Z.to_N threadCount) (λ th _,
    t ← subscript threadList th;
    join t;;
    emit (Fprintf_stderr ("thread %d joined." +:+ LF) [ArgInt (Z.of_N th)]);;
    emit Fflush_stderr)
    tt.

(** *** Lines 150-165 *)

(** [input.Shape()[0]]. *)
Definition SetupFullyConnectedLinearLayer (input : Function) (outputDim : size_t)
    (device : DeviceDescriptor) (outputName : string) : M Function :=
  inputDim ← subscript (ShapeOf input) 0;
  timesParam ← NewParameter [outputDim; inputDim] (RandomUniform (-0.05) 0.05 1) device;
  let timesFunction := Times (timesParam : Parameter_) input 1 "" in
  plusParam ← NewParameter [outputDim] (RandomUniform (-0.05) 0.05 1) device;
  mret (Plus (plusParam : Parameter_) timesFunction outputName).

Definition SetupFullyConnectedDNNLayer (input : Function) (outputDim : size_t)
    (device : DeviceDescriptor) (nonLinearity : Function → Function) : M Function :=
  f ← SetupFullyConnectedLinearLayer input outputDim device "";
  mret (nonLinearity f).

(** *** Lines 200-254 *)

Definition EvalMultiThreadsWithClone (device : DeviceDescriptor) (threadCount : Z)
  : M unit :=
  let inputDim := 937 in
  let numOutputClasses := 9304 in
  let numHiddenLayers := 6 in
  let hiddenLayersDim := 2048 in
  inputVar ← InputVariable [inputDim] Float "features";
  classifierRoot ←
    SetupFullyConnectedDNNLayer (inputVar : Variable_) hiddenLayersDim device
      (λ f, Sigmoid f "");
  classifierRoot ←
    for_ 1 numHiddenLayers (λ i classifierRoot,
      SetupFullyConnectedDNNLayer classifierRoot hiddenLayersDim device (λ f, Sigmoid f ""))
      classifierRoot;
  outputTimesParam ←
    NewParameter [numOutputClasses; hiddenLayersDim] (RandomUniform (-0.5) 0.5 1) device;
  let classifierOutput :=
    Times (outputTimesParam : Parameter_) classifierRoot 1 "classifierOutput" in
  labelsVar ← InputVariable [numOutputClasses] Float "Labels";
  let trainingLoss :=
    CrossEntropyWithSoftmax classifierOutput (labelsVar : Variable_) "LossFunction" in
  let prediction := ClassificationError classifierOutput labelsVar "ClassificationError" in
  let ffNet := Combine [trainingLoss; prediction; classifierOutput] "ClassifierModel" in
  (* Now test the structure *)
  CheckStructure "TestFeedForwardNetworkCreation" ffNet numHiddenLayers;;
  let count := threadCount in
  let inputVariables := Arguments ffNet in
  let outputVariables := Outputs ffNet in
  emit (Fprintf_stderr ("%d, %p, %p" +:+ LF)
          [ArgInt count; ArgVariables inputVariables; ArgFunctions outputVariables]).

(** *** Notions the properties are stated with *)

(** The layers [FullyConnectedDNNLayerWithSharedParameters] stacks on
    [root] for the given weights and biases, innermost first. *)
Definition chain (nonLinearity : Function → Function)
    (hidden : list (Parameter_ * Parameter_)) (root : Function) : Function :=
  fold_left
    (λ prev Wb, FullyConnectedDNNLayerWithSharedParameters prev Wb.1 Wb.2 nonLinearity)
    hidden root.

Definition hidden_body (Ws bs : list Parameter_) (nonLinearity : Function → Function)
    (i : size_t) (classifierRoot : Function) : M Function :=
  timesParam ← subscript Ws (i - 1);
  plusParam ← subscript bs (i - 1);
  mret (FullyConnectedDNNLayerWithSharedParameters classifierRoot timesParam plusParam
          nonLinearity).

(** The identities of the parameters, and of the inputs, among leaves. *)
Definition pset (vs : list Variable_) : gset N :=
  list_to_set (Uid <$> filter (λ v, is_parameter v = true) vs).
Definition iset (vs : list Variable_) : gset N :=
  list_to_set (Uid <$> filter (λ v, is_input v = true) vs).

Definition sigmoid_ (f : Function) : Function := Sigmoid f "".

(** The graph lines 68-71 put around a classifier output. *)
Definition model (classifierOutput : Function) (labelsVar : Variable_) : Function :=
  Combine [CrossEntropyWithSoftmax classifierOutput labelsVar "LossFunction";
           ClassificationError classifierOutput labelsVar "ClassificationError";
           classifierOutput] "ClassifierModel".

(** The classifier output over the hidden layers [hidden]. *)
Definition classifier_graph (input : Function) (Win bin : Parameter_)
    (hidden : list (Parameter_ * Parameter_)) (Wout : Parameter_) (name : string)
  : Function :=
  Times Wout
    (chain sigmoid_ hidden
       (FullyConnectedDNNLayerWithSharedParameters input Win bin sigmoid_))
    1 name.

(** The input variables created by a run that starts with [uid] as the
    next fresh identity. *)
Definition features (inputDim : size_t) (uid : N) : Variable_ :=
  InputVar uid [inputDim] Float "Features".
Definition labels_of (numOutputClasses : size_t) (uid : N) : Variable_ :=
  InputVar (N.succ uid) [numOutputClasses] Float "Labels".

(** The network lines 56-71 assemble when [uid] is the next fresh
    identity. *)
Definition assembled (inputDim numOutputClasses numHiddenLayers : size_t)
    (Win bin : Parameter_) (Ws bs : list Parameter_) (Wout : Parameter_) (uid : N)
  : Network :=
  let n := N.to_nat (numHiddenLayers - 1) in
  let out :=
    classifier_graph (features inputDim uid) Win bin (zip (take n Ws) (take n bs))
      Wout "" in
  let labels := labels_of numOutputClasses uid in
  mkNetwork (features inputDim uid) labels out
    (ClassificationError out labels "ClassificationError") (model out labels).

Definition advance (k : N) (w : World) : World :=
  mkWorld (next_uid w + k) (rand_state w) (trace w).

(** The counts the checks expect of a graph with [H] hidden layers. *)
Definition expected_counts (f : Function) (H : size_t) : Prop :=
  vector_size (Parameters f) = 2 * H + 1
  ∧ vector_size (Arguments f) = 2
  ∧ vector_size (Outputs f) = 3.

Definition count_messages : list string :=
  [": Function does not have expected Parameter count";
   ": Function does not have expected Argument count";
   ": Function does not have expected Output count"].

Definition with_rand (w : World) (s : RandState) : World :=
  mkWorld (next_uid w) s (trace w).

(** The outcome of a run from the generator state [s] alone. *)
Definition pure_run {A} (c : M A) (s : RandState) : Outcome A := c (mkWorld 0 s []).

Definition lift_outcome {A} (w : World) (o : Outcome A) : Outcome A :=
  match o with
  | Ok a w' => Ok a (with_rand w (rand_state w'))
  | Fail e w' => Fail e (with_rand w (rand_state w'))
  end.

(** [c] reads and writes nothing of the world but the generator. *)
Definition rand_only {A} (c : M A) : Prop :=
  ∀ w, c w = lift_outcome w (pure_run c (rand_state w)).

(** The value line 91 stores for the random number [r]. *)
Definition unit_sample (r : Z) : float :=
  float_div (float_of_int r) (float_of_int RAND_MAX).

(** Row [i] of a buffer of rows of [K] entries has a 1 in one column and
    0 in every other column. *)
Definition one_hot_row (K : nat) (buf : list float) (i : nat) : Prop :=
  ∃ j, (j < K)%nat
       ∧ ∀ c, (c < K)%nat →
           buf !! (i * K + c)%nat = Some (if decide (c = j) then 1%Q else 0%Q).

Definition zero_row (K : nat) (buf : list float) (i : nat) : Prop :=
  ∀ c, (c < K)%nat → buf !! (i * K + c)%nat = Some 0%Q.

(** The generator after [k] calls of [rand], and the number the next
    call returns. *)
Definition state_after (k : nat) (s : RandState) : RandState :=
  Nat.iter k (λ s, (rand_step s).2) s.
Definition nth_draw (k : nat) (s : RandState) : Z := (rand_step (state_after k s)).1.

Definition batch_of (D K n : size_t) (inputData labelData : list float)
  : Value * Value :=
  (mkValue (mkNDArrayView [D; 1; n] inputData (vector_size inputData) CPUDevice true),
   mkValue (mkNDArrayView [K; 1; n] labelData (vector_size labelData) CPUDevice true)).

(** The batches [n] successive iterations generate from the generator
    state [s], and the generator state they leave. *)
Fixpoint batches (D K : size_t) (n : nat) (s : RandState)
  : option (list (Value * Value) * RandState) :=
  match n with
  | O => Some ([], s)
  | Datatypes.S n =>
      match pure_run (GenerateBatch D K 3) s with
      | Ok b w' =>
          match batches D K n (rand_state w') with
          | Some (bs, s') => Some (b :: bs, s')
          | None => None
          end
      | Fail _ _ => None
      end
  end.

Definition iteration (D K : size_t) (net : Network) (computeDevice : DeviceDescriptor)
    (t : size_t) (_ : unit) : M unit :=
  batch ← GenerateBatch D K 3;
  emit (ForwardCall net computeDevice batch).

Definition new_events (w w' : World) : list Event :=
  drop (length (trace w)) (trace w').

(** The (input value, label value) pairs of the forward evaluations
    among events. *)
Definition forward_batches (evs : list Event) : list (Value * Value) :=
  omap (λ ev, match ev with
              | Forward _ [(_, inputValue); (_, labelValue)] _ _ =>
                  Some (inputValue, labelValue)
              | _ => None
              end) evs.

Definition inputData_of (b : Value * Value) : list float := view_dataBuffer (Data b.1).
Definition labelData_of (b : Value * Value) : list float := view_dataBuffer (Data b.2).

(** The thirteen tensors lines 117-133 create when [n] is the next fresh
    identity, as the arguments every worker is started with. *)
Definition shared_args (n : N) (device : DeviceDescriptor) : WorkerArgs :=
  let hiddenTimes i :=
    mkParameter (n + 2 + i) [2048; 2048] (RandomUniform (-0.5) 0.5 1) device in
  let hiddenPlus i := mkParameter (n + 7 + i) [2048] (ConstantInit 0) device in
  mkWorkerArgs 937 9304 6
    (mkParameter n [2048; 937] (RandomUniform (-0.5) 0.5 1) device)
    (mkParameter (n + 1) [2048] (ConstantInit 0) device)
    [hiddenTimes 0; hiddenTimes 1; hiddenTimes 2; hiddenTimes 3; hiddenTimes 4]
    [hiddenPlus 0; hiddenPlus 1; hiddenPlus 2; hiddenPlus 3; hiddenPlus 4]
    (mkParameter (n + 12) [9304; 2048] (RandomUniform (-0.5) 0.5 1) device)
    device.

(** Lines 135-147: run the evaluation in parallel. *)
Definition run_threads (args : WorkerArgs) (threadCount : Z) : M unit :=
  threadList ← thread_vector threadCount;
  threadList ←
    for_ 0 (Z.to_N threadCount) (λ th threadList,
      t ← std_thread args;
      assign threadList th t)
      threadList;
  for_ 0 (Z.to_N threadCount) (λ th _,
    t ← subscript threadList th;
    join t;;
    emit (Fprintf_stderr ("thread %d joined." +:+ LF) [ArgInt (Z.of_N th)]);;
    emit Fflush_stderr)
    tt.

(** Arguments a worker returns on. *)
Definition good_args (args : WorkerArgs) : Prop :=
  1 ≤ arg_numHiddenLayers args
  ∧ 2 * arg_numHiddenLayers args + 1 < 2 ^ 64
  ∧ length (arg_hiddenLayerTimesParam args) = N.to_nat (arg_numHiddenLayers args - 1)
  ∧ length (arg_hiddenLayerPlusParam args) = N.to_nat (arg_numHiddenLayers args - 1)
  ∧ NoDup (param_uid <$> arg_inputTimesParam args :: arg_inputPlusParam args
             :: arg_outputTimesParam args
             :: arg_hiddenLayerTimesParam args ++ arg_hiddenLayerPlusParam args)
  ∧ 0 < arg_numOutputClasses args
  ∧ arg_numOutputClasses args * 3 < 2 ^ 64.

(** The identity of thread [k] when [n] is the next fresh identity as the
    first thread starts: a thread takes one identity, its worker two. *)
Definition thread_id (n : N) (k : nat) : N := n + 3 * N.of_nat k.

Definition worker_net (args : WorkerArgs) (n : N) (k : nat) : Network :=
  assembled (arg_inputDim args) (arg_numOutputClasses args) (arg_numHiddenLayers args)
    (arg_inputTimesParam args) (arg_inputPlusParam args)
    (arg_hiddenLayerTimesParam args) (arg_hiddenLayerPlusParam args)
    (arg_outputTimesParam args) (thread_id n k + 1).

(** The events of starting thread [k], whose worker feeds the batches
    [bs4], and of joining it. *)
Definition start_events (args : WorkerArgs) (n : N) (bs4 : list (Value * Value))
    (k : nat) : list Event :=
  ThreadStart (thread_id n k) args
  :: (ForwardCall (worker_net args n k) (arg_computeDevice args) <$> bs4).

Definition join_events (n : N) (k : nat) : list Event :=
  [ThreadJoin (thread_id n k);
   Fprintf_stderr ("thread %d joined." +:+ LF) [ArgInt (Z.of_nat k)];
   Fflush_stderr].

Definition started (args : WorkerArgs) (n : N) (bs4 : list (Value * Value)) (T : nat)
  : list Event :=
  flat_map (start_events args n bs4) (seq 0 T).

Definition joined (n : N) (T : nat) : list Event := flat_map (join_events n) (seq 0 T).

(** The thread starts, the thread joins and the lines sent to [stderr]
    among events, in order. *)
Definition thread_starts (evs : list Event) : list (N * WorkerArgs) :=
  omap (λ ev, match ev with ThreadStart th args => Some (th, args) | _ => None end) evs.
Definition thread_joins (evs : list Event) : list N :=
  omap (λ ev, match ev with ThreadJoin th => Some th | _ => None end) evs.
Definition stderr_lines (evs : list Event) : list (string * list PrintfArg) :=
  omap (λ ev, match ev with Fprintf_stderr f args => Some (f, args) | _ => None end) evs.

(** The tensors lines 212-216 create when [n] is the next fresh
    identity, and the graph lines 209-223 build of them. *)
Definition own_weight (n : N) (device : DeviceDescriptor) (inputDim : size_t) (i : N)
  : Parameter_ :=
  mkParameter (n + 1 + 2 * i) [2048; inputDim] (RandomUniform (-0.05) 0.05 1) device.
Definition own_bias (n : N) (device : DeviceDescriptor) (i : N) : Parameter_ :=
  mkParameter (n + 2 + 2 * i) [2048] (RandomUniform (-0.05) 0.05 1) device.
Definition own_hidden (n : N) (device : DeviceDescriptor)
  : list (Parameter_ * Parameter_) :=
  (λ i, (own_weight n device 2048 i, own_bias n device i)) <$> [1; 2; 3; 4; 5].
Definition own_output (n : N) (device : DeviceDescriptor) : Parameter_ :=
  mkParameter (n + 13) [9304; 2048] (RandomUniform (-0.5) 0.5 1) device.

Definition own_graph (n : N) (device : DeviceDescriptor) : Function :=
  model
    (classifier_graph (InputVar n [937] Float "features")
       (own_weight n device 937 0) (own_bias n device 0) (own_hidden n device)
       (own_output n device) "classifierOutput")
    (InputVar (n + 14) [9304] Float "Labels").

(** The call of [fprintf] at line 238, with the arguments it is given. *)
Definition summary_line (count : Z) (ffNet : Function) : Event :=
  Fprintf_stderr ("%d, %p, %p" +:+ LF)
    [ArgInt count; ArgVariables (Arguments ffNet); ArgFunctions (Outputs ffNet)].

(** The column line 98 sets for the random number [r]:
    [rand() % numOutputClasses], the [int] converted to [size_t]. *)
Definition drawn_class (numOutputClasses : size_t) (r : Z) : nat :=
  N.to_nat (size_of_int r mod numOutputClasses).

(** The calls of [rand] of one iteration of the driver: one for each
    input value, then one for each of the three samples. *)
Definition draws_per_iteration (inputDim : size_t) : nat :=
  (N.to_nat (size_mul inputDim 3%N) + 3)%nat.

(** The graphs of the forward evaluations among events, in order. *)
Definition forward_functions (evs : list Event) : list Function :=
  omap (λ ev, match ev with Forward f _ _ _ => Some f | _ => None end) evs.

(** The tensors a worker is given. *)
Definition tensors_of (args : WorkerArgs) : list Parameter_ :=
  arg_inputTimesParam args :: arg_inputPlusParam args :: arg_outputTimesParam args
    :: arg_hiddenLayerTimesParam args ++ arg_hiddenLayerPlusParam args.

(** The parameters of the layers of a chain, outermost layer first, as
    [Inputs] meets them. *)
Definition chain_leaves (hidden : list (Parameter_ * Parameter_)) : list Variable_ :=
  flat_map (λ Wb, [ParameterVar Wb.2; ParameterVar Wb.1]) (reverse hidden).

(** The message of the first check of lines 73-80. *)
Definition parameter_count_error : Failure :=
  runtime_error
    ("EvaluationNewNetworkWithSharedParameters"
     +:+ ": Function does not have expected Parameter count").



(** The numbers that the next [n] calls of [rand] return, the generator
    being in state [s]. *)
Definition draws_from (s : RandState) (n : nat) : list Z :=
  (λ k, nth_draw k s) <$> seq 0 n.

(** The row of a sample in the label buffer when the call of [rand] of
    line 98 returns [r]: [numOutputClasses] entries, of which the one in
    column [r % numOutputClasses] is 1 and the others are 0. *)
Definition label_row (numOutputClasses : size_t) (r : Z) : list float :=
  (λ c, if decide (c = drawn_class numOutputClasses r) then 1%Q else 0%Q)
    <$> seq 0 (N.to_nat numOutputClasses).

(** The batch of an iteration in which the calls of [rand] return the
    numbers [rs], in order: the input buffer holds the quotient by
    [RAND_MAX] of each of the first [inputDim * 3] numbers (lines 89-91),
    and the label buffer holds one row for each of the next three numbers
    (lines 96-98). *)
Definition batch_of_draws (inputDim numOutputClasses : size_t) (rs : list Z)
  : Value * Value :=
  let n := N.to_nat (size_mul inputDim 3) in
  batch_of inputDim numOutputClasses 3
    (unit_sample <$> take n rs)
    (flat_map (label_row numOutputClasses) (take 3 (drop n rs))).

(** The batches of [n] iterations in which the calls of [rand] return the
    numbers [rs]: every iteration takes the numbers of its own calls. *)
Fixpoint batches_of_draws (inputDim numOutputClasses : size_t) (n : nat) (rs : list Z)
  : list (Value * Value) :=
  match n with
  | O => []
  | Datatypes.S n =>
      batch_of_draws inputDim numOutputClasses (take (draws_per_iteration inputDim) rs)
      :: batches_of_draws inputDim numOutputClasses n
           (drop (draws_per_iteration inputDim) rs)
  end.

(** *** Workers that run at the same time *)

(** A call of a thread on the generator. *)
Inductive GeneratorCall :=
| call_srand (seed : N)
| call_rand.

(** The calls of one invocation of the driver, in program order: [srand]
    at line 85, then, in each of the four iterations, [rand] at line 91
    for every input value and at line 98 for every sample. *)
Definition driver_calls (inputDim : size_t) : list GeneratorCall :=
  call_srand 2 :: replicate (4 * draws_per_iteration inputDim) call_rand.

(** A worker on its way through the driver: the calls it has still to
    make, and the numbers its calls of [rand] have returned so far. *)
Record Worker := mkWorker {
  pending : list GeneratorCall;
  returned : list Z
}.

Definition new_worker (inputDim : size_t) : Worker :=
  mkWorker (driver_calls inputDim) [].

(** The worker makes its next call, on a generator in state [s]. *)
Definition make_call (s : RandState) (wk : Worker) : RandState * Worker :=
  match pending wk with
  | [] => (s, wk)
  | call_srand seed :: calls => (srand_state seed, mkWorker calls (returned wk))
  | call_rand :: calls =>
      let '(r, s') := rand_step s in (s', mkWorker calls (returned wk ++ [r]))
  end.

(** A schedule names, step by step, the worker that makes its next call.
    With one generator state for the process, every call acts on that
    state. *)
Definition shared_step (cfg : RandState * list Worker) (i : nat)
  : RandState * list Worker :=
  match cfg.2 !! i with
  | Some wk => let '(s', wk') := make_call cfg.1 wk in (s', <[i := wk']> cfg.2)
  | None => cfg
  end.

Definition run_shared (schedule : list nat) (s : RandState) (workers : list Worker)
  : RandState * list Worker :=
  fold_left shared_step schedule (s, workers).

(** With a generator state for each thread, a call acts on the state of
    the thread that makes it. *)
Definition own_step (cfg : list (RandState * Worker)) (i : nat)
  : list (RandState * Worker) :=
  match cfg !! i with
  | Some (s, wk) => <[i := make_call s wk]> cfg
  | None => cfg
  end.

Definition run_own (schedule : list nat) (cfg : list (RandState * Worker))
  : list (RandState * Worker) :=
  fold_left own_step schedule cfg.

(** The schedule in which each of [T] workers makes all its calls before
    the next worker makes its first. *)
Definition one_after_another (inputDim : size_t) (T : nat) : list nat :=
  flat_map (λ i, replicate (length (driver_calls inputDim)) i) (seq 0 T).

(** A worker that has made all its calls, [rand] having returned [rs]. *)
Definition finished (rs : list Z) : Worker := mkWorker [] rs.

(** Where a worker can be on its way through the driver, with the state
    [s] of the generator its calls act on alone: before its first call,
    or after [srand] and [j] calls of [rand]. *)
Definition on_the_way (inputDim : size_t) (sw : RandState * Worker) : Prop :=
  sw.2 = new_worker inputDim
  ∨ ∃ j, (j ≤ 4 * draws_per_iteration inputDim)%nat
         ∧ sw.1 = state_after j (srand_state 2)
         ∧ sw.2 = mkWorker (replicate (4 * draws_per_iteration inputDim - j) call_rand)
                    (draws_from (srand_state 2) j).

(** ** Properties *)

(** Proofs about graphs alone do not look at the runtime. *)
Ltac drop_runtime :=
  try clear round; try clear RAND_MAX; try clear srand_state; try clear rand_step;
  try clear RandState.

(** *** Sequencing *)

Lemma bind_unfold {A B} (c : M A) (k : A → M B) w :
  (c ≫= k) w = match c w with Ok a w' => k a w' | Fail e w' => Fail e w' end.
Proof. reflexivity. Qed.

Lemma bind_Ok {A B} (c : M A) (k : A → M B) w a w' :
  c w = Ok a w' → (c ≫= k) w = k a w'.
Proof. intros E. rewrite bind_unfold, E. reflexivity. Qed.

Lemma bind_Fail {A B} (c : M A) (k : A → M B) w e w' :
  c w = Fail e w' → (c ≫= k) w = Fail e w'.
Proof. intros E. rewrite bind_unfold, E. reflexivity. Qed.

Lemma ret_unfold {A} (a : A) w : (mret a : M A) w = Ok a w.
Proof. reflexivity. Qed.

Lemma InputVariable_unfold shape dataType name w :
  InputVariable shape dataType name w
  = Ok (InputVar (next_uid w) shape dataType name)
      (mkWorld (N.succ (next_uid w)) (rand_state w) (trace w)).
Proof. reflexivity. Qed.

Lemma NewParameter_unfold shape init device w :
  NewParameter shape init device w
  = Ok (mkParameter (next_uid w) shape init device)
      (mkWorld (N.succ (next_uid w)) (rand_state w) (trace w)).
Proof. reflexivity. Qed.

Lemma emit_unfold ev w :
  emit ev w = Ok tt (mkWorld (next_uid w) (rand_state w) (trace w ++ [ev])).
Proof. reflexivity. Qed.

Lemma subscript_Some {A} (a : list A) i x w :
  a !! N.to_nat i = Some x → subscript a i w = Ok x w.
Proof. unfold subscript. intros ->. reflexivity. Qed.

Lemma subscript_None {A} (a : list A) i w :
  a !! N.to_nat i = None → subscript a i w = Fail OutOfBounds w.
Proof. unfold subscript. intros ->. reflexivity. Qed.

(** *** The classifier in closed form *)

Lemma chain_cons nonLinearity W b hidden root :
  chain nonLinearity ((W, b) :: hidden) root
  = chain nonLinearity hidden
      (FullyConnectedDNNLayerWithSharedParameters root W b nonLinearity).
Proof. reflexivity. Qed.

Lemma hidden_body_Ok Ws bs nonLinearity k root w W b :
  Ws !! k = Some W → bs !! k = Some b →
  hidden_body Ws bs nonLinearity (N.of_nat (S k)) root w
  = Ok (FullyConnectedDNNLayerWithSharedParameters root W b nonLinearity) w.
Proof.
  intros EW Eb. unfold hidden_body.
  replace (N.of_nat (S k) - 1) with (N.of_nat k) by lia.
  rewrite bind_unfold, (subscript_Some Ws _ W) by (rewrite Nat2N.id; assumption).
  rewrite bind_unfold, (subscript_Some bs _ b) by (rewrite Nat2N.id; assumption).
  reflexivity.
Qed.

Lemma hidden_body_Fail Ws bs nonLinearity k root w :
  Ws !! k = None ∨ bs !! k = None →
  hidden_body Ws bs nonLinearity (N.of_nat (S k)) root w = Fail OutOfBounds w.
Proof.
  intros E. unfold hidden_body.
  replace (N.of_nat (S k) - 1) with (N.of_nat k) by lia.
  rewrite bind_unfold. unfold subscript at 1. rewrite Nat2N.id.
  destruct (Ws !! k) as [W|]; [|reflexivity].
  destruct E as [E|E]; [discriminate|].
  cbn. rewrite bind_unfold, (subscript_None bs) by (rewrite Nat2N.id; assumption).
  reflexivity.
Qed.

Lemma hidden_loop_Ok Ws bs nonLinearity n : ∀ k root w,
  (k + n ≤ length Ws)%nat → (k + n ≤ length bs)%nat →
  for_loop n (N.of_nat (S k)) (hidden_body Ws bs nonLinearity) root w
  = Ok (chain nonLinearity (zip (take n (drop k Ws)) (take n (drop k bs))) root) w.
Proof.
  induction n as [|n IH]; intros k root w HW Hb; [reflexivity|].
  destruct (lookup_lt_is_Some_2 Ws k) as [W EW]; [lia|].
  destruct (lookup_lt_is_Some_2 bs k) as [b Eb]; [lia|].
  cbn [for_loop]. rewrite bind_unfold, (hidden_body_Ok _ _ _ _ _ _ W b EW Eb).
  replace (N.succ (N.of_nat (S k))) with (N.of_nat (S (S k))) by lia.
  rewrite IH by lia.
  rewrite (drop_S Ws W k EW), (drop_S bs b k Eb). reflexivity.
Qed.

Lemma hidden_loop_Fail Ws bs nonLinearity n : ∀ k root w,
  (length Ws < k + n)%nat ∨ (length bs < k + n)%nat →
  (k ≤ length Ws)%nat → (k ≤ length bs)%nat →
  for_loop n (N.of_nat (S k)) (hidden_body Ws bs nonLinearity) root w
  = Fail OutOfBounds w.
Proof.
  induction n as [|n IH]; intros k root w Hshort HW Hb; [lia|].
  cbn [for_loop]. rewrite bind_unfold.
  destruct (Ws !! k) as [W|] eqn:EW; [destruct (bs !! k) as [b|] eqn:Eb|].
  - rewrite (hidden_body_Ok _ _ _ _ _ _ W b EW Eb).
    replace (N.succ (N.of_nat (S k))) with (N.of_nat (S (S k))) by lia.
    apply lookup_lt_Some in EW, Eb. apply IH; lia.
  - rewrite hidden_body_Fail by (right; assumption). reflexivity.
  - rewrite hidden_body_Fail by (left; assumption). reflexivity.
Qed.

Lemma classifier_Ok input H Win bin Ws bs Wout nonLinearity w :
  (N.to_nat (H - 1) ≤ length Ws)%nat → (N.to_nat (H - 1) ≤ length bs)%nat →
  FullyConnectedFeedForwardClassifierNetWithSharedParameters
    input H Win bin Ws bs Wout nonLinearity w
  = Ok (Times Wout
          (chain nonLinearity
             (zip (take (N.to_nat (H - 1)) Ws) (take (N.to_nat (H - 1)) bs))
             (FullyConnectedDNNLayerWithSharedParameters input Win bin nonLinearity))
          1 "") w.
Proof.
  intros HW Hb. unfold FullyConnectedFeedForwardClassifierNetWithSharedParameters, for_.
  rewrite bind_unfold.
  change (for_loop ?n 1 ?b ?s w) with (for_loop n (N.of_nat 1) b s w).
  erewrite (hidden_loop_Ok Ws bs nonLinearity _ 0%nat) by (simpl; lia).
  reflexivity.
Qed.

Lemma classifier_Fail input H Win bin Ws bs Wout nonLinearity w :
  (length Ws < N.to_nat (H - 1))%nat ∨ (length bs < N.to_nat (H - 1))%nat →
  FullyConnectedFeedForwardClassifierNetWithSharedParameters
    input H Win bin Ws bs Wout nonLinearity w
  = Fail OutOfBounds w.
Proof.
  intros Hshort. unfold FullyConnectedFeedForwardClassifierNetWithSharedParameters, for_.
  rewrite bind_unfold.
  change (for_loop ?n 1 ?b ?s w) with (for_loop n (N.of_nat 1) b s w).
  erewrite (hidden_loop_Fail Ws bs nonLinearity _ 0%nat) by (simpl; lia).
  reflexivity.
Qed.

(** *** What the classifier computes *)

Section Meaning.
Context {T : Type} (I : Algebra T) (nonLinearity : Function → Function) (nl : T → T).
Hypothesis plus_comm : ∀ a b, plus I a b = plus I b a.
Hypothesis nonLinearity_nl : ∀ f, denote I (nonLinearity f) = nl (denote I f).

Lemma denote_layer input (W b : Parameter_) :
  denote I (FullyConnectedDNNLayerWithSharedParameters input W b nonLinearity)
  = layer_value I nl (leaf I W) (leaf I b) (denote I input).
Proof using plus_comm nonLinearity_nl.
  unfold FullyConnectedDNNLayerWithSharedParameters, layer_value.
  rewrite nonLinearity_nl. cbn. rewrite plus_comm. reflexivity.
Qed.

Lemma denote_chain hidden : ∀ root,
  denote I (chain nonLinearity hidden root)
  = fold_left (λ prev Wb, layer_value I nl Wb.1 Wb.2 prev)
      (map (λ Wb : Parameter_ * Parameter_, (leaf I Wb.1, leaf I Wb.2)) hidden)
      (denote I root).
Proof using plus_comm nonLinearity_nl.
  induction hidden as [|[W b] hidden IH]; intros root; [reflexivity|].
  rewrite chain_cons, IH, denote_layer. reflexivity.
Qed.
End Meaning.

Lemma map_pair_zip {A B} (f : A → B) (l k : list A) :
  map (λ p : A * A, (f p.1, f p.2)) (zip l k) = zip (f <$> l) (f <$> k).
Proof.
  revert k. induction l as [|a l IH]; intros [|b k]; cbn; [reflexivity..|].
  f_equal. apply IH.
Qed.

(** C2.  For a rank-1 input variable [x] and [H >= 1] hidden layers (the
    arrays holding at least the [H - 1] tensors the loop reads), the
    classifier is built without touching the state, and whatever the
    operators of the library compute, provided the sum commutes, its
    output is the input layer [nonlinearity(W_in × x + b_in)], followed
    by exactly [H - 1] layers [nonlinearity(W_i × prev + b_i)] over the
    first [H - 1] array entries, followed by the projection [W_out × prev]
    with no nonlinearity. *)
Theorem classifier_computes_layers
    (x : Variable_) (H : size_t) (Win bin : Parameter_) (Ws bs : list Parameter_)
    (Wout : Parameter_) (nonLinearity : Function → Function) (w : World) :
  assert_rank1 x → assert_numHiddenLayers H →
  (N.to_nat (H - 1) ≤ length Ws)%nat → (N.to_nat (H - 1) ≤ length bs)%nat →
  ∃ classifierRoot,
    FullyConnectedFeedForwardClassifierNetWithSharedParameters
      x H Win bin Ws bs Wout nonLinearity w = Ok classifierRoot w
    ∧ ∀ (T : Type) (I : Algebra T) (nl : T → T),
        (∀ a b, plus I a b = plus I b a) →
        (∀ f, denote I (nonLinearity f) = nl (denote I f)) →
        ∃ hidden : list (T * T),
          hidden = zip ((λ p : Parameter_, leaf I p) <$> take (N.to_nat (H - 1)) Ws)
                       ((λ p : Parameter_, leaf I p) <$> take (N.to_nat (H - 1)) bs)
          ∧ length hidden = N.to_nat (H - 1)
          ∧ denote I classifierRoot
            = classifier_value I nl (leaf I x) (leaf I Win) (leaf I bin) hidden
                (leaf I Wout).
Proof.
  intros _ _ HW Hb. eexists. split; [apply classifier_Ok; assumption|].
  intros T I nl Hcomm Hnl. eexists. split; [reflexivity|]. split.
  - rewrite length_zip, !length_fmap, !length_take. lia.
  - cbn [denote]. unfold classifier_value.
    rewrite (denote_chain I nonLinearity nl Hcomm Hnl).
    rewrite (denote_layer I nonLinearity nl Hcomm Hnl).
    rewrite (map_pair_zip (λ p : Parameter_, leaf I p)). reflexivity.
Qed.

(** *** Counting the tensors of a graph *)

Lemma length_uniq_from vs : ∀ seen,
  length (uniq_from seen vs) = size (list_to_set (Uid <$> vs) ∖ seen).
Proof.
  drop_runtime.
  induction vs as [|v vs IH]; intros seen; cbn [uniq_from fmap list_fmap list_to_set].
  - replace (∅ ∖ seen) with (∅ : gset N) by set_solver. reflexivity.
  - destruct (decide (Uid v ∈ seen)) as [Hin|Hnin].
    + rewrite IH. f_equal. set_solver.
    + cbn [length]. rewrite IH.
      replace (({[Uid v]} ∪ list_to_set (Uid <$> vs)) ∖ seen)
        with ({[Uid v]} ∪ (list_to_set (Uid <$> vs) ∖ ({[Uid v]} ∪ seen)) : gset N).
      * rewrite (size_union {[Uid v]}) by set_solver.
        rewrite size_singleton. reflexivity.
      * apply set_eq. intros u. rewrite !elem_of_union, !elem_of_difference,
          !elem_of_union, elem_of_singleton.
        destruct (decide (u = Uid v)) as [->|]; tauto.
Qed.

Lemma length_uniq vs :
  length (uniq vs) = size (list_to_set (Uid <$> vs) : gset N).
Proof.
  drop_runtime.
  unfold uniq. rewrite length_uniq_from. f_equal. set_solver.
Qed.

Lemma pset_app a b : pset (a ++ b) = pset a ∪ pset b.
Proof. drop_runtime. unfold pset. rewrite filter_app, fmap_app. set_solver. Qed.
Lemma iset_app a b : iset (a ++ b) = iset a ∪ iset b.
Proof. drop_runtime. unfold iset. rewrite filter_app, fmap_app. set_solver. Qed.
Lemma pset_nil : pset [] = ∅.
Proof. reflexivity. Qed.
Lemma iset_nil : iset [] = ∅.
Proof. reflexivity. Qed.
Lemma pset_param (p : Parameter_) : pset [ParameterVar p] = {[param_uid p]}.
Proof. drop_runtime. unfold pset. cbn. set_solver. Qed.
Lemma iset_param (p : Parameter_) : iset [ParameterVar p] = ∅.
Proof. reflexivity. Qed.
Lemma pset_input u sh dt nm : pset [InputVar u sh dt nm] = ∅.
Proof. reflexivity. Qed.
Lemma iset_input u sh dt nm : iset [InputVar u sh dt nm] = {[u]}.
Proof. drop_runtime. unfold iset. cbn. set_solver. Qed.

Lemma Inputs_layer input (W b : Parameter_) :
  Inputs (FullyConnectedDNNLayerWithSharedParameters input W b sigmoid_)
  = [ParameterVar b; ParameterVar W] ++ Inputs input.
Proof. reflexivity. Qed.

Lemma pset_chain hidden : ∀ root,
  pset (Inputs (chain sigmoid_ hidden root))
  = list_to_set (param_uid <$> hidden.*1) ∪ list_to_set (param_uid <$> hidden.*2)
    ∪ pset (Inputs root).
Proof.
  drop_runtime.
  induction hidden as [|[W b] hidden IH]; intros root.
  - cbn. set_solver.
  - rewrite chain_cons, IH, Inputs_layer.
    change [ParameterVar b; ParameterVar W] with ([ParameterVar b] ++ [ParameterVar W]).
    rewrite !pset_app, !pset_param. cbn. set_solver.
Qed.

Lemma iset_chain hidden : ∀ root,
  iset (Inputs (chain sigmoid_ hidden root)) = iset (Inputs root).
Proof.
  induction hidden as [|[W b] hidden IH]; intros root; [reflexivity|].
  rewrite chain_cons, IH, Inputs_layer. reflexivity.
Qed.

Lemma pset_model out (labels : Variable_) :
  is_input labels = true → pset (Inputs (model out labels)) = pset (Inputs out).
Proof.
  drop_runtime.
  intros Hl. destruct labels; [|discriminate]. unfold model. cbn [Inputs flat_map].
  rewrite !pset_app, !pset_input, pset_nil. set_solver.
Qed.

Lemma iset_model out (labels : Variable_) :
  is_input labels = true →
  iset (Inputs (model out labels)) = iset (Inputs out) ∪ {[Uid labels]}.
Proof.
  drop_runtime.
  intros Hl. destruct labels; [|discriminate]. unfold model. cbn [Inputs flat_map].
  rewrite !iset_app, !iset_input, iset_nil. set_solver.
Qed.

Lemma Parameters_model out (labels : Variable_) :
  is_input labels = true →
  length (Parameters (model out labels)) = size (pset (Inputs out)).
Proof.
  intros Hl. unfold Parameters. rewrite length_uniq.
  fold (pset (Inputs (model out labels))). rewrite pset_model by assumption.
  reflexivity.
Qed.

Lemma Arguments_model out (labels : Variable_) :
  is_input labels = true →
  length (Arguments (model out labels)) = size (iset (Inputs out) ∪ {[Uid labels]}).
Proof.
  intros Hl. unfold Arguments. rewrite length_uniq.
  fold (iset (Inputs (model out labels))). rewrite iset_model by assumption.
  reflexivity.
Qed.

Lemma pset_classifier_graph (x : Variable_) Win bin hidden Wout name :
  is_input x = true →
  pset (Inputs (classifier_graph x Win bin hidden Wout name))
  = list_to_set (param_uid <$> Win :: bin :: Wout :: hidden.*1 ++ hidden.*2).
Proof.
  drop_runtime.
  intros Hx. destruct x; [|discriminate].
  unfold classifier_graph. cbn [Inputs]. rewrite pset_app, pset_chain, Inputs_layer.
  change [ParameterVar bin; ParameterVar Win]
    with ([ParameterVar bin] ++ [ParameterVar Win]).
  cbn [Inputs]. rewrite !pset_app, !pset_param, pset_input.
  rewrite !fmap_cons, fmap_app, !list_to_set_cons, list_to_set_app_L. set_solver.
Qed.

Lemma iset_classifier_graph (x : Variable_) Win bin hidden Wout name :
  is_input x = true →
  iset (Inputs (classifier_graph x Win bin hidden Wout name)) = {[Uid x]}.
Proof.
  drop_runtime.
  intros Hx. destruct x; [|discriminate].
  unfold classifier_graph. cbn [Inputs]. rewrite iset_app, iset_chain, Inputs_layer.
  change [ParameterVar bin; ParameterVar Win]
    with ([ParameterVar bin] ++ [ParameterVar Win]).
  cbn [Inputs]. rewrite !iset_app, !iset_param, iset_input. cbn [Uid]. set_solver.
Qed.

(** Distinct tensors and two distinct inputs give the counts the checks
    expect. *)
Lemma model_counts (x labels : Variable_) Win bin hidden Wout name :
  is_input x = true → is_input labels = true → Uid x ≠ Uid labels →
  let f := model (classifier_graph x Win bin hidden Wout name) labels in
  (NoDup (param_uid <$> Win :: bin :: Wout :: hidden.*1 ++ hidden.*2) →
   length (Parameters f) = (3 + length hidden.*1 + length hidden.*2)%nat)
  ∧ length (Arguments f) = 2%nat
  ∧ length (Outputs f) = 3%nat.
Proof.
  intros Hx Hl Hne f. split; [|split].
  - intros Hnd. unfold f. rewrite Parameters_model, pset_classifier_graph by assumption.
    rewrite size_list_to_set by assumption.
    rewrite length_fmap. cbn [length]. rewrite length_app. lia.
  - unfold f. rewrite Arguments_model, iset_classifier_graph by assumption.
    rewrite size_union by set_solver. rewrite !size_singleton. reflexivity.
  - reflexivity.
Qed.

(** *** Lines 56-80 *)

Lemma AssembleNetwork_Ok D K H Win bin Ws bs Wout w :
  (N.to_nat (H - 1) ≤ length Ws)%nat → (N.to_nat (H - 1) ≤ length bs)%nat →
  AssembleNetwork D K H Win bin Ws bs Wout w
  = Ok (assembled D K H Win bin Ws bs Wout (next_uid w)) (advance 2 w).
Proof.
  intros HW Hb. unfold AssembleNetwork.
  rewrite bind_unfold, InputVariable_unfold.
  rewrite bind_unfold, (classifier_Ok _ H Win bin Ws bs Wout) by assumption.
  rewrite bind_unfold, InputVariable_unfold, ret_unfold.
  unfold assembled, advance, features, labels_of, classifier_graph, model, sigmoid_.
  cbn [next_uid rand_state trace]. do 2 f_equal. lia.
Qed.

Lemma AssembleNetwork_Fail D K H Win bin Ws bs Wout w :
  (length Ws < N.to_nat (H - 1))%nat ∨ (length bs < N.to_nat (H - 1))%nat →
  AssembleNetwork D K H Win bin Ws bs Wout w = Fail OutOfBounds (advance 1 w).
Proof.
  intros Hshort. unfold AssembleNetwork.
  rewrite bind_unfold, InputVariable_unfold.
  rewrite bind_unfold, (classifier_Fail _ H Win bin Ws bs Wout) by assumption.
  unfold advance. cbn [next_uid rand_state trace]. do 2 f_equal. lia.
Qed.

Lemma expected_parameter_count H :
  2 * H + 1 < 2 ^ 64 → size_add (size_mul H 2) 1 = 2 * H + 1.
Proof.
  intros Hlt. unfold size_add, size_mul, size_wrap.
  rewrite (N.mod_small (H * 2)) by lia. rewrite N.mod_small by lia. lia.
Qed.

Lemma CheckStructure_passes who f H w :
  2 * H + 1 < 2 ^ 64 → expected_counts f H → CheckStructure who f H w = Ok tt w.
Proof.
  intros Hlt (Hp & Ha & Ho). unfold CheckStructure.
  rewrite expected_parameter_count, Hp, Ha, Ho, !N.eqb_refl by assumption.
  reflexivity.
Qed.

Lemma CheckStructure_throws who f H w :
  2 * H + 1 < 2 ^ 64 → ¬ expected_counts f H →
  ∃ what, what ∈ count_messages
          ∧ CheckStructure who f H w = Fail (runtime_error (who +:+ what)) w.
Proof.
  drop_runtime.
  intros Hlt Hne. unfold CheckStructure, count_messages.
  rewrite expected_parameter_count by assumption.
  destruct (N.eqb_spec (vector_size (Parameters f)) (2 * H + 1)) as [Hp|Hp];
    [|eexists; split; [|reflexivity]; set_solver].
  destruct (N.eqb_spec (vector_size (Arguments f)) 2) as [Ha|Ha];
    [|eexists; split; [|reflexivity]; set_solver].
  destruct (N.eqb_spec (vector_size (Outputs f)) 3) as [Ho|Ho];
    [|eexists; split; [|reflexivity]; set_solver].
  exfalso. apply Hne. repeat split; assumption.
Qed.

Lemma assembled_counts D K H Win bin Ws bs Wout u :
  1 ≤ H → length Ws = N.to_nat (H - 1) → length bs = N.to_nat (H - 1) →
  let f := ffNet (assembled D K H Win bin Ws bs Wout u) in
  (NoDup (param_uid <$> Win :: bin :: Wout :: Ws ++ bs) →
   vector_size (Parameters f) = 2 * H + 1)
  ∧ vector_size (Arguments f) = 2
  ∧ vector_size (Outputs f) = 3.
Proof.
  intros HH HW Hb f. unfold f, assembled. cbn [ffNet].
  rewrite !firstn_all2 by lia.
  pose proof (model_counts (features D u) (labels_of K u) Win bin (zip Ws bs) Wout "")
    as Hc.
  cbn zeta in Hc. rewrite fst_zip, snd_zip in Hc by lia.
  destruct Hc as (Hp & Ha & Ho); [reflexivity|reflexivity|cbn; lia|].
  unfold vector_size. rewrite Ha, Ho. repeat split.
  intros Hnd. rewrite Hp by assumption. lia.
Qed.

(** C1.  For [H >= 1] hidden layers (and arrays of the [H - 1] tensors
    they need), the graph that [EvaluationNewNetworkWithSharedParameters]
    assembles always reports 2 arguments and 3 outputs, and reports
    [2H + 1] parameters when the tensors it is given are distinct.  The
    function goes on to the evaluation only with a graph of [2H + 1]
    parameters; with any other count it throws the [runtime_error] naming
    the count, having evaluated nothing.  In general the checks pass a
    graph exactly when its three counts are the expected ones, and throw
    a [runtime_error] with one of the three messages otherwise. *)
Theorem structure_counts_enforced
    (inputDim numOutputClasses H : size_t) (Win bin : Parameter_)
    (Ws bs : list Parameter_) (Wout : Parameter_)
    (computeDevice : DeviceDescriptor) (w : World) :
  assert_numHiddenLayers H → 2 * H + 1 < 2 ^ 64 →
  length Ws = N.to_nat (H - 1) → length bs = N.to_nat (H - 1) →
  ∃ net w1,
    AssembleNetwork inputDim numOutputClasses H Win bin Ws bs Wout w = Ok net w1
    ∧ trace w1 = trace w
    ∧ (NoDup (param_uid <$> Win :: bin :: Wout :: Ws ++ bs) →
       vector_size (Parameters (ffNet net)) = 2 * H + 1)
    ∧ vector_size (Arguments (ffNet net)) = 2
    ∧ vector_size (Outputs (ffNet net)) = 3
    ∧ (vector_size (Parameters (ffNet net)) = 2 * H + 1 →
       EvaluationNewNetworkWithSharedParameters inputDim numOutputClasses H
         Win bin Ws bs Wout computeDevice w
       = EvaluateNetwork inputDim numOutputClasses net computeDevice w1)
    ∧ (vector_size (Parameters (ffNet net)) ≠ 2 * H + 1 →
       EvaluationNewNetworkWithSharedParameters inputDim numOutputClasses H
         Win bin Ws bs Wout computeDevice w
       = Fail (runtime_error
                 ("EvaluationNewNetworkWithSharedParameters"
                  +:+ ": Function does not have expected Parameter count")) w1)
    ∧ (∀ who f w',
         (expected_counts f H → CheckStructure who f H w' = Ok tt w')
         ∧ (¬ expected_counts f H →
            ∃ what, what ∈ count_messages
                    ∧ CheckStructure who f H w'
                      = Fail (runtime_error (who +:+ what)) w')).
Proof.
  intros HH Hlt HW Hb.
  destruct (assembled_counts inputDim numOutputClasses H Win bin Ws bs Wout (next_uid w)
              HH HW Hb) as (Hp & Ha & Ho).
  exists (assembled inputDim numOutputClasses H Win bin Ws bs Wout (next_uid w)),
    (advance 2 w).
  split; [apply AssembleNetwork_Ok; lia|]. split; [reflexivity|].
  split; [exact Hp|]. split; [exact Ha|]. split; [exact Ho|].
  unfold EvaluationNewNetworkWithSharedParameters.
  rewrite bind_unfold, AssembleNetwork_Ok by lia.
  split; [|split].
  - intros Hcount. rewrite bind_unfold, CheckStructure_passes; [reflexivity|assumption|].
    repeat split; assumption.
  - intros Hcount. rewrite bind_unfold. unfold CheckStructure.
    rewrite expected_parameter_count by assumption.
    destruct (N.eqb_spec (vector_size (Parameters
      (ffNet (assembled inputDim numOutputClasses H Win bin Ws bs Wout (next_uid w)))))
      (2 * H + 1))
      as [E|E]; [contradiction|reflexivity].
  - intros who f w'. split.
    + apply CheckStructure_passes; assumption.
    + apply CheckStructure_throws; assumption.
Qed.

(** *** Loops *)

(** An invariant [Inv k], of the loop state and the world after [k]
    iterations, that every iteration re-establishes, holds when the loop
    ends, and the loop ends normally. *)
Lemma for_loop_inv {S} (Inv : nat → S → World → Prop)
    (body : size_t → S → M S) (lo : size_t) (n : nat) :
  (∀ k s w, (k < n)%nat → Inv k s w →
     ∃ s' w', body (lo + N.of_nat k) s w = Ok s' w' ∧ Inv (Datatypes.S k) s' w') →
  ∀ s w, Inv 0%nat s w →
    ∃ s' w', for_loop n lo body s w = Ok s' w' ∧ Inv n s' w'.
Proof.
  intros Hstep.
  assert (∀ m k s w, (k + m = n)%nat → Inv k s w →
            ∃ s' w', for_loop m (lo + N.of_nat k) body s w = Ok s' w' ∧ Inv n s' w')
    as Hgen.
  { induction m as [|m IH]; intros k s w Hk HI.
    - exists s, w. split; [reflexivity|]. replace n with k by lia. exact HI.
    - destruct (Hstep k s w) as (s1 & w1 & E1 & HI1); [lia|exact HI|].
      destruct (IH (Datatypes.S k) s1 w1) as (s2 & w2 & E2 & HI2); [lia|exact HI1|].
      exists s2, w2. split; [|exact HI2].
      cbn [for_loop]. rewrite bind_unfold, E1.
      replace (N.succ (lo + N.of_nat k)) with (lo + N.of_nat (Datatypes.S k)) by lia.
      exact E2. }
  intros s w HI. specialize (Hgen n 0%nat s w).
  rewrite N.add_0_r in Hgen. apply Hgen; [reflexivity|exact HI].
Qed.

(** *** Code that only draws random numbers *)

Lemma rand_only_ret {A} (a : A) : rand_only (mret a : M A).
Proof. intros [u s t]. reflexivity. Qed.

Lemma rand_only_fail {A} e : rand_only (fail e : M A).
Proof. intros [u s t]. reflexivity. Qed.

Lemma rand_only_rand : rand_only rand.
Proof.
  intros [u s t]. unfold pure_run, rand. cbn [rand_state next_uid trace].
  destruct (rand_step s) as [r s']. reflexivity.
Qed.

Lemma rand_only_bind {A B} (c : M A) (k : A → M B) :
  rand_only c → (∀ a, rand_only (k a)) → rand_only (c ≫= k).
Proof.
  intros Hc Hk w. unfold pure_run. rewrite !bind_unfold.
  rewrite (Hc w), (Hc (mkWorld 0 (rand_state w) [])). unfold pure_run.
  cbn [rand_state].
  destruct (c (mkWorld 0 (rand_state w) [])) as [a w1|e w1]; cbn [lift_outcome].
  - rewrite (Hk a (with_rand w (rand_state w1))).
    rewrite (Hk a (with_rand (mkWorld 0 (rand_state w) []) (rand_state w1))).
    cbn [with_rand rand_state]. unfold pure_run.
    destruct (k a (mkWorld 0 (rand_state w1) [])); reflexivity.
  - reflexivity.
Qed.

Lemma rand_only_for_loop {S} (body : size_t → S → M S) n :
  (∀ i s, rand_only (body i s)) → ∀ i s, rand_only (for_loop n i body s).
Proof.
  intros Hbody. induction n as [|n IH]; intros i s; cbn [for_loop].
  - apply rand_only_ret.
  - apply rand_only_bind; [apply Hbody|]. intros s'. apply IH.
Qed.

Lemma rand_only_assign {A} (a : list A) i x : rand_only (assign a i x).
Proof.
  unfold assign. destruct (decide _); [apply rand_only_ret|apply rand_only_fail].
Qed.

Lemma rand_only_size_rem a b : rand_only (size_rem a b).
Proof.
  unfold size_rem. destruct (b =? 0); [apply rand_only_fail|apply rand_only_ret].
Qed.

Lemma rand_only_FillInputData D n : rand_only (FillInputData D n).
Proof.
  unfold FillInputData, for_. apply rand_only_for_loop. intros i s.
  apply rand_only_bind; [apply rand_only_rand|]. intros r. apply rand_only_assign.
Qed.

Lemma rand_only_FillLabelData K n : rand_only (FillLabelData K n).
Proof.
  unfold FillLabelData, for_. apply rand_only_for_loop. intros i s.
  apply rand_only_bind; [apply rand_only_rand|]. intros r.
  apply rand_only_bind; [apply rand_only_size_rem|]. intros c. apply rand_only_assign.
Qed.

Lemma rand_only_GenerateBatch D K n : rand_only (GenerateBatch D K n).
Proof.
  unfold GenerateBatch.
  apply rand_only_bind; [apply rand_only_FillInputData|]. intros inputData.
  apply rand_only_bind; [apply rand_only_FillLabelData|]. intros labelData.
  apply rand_only_ret.
Qed.

(** *** Lines 89-91: the input buffer *)

Lemma rand_unfold w :
  rand w = Ok (rand_step (rand_state w)).1 (with_rand w (rand_step (rand_state w)).2).
Proof. unfold rand. destruct (rand_step (rand_state w)). reflexivity. Qed.

Lemma with_rand_eq w w' :
  next_uid w' = next_uid w → trace w' = trace w → w' = with_rand w (rand_state w').
Proof. destruct w'. cbn. intros -> ->. reflexivity. Qed.

Lemma assign_Ok {A} (a : list A) i x w :
  (N.to_nat i < length a)%nat → assign a i x w = Ok (<[N.to_nat i := x]> a) w.
Proof. intros Hi. unfold assign. rewrite decide_True by assumption. reflexivity. Qed.

Lemma vector_size_new {A} n (x : A) : vector_size (vector_new n x) = n.
Proof. unfold vector_size, vector_new. rewrite length_replicate. lia. Qed.

Lemma FillInputData_Ok (P : float → Prop) D n w :
  P 0%Q → (∀ s, P (unit_sample (rand_step s).1)) →
  ∃ inputData s',
    FillInputData D n w = Ok inputData (with_rand w s')
    ∧ length inputData = N.to_nat (size_mul D n)
    ∧ Forall P inputData.
Proof.
  intros P0 Pr. unfold FillInputData, for_.
  rewrite vector_size_new, N.sub_0_r.
  set (m := N.to_nat (size_mul D n)).
  destruct (for_loop_inv
    (λ _ buf w', next_uid w' = next_uid w ∧ trace w' = trace w
                 ∧ length buf = m ∧ Forall P buf)
    (λ i inputData, r ← rand; assign inputData i (unit_sample r)) 0 m)
    with (s := vector_new (size_mul D n) 0%Q) (w := w)
    as (buf & w' & E & Hu & Ht & Hl & HP).
  - intros k buf w1 Hk (Hu & Ht & Hl & HP).
    rewrite bind_unfold, rand_unfold.
    rewrite assign_Ok by (rewrite N.add_0_l, Nat2N.id; lia).
    eexists _, _. split; [reflexivity|]. cbn [with_rand next_uid trace].
    repeat split; try assumption.
    + rewrite length_insert. assumption.
    + apply Forall_insert; [assumption|apply Pr].
  - repeat split.
    + unfold vector_new. apply length_replicate.
    + unfold vector_new. apply Forall_replicate. exact P0.
  - exists buf, (rand_state w'). split; [|split; assumption].
    rewrite <- (with_rand_eq w w') by assumption. exact E.
Qed.

(** *** Lines 96-98: the label buffer *)

Lemma size_rem_Ok a b w : 0 < b → size_rem a b w = Ok (a mod b) w.
Proof.
  intros Hb. unfold size_rem. destruct (N.eqb_spec b 0); [lia|reflexivity].
Qed.

Lemma label_index K n k c :
  K * n < 2 ^ 64 → (k < N.to_nat n)%nat → c < K →
  N.to_nat (size_add (size_mul (0 + N.of_nat k) K) c) = (k * N.to_nat K + N.to_nat c)%nat.
Proof.
  intros Hlt Hk Hc. unfold size_add, size_mul, size_wrap. rewrite N.add_0_l.
  assert (N.of_nat k * K + c < K * n) by nia.
  rewrite (N.mod_small (N.of_nat k * K)) by lia. rewrite N.mod_small by lia.
  lia.
Qed.

Lemma row_index_ne (K i k c c' : nat) :
  i ≠ k → (c < K)%nat → (c' < K)%nat → (i * K + c')%nat ≠ (k * K + c)%nat.
Proof.
  intros Hne Hc Hc'. destruct (Nat.lt_ge_cases i k) as [Hlt|Hge].
  - pose proof (Nat.mul_le_mono_r (Datatypes.S i) k K ltac:(lia)). lia.
  - pose proof (Nat.mul_le_mono_r (Datatypes.S k) i K ltac:(lia)). lia.
Qed.

Lemma row_index_lt (K n k c : nat) :
  (k < n)%nat → (c < K)%nat → (k * K + c < K * n)%nat.
Proof.
  intros Hk Hc. pose proof (Nat.mul_le_mono_r (Datatypes.S k) n K ltac:(lia)). lia.
Qed.

Lemma FillLabelData_Ok K n w :
  0 < K → K * n < 2 ^ 64 →
  ∃ labelData s',
    FillLabelData K n w = Ok labelData (with_rand w s')
    ∧ length labelData = N.to_nat (K * n)
    ∧ ∀ i, (i < N.to_nat n)%nat → one_hot_row (N.to_nat K) labelData i.
Proof.
  intros HK Hlt. unfold FillLabelData, for_. rewrite N.sub_0_r.
  assert (size_mul K n = K * n) as Esz
    by (unfold size_mul, size_wrap; apply N.mod_small; assumption).
  rewrite Esz.
  set (Kn := N.to_nat K). set (nn := N.to_nat n).
  assert (N.to_nat (K * n) = (Kn * nn)%nat) as Elen by (unfold Kn, nn; lia).
  destruct (for_loop_inv
    (λ k buf w', next_uid w' = next_uid w ∧ trace w' = trace w
                 ∧ length buf = (Kn * nn)%nat
                 ∧ (∀ i, (i < k)%nat → one_hot_row Kn buf i)
                 ∧ (∀ i, (k ≤ i < nn)%nat → zero_row Kn buf i))
    (λ i labelData,
       r ← rand;
       class ← size_rem (size_of_int r) K;
       assign labelData (size_add (size_mul i K) class) 1%Q) 0 nn)
    with (s := vector_new (K * n) 0%Q) (w := w)
    as (buf & w' & E & Hu & Ht & Hl & Hrows & _).
  - intros k buf w1 Hk (Hu & Ht & Hl & Hdone & Htodo).
    rewrite bind_unfold, rand_unfold.
    set (r := (rand_step (rand_state w1)).1).
    rewrite bind_unfold, size_rem_Ok by assumption.
    set (c := size_of_int r mod K).
    assert (c < K) as Hc by (apply N.mod_upper_bound; lia).
    assert (N.to_nat c < Kn)%nat as Hcn by (unfold Kn; lia).
    pose proof (label_index K n k c Hlt Hk Hc) as Eidx. fold Kn in Eidx.
    assert (k * Kn + N.to_nat c < Kn * nn)%nat as Hin
      by (apply row_index_lt; assumption).
    rewrite assign_Ok by (rewrite Eidx, Hl; exact Hin).
    rewrite Eidx.
    eexists _, _. split; [reflexivity|]. cbn [with_rand next_uid trace].
    split; [assumption|]. split; [assumption|].
    split; [rewrite length_insert; assumption|]. split.
    + intros i Hi. destruct (decide (i = k)) as [->|Hik].
      * exists (N.to_nat c). split; [assumption|]. intros c' Hc'.
        destruct (decide (c' = N.to_nat c)) as [->|Hne].
        -- apply list_lookup_insert_eq.
           change (k * Kn + N.to_nat c < length buf)%nat. rewrite Hl. exact Hin.
        -- rewrite list_lookup_insert_ne by lia. apply (Htodo k); [lia|assumption].
      * destruct (Hdone i) as (j & Hj & Hrow); [lia|].
        exists j. split; [assumption|]. intros c' Hc'.
        rewrite list_lookup_insert_ne
          by (apply not_eq_sym, row_index_ne; [assumption..]).
        apply Hrow. assumption.
    + intros i Hi c' Hc'.
      rewrite list_lookup_insert_ne
        by (apply not_eq_sym, row_index_ne; [lia|assumption..]).
      apply (Htodo i); [lia|assumption].
  - split; [reflexivity|]. split; [reflexivity|]. split; [|split].
    + unfold vector_new. rewrite length_replicate. exact Elen.
    + intros i Hi. lia.
    + intros i Hi c Hc. unfold vector_new. apply lookup_replicate_2.
      rewrite Elen. apply row_index_lt; [lia|assumption].
  - exists buf, (rand_state w'). split; [|split].
    + rewrite <- (with_rand_eq w w') by assumption. exact E.
    + rewrite Elen. exact Hl.
    + exact Hrows.
Qed.

(** Entry [j] of the input buffer comes from the [j]-th call of [rand]
    of the iteration. *)
Lemma FillInputData_draws D n w :
  ∃ inputData,
    FillInputData D n w
    = Ok inputData (with_rand w (state_after (N.to_nat (size_mul D n)) (rand_state w)))
    ∧ length inputData = N.to_nat (size_mul D n)
    ∧ ∀ j, (j < N.to_nat (size_mul D n))%nat →
        inputData !! j = Some (unit_sample (nth_draw j (rand_state w))).
Proof.
  unfold FillInputData, for_. rewrite vector_size_new, N.sub_0_r.
  set (m := N.to_nat (size_mul D n)).
  destruct (for_loop_inv
    (λ k buf w', next_uid w' = next_uid w ∧ trace w' = trace w
                 ∧ rand_state w' = state_after k (rand_state w)
                 ∧ length buf = m
                 ∧ ∀ j, (j < k)%nat →
                     buf !! j = Some (unit_sample (nth_draw j (rand_state w))))
    (λ i inputData, r ← rand; assign inputData i (unit_sample r)) 0 m)
    with (s := vector_new (size_mul D n) 0%Q) (w := w)
    as (buf & w' & E & Hu & Ht & Hs & Hl & Hj).
  - intros k buf w1 Hk (Hu & Ht & Hs & Hl & Hj).
    rewrite bind_unfold, rand_unfold.
    rewrite assign_Ok by (rewrite N.add_0_l, Nat2N.id; lia).
    rewrite N.add_0_l, Nat2N.id.
    eexists _, _. split; [reflexivity|]. cbn [with_rand next_uid trace rand_state].
    split; [assumption|]. split; [assumption|]. split; [rewrite Hs; reflexivity|].
    split; [rewrite length_insert; assumption|].
    intros j Hjk. destruct (decide (j = k)) as [->|Hne].
    + rewrite list_lookup_insert_eq by lia. unfold nth_draw. rewrite Hs. reflexivity.
    + rewrite list_lookup_insert_ne by lia. apply Hj. lia.
  - split; [reflexivity|]. split; [reflexivity|]. split; [reflexivity|].
    split; [apply length_replicate|]. intros j Hj. lia.
  - exists buf. split; [|split; assumption].
    rewrite <- Hs, <- (with_rand_eq w w') by assumption. exact E.
Qed.

(** *** Lines 89-101: one batch *)

Lemma GenerateBatch_inv D K n w b w' :
  GenerateBatch D K n w = Ok b w' →
  ∃ inputData labelData,
    b = batch_of D K n inputData labelData
    ∧ length inputData = N.to_nat (size_mul D n)
    ∧ ∀ j, (j < N.to_nat (size_mul D n))%nat →
        inputData !! j = Some (unit_sample (nth_draw j (rand_state w))).
Proof.
  unfold GenerateBatch. rewrite bind_unfold.
  destruct (FillInputData_draws D n w) as (inputData & E & Hl & Hj). rewrite E.
  rewrite bind_unfold.
  destruct (FillLabelData K n _) as [labelData w2|e w2]; [|discriminate].
  rewrite ret_unfold. intros [= <- <-]. exists inputData, labelData.
  split; [reflexivity|]. split; assumption.
Qed.

Lemma GenerateBatch_Ok D K n w :
  0 < K → K * n < 2 ^ 64 →
  ∃ inputData labelData s',
    GenerateBatch D K n w = Ok (batch_of D K n inputData labelData) (with_rand w s')
    ∧ length labelData = N.to_nat (K * n)
    ∧ ∀ i, (i < N.to_nat n)%nat → one_hot_row (N.to_nat K) labelData i.
Proof.
  intros HK Hlt. unfold GenerateBatch. rewrite bind_unfold.
  destruct (FillInputData_draws D n w) as (inputData & E & _). rewrite E.
  rewrite bind_unfold.
  destruct (FillLabelData_Ok K n (with_rand w (state_after (N.to_nat (size_mul D n))
    (rand_state w))) HK Hlt) as (labelData & s' & E' & Hl & Hrows).
  rewrite E', ret_unfold. exists inputData, labelData, s'.
  split; [reflexivity|]. split; assumption.
Qed.

(** *** Lines 82-106: the iterations *)

Lemma iterations_Ok D K net dev n : ∀ i w bs s',
  batches D K n (rand_state w) = Some (bs, s') →
  for_loop n i (iteration D K net dev) tt w
  = Ok tt (mkWorld (next_uid w) s' (trace w ++ (ForwardCall net dev <$> bs))).
Proof.
  induction n as [|n IH]; intros i w bs s' E; cbn [batches] in E.
  - injection E as <- <-. cbn. rewrite app_nil_r. destruct w; reflexivity.
  - cbn [for_loop]. rewrite bind_unfold. unfold iteration at 1.
    rewrite bind_unfold, (rand_only_GenerateBatch D K 3 w).
    destruct (pure_run (GenerateBatch D K 3) (rand_state w)) as [b w1|e w1];
      [|discriminate].
    destruct (batches D K n (rand_state w1)) as [[bs1 s1]|] eqn:E1; [|discriminate].
    injection E as <- <-. cbn [lift_outcome]. rewrite emit_unfold.
    rewrite (IH _ _ bs1 s1) by exact E1.
    cbn [with_rand next_uid trace rand_state fmap list_fmap].
    rewrite <- app_assoc. reflexivity.
Qed.

Lemma iterations_Fail D K net dev n : ∀ i w,
  batches D K n (rand_state w) = None →
  ∃ e w', for_loop n i (iteration D K net dev) tt w = Fail e w'.
Proof.
  induction n as [|n IH]; intros i w E; cbn [batches] in E; [discriminate|].
  cbn [for_loop]. rewrite bind_unfold. unfold iteration at 1.
  rewrite bind_unfold, (rand_only_GenerateBatch D K 3 w).
  destruct (pure_run (GenerateBatch D K 3) (rand_state w)) as [b w1|e w1].
  - cbn [lift_outcome]. rewrite emit_unfold.
    destruct (batches D K n (rand_state w1)) as [[bs1 s1]|] eqn:E1; [discriminate|].
    apply IH. exact E1.
  - cbn [lift_outcome]. eexists _, _. reflexivity.
Qed.

Lemma EvaluateNetwork_Ok D K net dev w bs s' :
  batches D K 4 (srand_state 2) = Some (bs, s') →
  EvaluateNetwork D K net dev w
  = Ok tt (mkWorld (next_uid w) s' (trace w ++ (ForwardCall net dev <$> bs))).
Proof.
  intros E. unfold EvaluateNetwork. rewrite bind_unfold. cbn [srand].
  apply (iterations_Ok D K net dev 4 0
           (mkWorld (next_uid w) (srand_state 2) (trace w)) bs s' E).
Qed.

Lemma EvaluateNetwork_inv D K net dev w w' :
  EvaluateNetwork D K net dev w = Ok tt w' →
  ∃ bs s', batches D K 4 (srand_state 2) = Some (bs, s')
           ∧ w' = mkWorld (next_uid w) s' (trace w ++ (ForwardCall net dev <$> bs)).
Proof.
  intros E. destruct (batches D K 4 (srand_state 2)) as [[bs s']|] eqn:Eb.
  - exists bs, s'. split; [reflexivity|].
    rewrite (EvaluateNetwork_Ok D K net dev w bs s' Eb) in E. congruence.
  - exfalso.
    destruct (iterations_Fail D K net dev 4 0
                (mkWorld (next_uid w) (srand_state 2) (trace w)) Eb) as (e & w2 & E2).
    change (EvaluateNetwork D K net dev w)
      with (for_loop 4 0 (iteration D K net dev) tt
              (mkWorld (next_uid w) (srand_state 2) (trace w))) in E.
    rewrite E2 in E. discriminate.
Qed.

Lemma batches_total D K n : 0 < K → K * 3 < 2 ^ 64 →
  ∀ s, ∃ bs s', batches D K n s = Some (bs, s') ∧ length bs = n.
Proof.
  intros HK Hlt. induction n as [|n IH]; intros s; cbn [batches].
  - exists [], s. split; reflexivity.
  - destruct (GenerateBatch_Ok D K 3 (mkWorld 0 s []) HK Hlt)
      as (inputData & labelData & s1 & E & _).
    unfold pure_run. rewrite E. cbn [with_rand rand_state].
    destruct (IH s1) as (bs & s' & E' & Hl). rewrite E'.
    eexists _, _. split; [reflexivity|]. cbn. rewrite Hl. reflexivity.
Qed.

Lemma batches_Forall (P : Value * Value → Prop) D K :
  (∀ s b w', pure_run (GenerateBatch D K 3) s = Ok b w' → P b) →
  ∀ n s bs s', batches D K n s = Some (bs, s') → Forall P bs.
Proof.
  intros HP. induction n as [|n IH]; intros s bs s' E; cbn [batches] in E.
  - injection E as <- <-. constructor.
  - destruct (pure_run (GenerateBatch D K 3) s) as [b w1|e w1] eqn:Eb; [|discriminate].
    destruct (batches D K n (rand_state w1)) as [[bs1 s1]|] eqn:E1; [|discriminate].
    injection E as <- <-. constructor; [eapply HP; exact Eb|eapply IH; exact E1].
Qed.

(** *** What a run fed to the forward evaluation *)

Lemma forward_batches_ForwardCall net dev bs :
  forward_batches (ForwardCall net dev <$> bs) = bs.
Proof.
  induction bs as [|[i l] bs IH]; [reflexivity|].
  cbn. unfold forward_batches in IH. rewrite IH. reflexivity.
Qed.

Lemma new_events_app w u s evs :
  new_events w (mkWorld u s (trace w ++ evs)) = evs.
Proof. unfold new_events. cbn [trace]. apply drop_app_length. Qed.

Lemma EvaluateNetwork_batches D K net dev w w' :
  EvaluateNetwork D K net dev w = Ok tt w' →
  ∃ s', batches D K 4 (srand_state 2) = Some (forward_batches (new_events w w'), s')
        ∧ w' = mkWorld (next_uid w) s'
                 (trace w ++ (ForwardCall net dev <$> forward_batches (new_events w w'))).
Proof.
  intros E. destruct (EvaluateNetwork_inv D K net dev w w' E) as (bs & s' & Eb & ->).
  rewrite new_events_app, forward_batches_ForwardCall. exists s'. split; [exact Eb|reflexivity].
Qed.

Lemma EvaluateNetwork_total D K net dev w :
  0 < K → K * 3 < 2 ^ 64 →
  ∃ w', EvaluateNetwork D K net dev w = Ok tt w'
        ∧ length (forward_batches (new_events w w')) = 4%nat.
Proof.
  intros HK Hlt.
  destruct (batches_total D K 4 HK Hlt (srand_state 2)) as (bs & s' & Eb & Hl).
  eexists. split; [apply (EvaluateNetwork_Ok D K net dev w bs s' Eb)|].
  rewrite new_events_app, forward_batches_ForwardCall. exact Hl.
Qed.

Lemma first_batch_draws D K net dev w w' :
  EvaluateNetwork D K net dev w = Ok tt w' →
  ∃ b, head (forward_batches (new_events w w')) = Some b
       ∧ ∀ j, (j < N.to_nat (size_mul D 3%N))%nat →
           inputData_of b !! j = Some (unit_sample (nth_draw j (srand_state 2))).
Proof.
  intros E. destruct (EvaluateNetwork_batches D K net dev w w' E) as (s' & Eb & _).
  cbn [batches] in Eb.
  destruct (pure_run (GenerateBatch D K 3) (srand_state 2)) as [b w1|e w1] eqn:E1;
    [|discriminate].
  destruct (GenerateBatch_inv D K 3 _ b w1 E1) as (inputData & labelData & -> & _ & Hj).
  destruct (match pure_run (GenerateBatch D K 3) (rand_state w1) with
            | Ok _ _ => _ | Fail _ _ => _ end) as [[bs s1]|]; [|discriminate].
  injection Eb as Eb _. rewrite <- Eb. eexists. split; [reflexivity|]. exact Hj.
Qed.

(** *** The label buffer and the shapes *)

(** C4.  Whenever there is a class to draw ([numOutputClasses > 0]) and
    the label buffer has a size ([numOutputClasses * 3] fits [size_t]),
    the driver feeds four batches, and the label buffer of each holds
    [numSamples = 3] rows of [numOutputClasses] entries, each row with a 1
    in exactly one column and 0 in all others. *)
Theorem label_batches_one_hot
    (inputDim numOutputClasses : size_t) (net : Network)
    (computeDevice : DeviceDescriptor) (w : World) :
  0 < numOutputClasses → numOutputClasses * 3 < 2 ^ 64 →
  ∃ w', EvaluateNetwork inputDim numOutputClasses net computeDevice w = Ok tt w'
        ∧ length (forward_batches (new_events w w')) = 4%nat
        ∧ ∀ b, b ∈ forward_batches (new_events w w') →
            length (labelData_of b) = (N.to_nat numOutputClasses * 3)%nat
            ∧ ∀ i, (i < 3)%nat → one_hot_row (N.to_nat numOutputClasses) (labelData_of b) i.
Proof.
  intros HK Hlt.
  destruct (EvaluateNetwork_total inputDim numOutputClasses net computeDevice w HK Hlt)
    as (w' & E & Hl).
  exists w'. split; [exact E|]. split; [exact Hl|].
  destruct (EvaluateNetwork_batches _ _ _ _ _ _ E) as (s' & Eb & _).
  apply Forall_forall. eapply batches_Forall; [|exact Eb].
  intros s b w1 E1.
  destruct (GenerateBatch_Ok inputDim numOutputClasses 3 (mkWorld 0 s []) HK Hlt)
    as (inputData & labelData & s1 & E2 & Hlen & Hrows).
  unfold pure_run in E1. rewrite E2 in E1. injection E1 as <- _.
  cbn [labelData_of batch_of snd Data view_dataBuffer].
  split; [rewrite Hlen; lia|]. intros i Hi. apply Hrows. lia.
Qed.


(** *** Two invocations *)

Lemma CheckStructure_Ok_world who f H w x w' :
  CheckStructure who f H w = Ok x w' → w' = w.
Proof.
  unfold CheckStructure. rewrite bind_unfold. unfold throw_if at 1.
  destruct (negb _); [discriminate|]. rewrite ret_unfold.
  rewrite bind_unfold. unfold throw_if at 1.
  destruct (negb _); [discriminate|]. rewrite ret_unfold.
  unfold throw_if. destruct (negb _); [discriminate|]. rewrite ret_unfold.
  congruence.
Qed.

Lemma Evaluation_inv D K H Win bin Ws bs Wout dev w w' :
  EvaluationNewNetworkWithSharedParameters D K H Win bin Ws bs Wout dev w = Ok tt w' →
  EvaluateNetwork D K (assembled D K H Win bin Ws bs Wout (next_uid w)) dev (advance 2 w)
  = Ok tt w'.
Proof.
  unfold EvaluationNewNetworkWithSharedParameters. rewrite bind_unfold.
  destruct (Nat.le_gt_cases (N.to_nat (H - 1)) (length Ws)) as [HW|HW];
    [destruct (Nat.le_gt_cases (N.to_nat (H - 1)) (length bs)) as [Hb|Hb]|].
  - rewrite AssembleNetwork_Ok by assumption. rewrite bind_unfold.
    destruct (CheckStructure _ _ _ _) as [x w1|e w1] eqn:EC; [|discriminate].
    apply CheckStructure_Ok_world in EC. subst w1. intros E. exact E.
  - rewrite AssembleNetwork_Fail by (right; assumption). discriminate.
  - rewrite AssembleNetwork_Fail by (left; assumption). discriminate.
Qed.

Lemma new_events_advance k w w' : new_events (advance k w) w' = new_events w w'.
Proof. reflexivity. Qed.


(** *** Lines 109-148: the threads *)

Lemma Evaluation_Ok D K H Win bin Ws bs Wout dev w :
  1 ≤ H → 2 * H + 1 < 2 ^ 64 →
  length Ws = N.to_nat (H - 1) → length bs = N.to_nat (H - 1) →
  NoDup (param_uid <$> Win :: bin :: Wout :: Ws ++ bs) →
  0 < K → K * 3 < 2 ^ 64 →
  ∃ bs4 s',
    batches D K 4 (srand_state 2) = Some (bs4, s') ∧ length bs4 = 4%nat
    ∧ EvaluationNewNetworkWithSharedParameters D K H Win bin Ws bs Wout dev w
      = Ok tt (mkWorld (next_uid w + 2) s'
                 (trace w ++ (ForwardCall (assembled D K H Win bin Ws bs Wout (next_uid w))
                                dev <$> bs4))).
Proof.
  intros HH Hlt HW Hb Hnd HK HK3.
  destruct (batches_total D K 4 HK HK3 (srand_state 2)) as (bs4 & s' & Eb & Hl).
  exists bs4, s'. split; [exact Eb|]. split; [exact Hl|].
  unfold EvaluationNewNetworkWithSharedParameters.
  rewrite bind_unfold, AssembleNetwork_Ok by lia.
  destruct (assembled_counts D K H Win bin Ws bs Wout (next_uid w) HH HW Hb)
    as (Hp & Ha & Ho).
  rewrite bind_unfold, CheckStructure_passes
    by (try assumption; repeat split; auto).
  rewrite (EvaluateNetwork_Ok D K _ dev _ bs4 s' Eb). reflexivity.
Qed.

Lemma EvalMultiThreadsWithNewNetwork_unfold device threadCount w :
  EvalMultiThreadsWithNewNetwork device threadCount w
  = run_threads (shared_args (next_uid w) device) threadCount (advance 13 w).
Proof.
  unfold EvalMultiThreadsWithNewNetwork.
  do 13 (rewrite bind_unfold, NewParameter_unfold; cbn [next_uid rand_state trace]).
  unfold shared_args, advance. destruct w as [n s t]. cbn [next_uid rand_state trace].
  replace (N.succ n) with (n + 1) by lia.
  replace (N.succ (n + 1)) with (n + 2 + 0) by lia.
  replace (N.succ (n + 2 + 0)) with (n + 2 + 1) by lia.
  replace (N.succ (n + 2 + 1)) with (n + 2 + 2) by lia.
  replace (N.succ (n + 2 + 2)) with (n + 2 + 3) by lia.
  replace (N.succ (n + 2 + 3)) with (n + 2 + 4) by lia.
  replace (N.succ (n + 2 + 4)) with (n + 7 + 0) by lia.
  replace (N.succ (n + 7 + 0)) with (n + 7 + 1) by lia.
  replace (N.succ (n + 7 + 1)) with (n + 7 + 2) by lia.
  replace (N.succ (n + 7 + 2)) with (n + 7 + 3) by lia.
  replace (N.succ (n + 7 + 3)) with (n + 7 + 4) by lia.
  replace (N.succ (n + 7 + 4)) with (n + 12) by lia.
  replace (N.succ (n + 12)) with (n + 13) by lia.
  reflexivity.
Qed.

Lemma shared_args_good n device : good_args (shared_args n device).
Proof.
  unfold good_args, shared_args.
  cbn [arg_numHiddenLayers arg_hiddenLayerTimesParam arg_hiddenLayerPlusParam
       arg_inputTimesParam arg_inputPlusParam arg_outputTimesParam arg_numOutputClasses].
  split; [lia|]. split; [lia|]. split; [reflexivity|]. split; [reflexivity|].
  split; [|lia]. cbn [fmap list_fmap app param_uid].
  repeat (apply NoDup_cons; split; [rewrite ?elem_of_cons, elem_of_nil; lia|]).
  apply NoDup_nil_2.
Qed.

Lemma std_thread_Ok args bs4 s4 w :
  good_args args →
  batches (arg_inputDim args) (arg_numOutputClasses args) 4 (srand_state 2)
  = Some (bs4, s4) →
  std_thread args w
  = Ok (Some (next_uid w))
      (mkWorld (next_uid w + 3) s4 (trace w ++ start_events args (next_uid w) bs4 0)).
Proof.
  intros (HH & Hlt & HW & Hb & Hnd & HK & HK3) Eb. unfold std_thread.
  rewrite bind_unfold. cbn [fresh_uid]. rewrite bind_unfold, emit_unfold.
  unfold run_to_completion. cbn [next_uid rand_state trace].
  destruct (Evaluation_Ok (arg_inputDim args) (arg_numOutputClasses args)
              (arg_numHiddenLayers args) (arg_inputTimesParam args)
              (arg_inputPlusParam args) (arg_hiddenLayerTimesParam args)
              (arg_hiddenLayerPlusParam args) (arg_outputTimesParam args)
              (arg_computeDevice args)
              (mkWorld (N.succ (next_uid w)) (rand_state w)
                 (trace w ++ [ThreadStart (next_uid w) args]))
              HH Hlt HW Hb Hnd HK HK3) as (bs4' & s4' & Eb' & _ & E).
  rewrite Eb in Eb'. injection Eb' as <- <-. rewrite E.
  cbn [next_uid rand_state trace]. unfold start_events, worker_net, thread_id.
  rewrite <- app_assoc. cbn [app].
  replace (next_uid w + 3 * N.of_nat 0 + 1) with (N.succ (next_uid w)) by lia.
  replace (N.succ (next_uid w) + 2) with (next_uid w + 3) by lia.
  replace (next_uid w + 3 * N.of_nat 0) with (next_uid w) by lia.
  reflexivity.
Qed.

Lemma thread_vector_Ok threadCount w :
  (0 ≤ threadCount < 2 ^ 31)%Z →
  thread_vector threadCount w = Ok (replicate (Z.to_nat threadCount) None) w.
Proof.
  intros HT. unfold thread_vector, size_of_int, vector_new.
  rewrite Z.mod_small by lia.
  replace (thread_vector_max_size <? Z.to_N threadCount) with false.
  - rewrite Z_N_nat. reflexivity.
  - symmetry. apply N.ltb_ge.
    change thread_vector_max_size with 1152921504606846975. lia.
Qed.

Lemma thread_vector_negative threadCount w :
  (- 2 ^ 31 ≤ threadCount < 0)%Z → thread_vector threadCount w = Fail length_error w.
Proof.
  intros HT. unfold thread_vector, size_of_int.
  replace (thread_vector_max_size <? Z.to_N (threadCount mod 2 ^ 64)) with true;
    [reflexivity|].
  symmetry. apply N.ltb_lt. change thread_vector_max_size with 1152921504606846975.
  replace (threadCount mod 2 ^ 64)%Z with (threadCount + 2 ^ 64)%Z; [lia|].
  apply Z.mod_unique with (q := (-1)%Z); lia.
Qed.

Lemma started_S args n bs4 T :
  started args n bs4 (Datatypes.S T) = started args n bs4 T ++ start_events args n bs4 T.
Proof. unfold started. rewrite seq_S, flat_map_app. cbn. rewrite app_nil_r. reflexivity. Qed.

Lemma joined_S n T : joined n (Datatypes.S T) = joined n T ++ join_events n T.
Proof. unfold joined. rewrite seq_S, flat_map_app. cbn. reflexivity. Qed.

Lemma start_events_shift args n bs4 k :
  start_events args (thread_id n k) bs4 0 = start_events args n bs4 k.
Proof.
  unfold start_events, worker_net.
  replace (thread_id (thread_id n k) 0) with (thread_id n k)
    by (unfold thread_id; lia).
  reflexivity.
Qed.

Lemma start_loop_Ok args bs4 s4 T w :
  good_args args →
  batches (arg_inputDim args) (arg_numOutputClasses args) 4 (srand_state 2)
  = Some (bs4, s4) →
  ∃ threadList w',
    for_loop T 0 (λ th threadList, t ← std_thread args; assign threadList th t)
      (replicate T None) w = Ok threadList w'
    ∧ next_uid w' = thread_id (next_uid w) T
    ∧ trace w' = trace w ++ started args (next_uid w) bs4 T
    ∧ ∀ j, (j < T)%nat → threadList !! j = Some (Some (thread_id (next_uid w) j)).
Proof.
  intros Hgood Eb.
  destruct (for_loop_inv
    (λ k (tl : list thread) w',
       next_uid w' = thread_id (next_uid w) k
       ∧ trace w' = trace w ++ started args (next_uid w) bs4 k
       ∧ length tl = T
       ∧ ∀ j, (j < k)%nat → tl !! j = Some (Some (thread_id (next_uid w) j)))
    (λ th threadList, t ← std_thread args; assign threadList th t) 0 T)
    with (s := replicate T (None : thread)) (w := w)
    as (tl & w' & E & Hu & Ht & _ & Hj).
  - intros k tl w1 Hk (Hu & Ht & Hl & Hj).
    rewrite bind_unfold, (std_thread_Ok args bs4 s4 w1 Hgood Eb).
    rewrite assign_Ok by (rewrite N.add_0_l, Nat2N.id; unfold thread in *; lia).
    rewrite N.add_0_l, Nat2N.id.
    eexists _, _. split; [reflexivity|]. cbn [next_uid trace].
    split; [rewrite Hu; unfold thread_id; lia|].
    split; [rewrite Ht, Hu, start_events_shift, started_S, app_assoc; reflexivity|].
    split; [rewrite length_insert; exact Hl|].
    intros j Hjk. destruct (decide (j = k)) as [->|Hne].
    + rewrite list_lookup_insert_eq by (unfold thread in *; lia).
      rewrite Hu. reflexivity.
    + rewrite list_lookup_insert_ne by lia. apply Hj. lia.
  - split; [unfold thread_id; lia|]. split; [cbn; rewrite app_nil_r; reflexivity|].
    split; [apply length_replicate|]. intros j Hj. lia.
  - exists tl, w'. repeat split; assumption.
Qed.

Lemma join_loop_Ok (threadList : list thread) n T w :
  (∀ j, (j < T)%nat → threadList !! j = Some (Some (thread_id n j))) →
  for_loop T 0 (λ th _,
    t ← subscript threadList th;
    join t;;
    emit (Fprintf_stderr ("thread %d joined." +:+ LF) [ArgInt (Z.of_N th)]);;
    emit Fflush_stderr) tt w
  = Ok tt (mkWorld (next_uid w) (rand_state w) (trace w ++ joined n T)).
Proof.
  intros Hj.
  destruct (for_loop_inv
    (λ k (_ : unit) w',
       w' = mkWorld (next_uid w) (rand_state w) (trace w ++ joined n k))
    (λ th _,
       t ← subscript threadList th;
       join t;;
       emit (Fprintf_stderr ("thread %d joined." +:+ LF) [ArgInt (Z.of_N th)]);;
       emit Fflush_stderr) 0 T)
    with (s := tt) (w := w) as ([] & w' & E & ->).
  - intros k [] w1 Hk ->.
    rewrite bind_unfold, (subscript_Some threadList _ (Some (thread_id n k)))
      by (rewrite N.add_0_l, Nat2N.id; apply Hj; exact Hk).
    rewrite bind_unfold. cbn [join]. rewrite emit_unfold.
    rewrite bind_unfold, emit_unfold, emit_unfold.
    eexists tt, _. split; [reflexivity|]. cbn [next_uid rand_state trace].
    rewrite joined_S. unfold join_events.
    rewrite N.add_0_l, nat_N_Z, <- !app_assoc. reflexivity.
  - cbn. rewrite app_nil_r. destruct w; reflexivity.
  - exact E.
Qed.

Lemma run_threads_Ok args threadCount w :
  good_args args → (0 ≤ threadCount < 2 ^ 31)%Z →
  ∃ bs4 w',
    run_threads args threadCount w = Ok tt w'
    ∧ length bs4 = 4%nat
    ∧ next_uid w' = thread_id (next_uid w) (Z.to_nat threadCount)
    ∧ trace w' = trace w ++ started args (next_uid w) bs4 (Z.to_nat threadCount)
                   ++ joined (next_uid w) (Z.to_nat threadCount).
Proof.
  intros Hgood HT.
  destruct Hgood as (HH & Hlt & HW & Hb & Hnd & HK & HK3).
  destruct (batches_total (arg_inputDim args) (arg_numOutputClasses args) 4 HK HK3
              (srand_state 2)) as (bs4 & s4 & Eb & Hl4).
  assert (good_args args) as Hgood by (repeat split; assumption).
  destruct (start_loop_Ok args bs4 s4 (Z.to_nat threadCount) w Hgood Eb)
    as (tl & w1 & E1 & Hu1 & Ht1 & Hj).
  exists bs4. eexists. unfold run_threads.
  rewrite bind_unfold, thread_vector_Ok by assumption.
  rewrite bind_unfold. unfold for_ at 1.
  replace (N.to_nat (Z.to_N threadCount - 0)) with (Z.to_nat threadCount) by lia.
  rewrite E1. unfold for_.
  replace (N.to_nat (Z.to_N threadCount - 0)) with (Z.to_nat threadCount) by lia.
  rewrite (join_loop_Ok tl (next_uid w) (Z.to_nat threadCount) w1 Hj).
  split; [reflexivity|]. cbn [next_uid trace].
  split; [exact Hl4|]. split; [exact Hu1|]. rewrite Ht1, <- app_assoc. reflexivity.
Qed.

Lemma omap_ForwardCall {B} (f : Event → option B) net dev bs :
  (∀ g a o d, f (Forward g a o d) = None) → omap f (ForwardCall net dev <$> bs) = [].
Proof.
  intros Hf. induction bs as [|b bs IH]; [reflexivity|].
  cbn. unfold ForwardCall at 1. rewrite Hf. exact IH.
Qed.

Lemma thread_starts_trace args n bs4 T :
  thread_starts (started args n bs4 T ++ joined n T)
  = (λ k, (thread_id n k, args)) <$> seq 0 T.
Proof.
  unfold thread_starts. rewrite omap_app.
  assert (omap (λ ev, match ev with ThreadStart th a => Some (th, a) | _ => None end)
            (joined n T) = []) as ->.
  { induction T as [|T IH]; [reflexivity|]. rewrite joined_S, omap_app, IH. reflexivity. }
  rewrite app_nil_r. induction T as [|T IH]; [reflexivity|].
  rewrite started_S, omap_app, IH, seq_S, fmap_app. f_equal.
  unfold start_events. cbn [omap list_omap]. rewrite omap_ForwardCall by reflexivity.
  reflexivity.
Qed.

Lemma thread_joins_trace args n bs4 T :
  thread_joins (started args n bs4 T ++ joined n T) = thread_id n <$> seq 0 T.
Proof.
  unfold thread_joins. rewrite omap_app.
  assert (omap (λ ev, match ev with ThreadJoin th => Some th | _ => None end)
            (started args n bs4 T) = []) as ->.
  { induction T as [|T IH]; [reflexivity|]. rewrite started_S, omap_app, IH.
    unfold start_events. cbn [omap list_omap]. rewrite omap_ForwardCall by reflexivity.
    reflexivity. }
  cbn [app]. induction T as [|T IH]; [reflexivity|].
  rewrite joined_S, omap_app, IH, seq_S, fmap_app. reflexivity.
Qed.

Lemma stderr_lines_trace args n bs4 T :
  stderr_lines (started args n bs4 T ++ joined n T)
  = (λ k, ("thread %d joined." +:+ LF, [ArgInt (Z.of_nat k)])) <$> seq 0 T.
Proof.
  unfold stderr_lines. rewrite omap_app.
  assert (omap (λ ev, match ev with Fprintf_stderr f a => Some (f, a) | _ => None end)
            (started args n bs4 T) = []) as ->.
  { induction T as [|T IH]; [reflexivity|]. rewrite started_S, omap_app, IH.
    unfold start_events. cbn [omap list_omap]. rewrite omap_ForwardCall by reflexivity.
    reflexivity. }
  cbn [app]. induction T as [|T IH]; [reflexivity|].
  rewrite joined_S, omap_app, IH, seq_S, fmap_app. reflexivity.
Qed.

Lemma forward_batches_trace args n bs4 T :
  forward_batches (started args n bs4 T ++ joined n T)
  = flat_map (λ _ : nat, bs4) (seq 0 T).
Proof.
  unfold forward_batches at 1. rewrite omap_app.
  assert (∀ T, omap (λ ev, match ev with
                           | Forward _ [(_, inputValue); (_, labelValue)] _ _ =>
                               Some (inputValue, labelValue)
                           | _ => None
                           end) (joined n T) = []) as ->.
  { clear T. induction T as [|T IH]; [reflexivity|].
    rewrite joined_S, omap_app, IH. reflexivity. }
  rewrite app_nil_r. induction T as [|T IH]; [reflexivity|].
  rewrite started_S, omap_app, IH, seq_S, flat_map_app. f_equal.
  unfold start_events. cbn [omap list_omap flat_map]. rewrite app_nil_r.
  apply forward_batches_ForwardCall.
Qed.

Lemma fan_out_Ok device threadCount w :
  (0 ≤ threadCount < 2 ^ 31)%Z →
  ∃ bs4 w',
    EvalMultiThreadsWithNewNetwork device threadCount w = Ok tt w'
    ∧ length bs4 = 4%nat
    ∧ new_events w w'
      = started (shared_args (next_uid w) device) (next_uid w + 13) bs4
          (Z.to_nat threadCount)
        ++ joined (next_uid w + 13) (Z.to_nat threadCount).
Proof.
  intros HT. rewrite EvalMultiThreadsWithNewNetwork_unfold.
  destruct (run_threads_Ok (shared_args (next_uid w) device) threadCount (advance 13 w)
              (shared_args_good _ _) HT) as (bs4 & w' & E & Hl & _ & Ht).
  exists bs4, w'. split; [exact E|]. split; [exact Hl|].
  unfold new_events. rewrite Ht. cbn [advance trace next_uid]. apply drop_app_length.
Qed.

(** C6.  For a thread count [T] that an [int] holds and that is not
    negative, the fan-out returns, and what it did is: for each
    [k = 0 .. T-1] in turn, start a thread, with an identity of its own,
    on [EvaluationNewNetworkWithSharedParameters] with the same arguments
    (the thirteen tensors created once before the first thread), whose
    worker makes its four forward evaluations; then for each
    [k = 0 .. T-1] in turn, join thread [k], print the line for [k] and
    flush.  So there are exactly [T] starts, [T] joins of the threads
    started, in the order they were started, and [T] lines, one per
    join. *)
Theorem fan_out_starts_and_joins_every_thread
    (device : DeviceDescriptor) (threadCount : Z) (w : World) :
  (0 ≤ threadCount < 2 ^ 31)%Z →
  let T := Z.to_nat threadCount in
  let n := next_uid w + 13 in
  let args := shared_args (next_uid w) device in
  ∃ bs4 w',
    EvalMultiThreadsWithNewNetwork device threadCount w = Ok tt w'
    ∧ length bs4 = 4%nat
    ∧ new_events w w' = started args n bs4 T ++ joined n T
    ∧ thread_starts (new_events w w') = (λ k, (thread_id n k, args)) <$> seq 0 T
    ∧ thread_joins (new_events w w') = thread_id n <$> seq 0 T
    ∧ stderr_lines (new_events w w')
      = (λ k, ("thread %d joined." +:+ LF, [ArgInt (Z.of_nat k)])) <$> seq 0 T
    ∧ length (thread_starts (new_events w w')) = T
    ∧ length (thread_joins (new_events w w')) = T
    ∧ length (stderr_lines (new_events w w')) = T
    ∧ NoDup (thread_joins (new_events w w')).
Proof.
  intros HT T n args.
  destruct (fan_out_Ok device threadCount w HT) as (bs4 & w' & E & Hl & Hev).
  exists bs4, w'. fold T n args in Hev. rewrite Hev.
  rewrite thread_starts_trace, thread_joins_trace, stderr_lines_trace.
  rewrite !length_fmap, length_seq.
  repeat split; try assumption; try reflexivity.
  apply NoDup_fmap_2; [|apply NoDup_seq].
  intros j k Hjk. unfold thread_id in Hjk. lia.
Qed.

(** C8.  For [numHiddenLayers >= 1] and arrays of [numHiddenLayers - 1]
    tensors the classifier is built without an out-of-range access; it
    reads no entry past index [numHiddenLayers - 2], since what follows
    in the arrays changes nothing, and it does read up to that index,
    since shorter arrays are read out of range.  Every thread the
    fan-out starts is given [numHiddenLayers = 6], which satisfies the
    assertion, and arrays of [6 - 1] tensors; and the fan-out returns, so
    no worker left its arrays. *)
Theorem hidden_arrays_read_in_bounds :
  (∀ input H Win bin Ws bs Wout nonLinearity w,
     assert_numHiddenLayers H →
     length Ws = N.to_nat (H - 1) → length bs = N.to_nat (H - 1) →
     (∃ classifierRoot,
        FullyConnectedFeedForwardClassifierNetWithSharedParameters
          input H Win bin Ws bs Wout nonLinearity w = Ok classifierRoot w)
     ∧ (∀ moreWs morebs,
          FullyConnectedFeedForwardClassifierNetWithSharedParameters
            input H Win bin (Ws ++ moreWs) (bs ++ morebs) Wout nonLinearity w
          = FullyConnectedFeedForwardClassifierNetWithSharedParameters
              input H Win bin Ws bs Wout nonLinearity w)
     ∧ (∀ Ws' bs',
          (length Ws' < N.to_nat (H - 1))%nat ∨ (length bs' < N.to_nat (H - 1))%nat →
          FullyConnectedFeedForwardClassifierNetWithSharedParameters
            input H Win bin Ws' bs' Wout nonLinearity w = Fail OutOfBounds w))
  ∧ (∀ device threadCount w,
       (0 ≤ threadCount < 2 ^ 31)%Z →
       ∃ w', EvalMultiThreadsWithNewNetwork device threadCount w = Ok tt w'
             ∧ length (thread_starts (new_events w w')) = Z.to_nat threadCount
             ∧ ∀ th args, (th, args) ∈ thread_starts (new_events w w') →
                 assert_numHiddenLayers (arg_numHiddenLayers args)
                 ∧ length (arg_hiddenLayerTimesParam args)
                   = N.to_nat (arg_numHiddenLayers args - 1)
                 ∧ length (arg_hiddenLayerPlusParam args)
                   = N.to_nat (arg_numHiddenLayers args - 1)).
Proof.
  split.
  - intros input H Win bin Ws bs Wout nonLinearity w HH HW Hb. split; [|split].
    + eexists. apply classifier_Ok; lia.
    + intros moreWs morebs.
      rewrite !classifier_Ok by (rewrite ?length_app; lia).
      rewrite !take_app_le by lia. reflexivity.
    + intros Ws' bs' Hshort. apply classifier_Fail. exact Hshort.
  - intros device threadCount w HT.
    destruct (fan_out_Ok device threadCount w HT) as (bs4 & w' & E & Hl & Hev).
    exists w'. split; [exact E|]. rewrite Hev, thread_starts_trace.
    split; [rewrite length_fmap, length_seq; reflexivity|].
    intros th args Hin. apply list_elem_of_fmap in Hin as (k & [= -> ->] & _).
    unfold assert_numHiddenLayers. cbn. repeat split. lia.
Qed.


(** *** Lines 150-254: the graph with parameters of its own *)

Lemma SetupFullyConnectedLinearLayer_Ok input inputDim outputDim device outputName w :
  ShapeOf input !! 0%nat = Some inputDim →
  SetupFullyConnectedLinearLayer input outputDim device outputName w
  = Ok (Plus (mkParameter (N.succ (next_uid w)) [outputDim]
                (RandomUniform (-0.05) 0.05 1) device)
          (Times (mkParameter (next_uid w) [outputDim; inputDim]
                    (RandomUniform (-0.05) 0.05 1) device) input 1 "")
          outputName)
      (mkWorld (N.succ (N.succ (next_uid w))) (rand_state w) (trace w)).
Proof.
  intros Hshape. unfold SetupFullyConnectedLinearLayer.
  rewrite bind_unfold, (subscript_Some _ _ inputDim) by exact Hshape.
  rewrite bind_unfold, NewParameter_unfold.
  rewrite bind_unfold, NewParameter_unfold. reflexivity.
Qed.

Lemma SetupFullyConnectedDNNLayer_Ok input inputDim outputDim device w :
  ShapeOf input !! 0%nat = Some inputDim →
  SetupFullyConnectedDNNLayer input outputDim device sigmoid_ w
  = Ok (FullyConnectedDNNLayerWithSharedParameters input
          (mkParameter (next_uid w) [outputDim; inputDim]
             (RandomUniform (-0.05) 0.05 1) device)
          (mkParameter (N.succ (next_uid w)) [outputDim]
             (RandomUniform (-0.05) 0.05 1) device)
          sigmoid_)
      (mkWorld (N.succ (N.succ (next_uid w))) (rand_state w) (trace w)).
Proof.
  intros Hshape. unfold SetupFullyConnectedDNNLayer.
  rewrite bind_unfold, (SetupFullyConnectedLinearLayer_Ok _ inputDim) by exact Hshape.
  reflexivity.
Qed.

Lemma EvalMultiThreadsWithClone_unfold device threadCount w :
  EvalMultiThreadsWithClone device threadCount w
  = (CheckStructure "TestFeedForwardNetworkCreation" (own_graph (next_uid w) device) 6;;
     emit (summary_line threadCount (own_graph (next_uid w) device)))
      (advance 15 w).
Proof.
  unfold EvalMultiThreadsWithClone.
  rewrite bind_unfold, InputVariable_unfold.
  rewrite bind_unfold.
  change (λ f : Function, Sigmoid f "") with sigmoid_.
  rewrite (SetupFullyConnectedDNNLayer_Ok _ 937) by reflexivity.
  cbn [next_uid rand_state trace].
  rewrite bind_unfold. unfold for_. change (N.to_nat (6 - 1)) with 5%nat.
  cbn [for_loop].
  do 5 (rewrite bind_unfold, (SetupFullyConnectedDNNLayer_Ok _ 2048) by reflexivity;
        cbn [next_uid rand_state trace]).
  rewrite ret_unfold.
  rewrite bind_unfold, NewParameter_unfold. cbn [next_uid rand_state trace].
  rewrite bind_unfold, InputVariable_unfold. cbn [next_uid rand_state trace].
  destruct w as [n s t]. unfold advance. cbn [next_uid rand_state trace].
  unfold own_graph, own_hidden, own_weight, own_bias, own_output, summary_line,
    classifier_graph, model. cbn [fmap list_fmap chain fold_left fst snd].
  replace (n + 1 + 2 * 0) with (N.succ n) by lia.
  replace (n + 2 + 2 * 0) with (N.succ (N.succ n)) by lia.
  replace (n + 1 + 2 * 1) with (N.succ (N.succ (N.succ n))) by lia.
  replace (n + 2 + 2 * 1) with (N.succ (N.succ (N.succ (N.succ n)))) by lia.
  replace (n + 1 + 2 * 2) with (N.succ (N.succ (N.succ (N.succ (N.succ n))))) by lia.
  replace (n + 2 + 2 * 2)
    with (N.succ (N.succ (N.succ (N.succ (N.succ (N.succ n)))))) by lia.
  replace (n + 1 + 2 * 3)
    with (N.succ (N.succ (N.succ (N.succ (N.succ (N.succ (N.succ n))))))) by lia.
  replace (n + 2 + 2 * 3)
    with (N.succ (N.succ (N.succ (N.succ (N.succ (N.succ (N.succ (N.succ n)))))))) by lia.
  replace (n + 1 + 2 * 4)
    with (N.succ (N.succ (N.succ (N.succ (N.succ (N.succ (N.succ (N.succ
            (N.succ n))))))))) by lia.
  replace (n + 2 + 2 * 4)
    with (N.succ (N.succ (N.succ (N.succ (N.succ (N.succ (N.succ (N.succ
            (N.succ (N.succ n)))))))))) by lia.
  replace (n + 1 + 2 * 5)
    with (N.succ (N.succ (N.succ (N.succ (N.succ (N.succ (N.succ (N.succ
            (N.succ (N.succ (N.succ n))))))))))) by lia.
  replace (n + 2 + 2 * 5)
    with (N.succ (N.succ (N.succ (N.succ (N.succ (N.succ (N.succ (N.succ
            (N.succ (N.succ (N.succ (N.succ n)))))))))))) by lia.
  replace (n + 13)
    with (N.succ (N.succ (N.succ (N.succ (N.succ (N.succ (N.succ (N.succ
            (N.succ (N.succ (N.succ (N.succ (N.succ n))))))))))))) by lia.
  replace (n + 14)
    with (N.succ (N.succ (N.succ (N.succ (N.succ (N.succ (N.succ (N.succ
            (N.succ (N.succ (N.succ (N.succ (N.succ (N.succ n)))))))))))))) by lia.
  replace (n + 15)
    with (N.succ (N.succ (N.succ (N.succ (N.succ (N.succ (N.succ (N.succ
            (N.succ (N.succ (N.succ (N.succ (N.succ (N.succ (N.succ n)))))))))))))))
    by lia.
  reflexivity.
Qed.

Lemma own_graph_counts n device : expected_counts (own_graph n device) 6.
Proof.
  pose proof (model_counts (InputVar n [937] Float "features")
                (InputVar (n + 14) [9304] Float "Labels")
                (own_weight n device 937 0) (own_bias n device 0) (own_hidden n device)
                (own_output n device) "classifierOutput") as Hc.
  cbn zeta in Hc. destruct Hc as (Hp & Ha & Ho); [reflexivity|reflexivity|cbn; lia|].
  unfold expected_counts, own_graph, vector_size. rewrite Ha, Ho, Hp.
  - repeat split.
  - cbn [fmap list_fmap app param_uid own_hidden own_weight own_bias own_output fst snd].
    repeat (apply NoDup_cons; split; [rewrite ?elem_of_cons, elem_of_nil; lia|]).
    apply NoDup_nil_2.
Qed.

(** C10.  For every device and every [threadCount],
    [EvalMultiThreadsWithClone] builds its graph, whose three counts are
    the expected ones, so that the checks pass, prints its one line and
    returns: no thread is started or joined and nothing is evaluated.
    The graph and the state it leaves do not depend on [threadCount],
    which only appears as the number printed in the line. *)
Theorem clone_only_builds_checks_and_reports
    (device : DeviceDescriptor) (threadCount : Z) (w : World) :
  let ffNet := own_graph (next_uid w) device in
  expected_counts ffNet 6
  ∧ EvalMultiThreadsWithClone device threadCount w
    = Ok tt (mkWorld (next_uid w + 15) (rand_state w)
               (trace w ++ [summary_line threadCount ffNet]))
  ∧ thread_starts [summary_line threadCount ffNet] = []
  ∧ thread_joins [summary_line threadCount ffNet] = []
  ∧ forward_batches [summary_line threadCount ffNet] = []
  ∧ ∀ threadCount' : Z,
      EvalMultiThreadsWithClone device threadCount' w
      = Ok tt (mkWorld (next_uid w + 15) (rand_state w)
                 (trace w ++ [summary_line threadCount' ffNet])).
Proof.
  intros ffNet.
  assert (∀ T : Z, EvalMultiThreadsWithClone device T w
                   = Ok tt (mkWorld (next_uid w + 15) (rand_state w)
                              (trace w ++ [summary_line T ffNet]))) as Hrun.
  { intros T. rewrite EvalMultiThreadsWithClone_unfold.
    rewrite bind_unfold, CheckStructure_passes by (try apply own_graph_counts; lia).
    reflexivity. }
  split; [apply own_graph_counts|]. split; [apply Hrun|].
  repeat split. exact Hrun.
Qed.

(** ** Further properties of the code *)

(** *** No class to draw *)

Lemma state_after_S k s : state_after (Datatypes.S k) s = (rand_step (state_after k s)).2.
Proof. reflexivity. Qed.

Lemma FillLabelData_no_class w :
  FillLabelData 0 3 w = Fail DivisionByZero (with_rand w (rand_step (rand_state w)).2).
Proof.
  unfold FillLabelData, for_. change (N.to_nat (3 - 0)) with 3%nat. cbn [for_loop].
  rewrite bind_unfold, bind_unfold, rand_unfold. reflexivity.
Qed.

Lemma GenerateBatch_no_class D w :
  GenerateBatch D 0 3 w
  = Fail DivisionByZero
      (with_rand w (state_after (Datatypes.S (N.to_nat (size_mul D 3))) (rand_state w))).
Proof.
  unfold GenerateBatch. rewrite bind_unfold.
  destruct (FillInputData_draws D 3 w) as (inputData & E & _). rewrite E.
  rewrite bind_unfold, FillLabelData_no_class. reflexivity.
Qed.

Lemma EvaluateNetwork_no_class D net dev w :
  EvaluateNetwork D 0 net dev w
  = Fail DivisionByZero
      (mkWorld (next_uid w)
         (state_after (Datatypes.S (N.to_nat (size_mul D 3))) (srand_state 2)) (trace w)).
Proof.
  unfold EvaluateNetwork, for_. rewrite bind_unfold. cbn [srand].
  change (N.to_nat (4 - 0)) with 4%nat. cbn [for_loop].
  rewrite bind_unfold, bind_unfold, GenerateBatch_no_class. reflexivity.
Qed.

Lemma CheckStructure_world who f H w :
  CheckStructure who f H w = Ok tt w
  ∨ ∃ what, CheckStructure who f H w = Fail (runtime_error what) w.
Proof.
  unfold CheckStructure. rewrite bind_unfold. unfold throw_if at 1.
  destruct (negb _); [right; eexists; reflexivity|]. rewrite ret_unfold.
  rewrite bind_unfold. unfold throw_if at 1.
  destruct (negb _); [right; eexists; reflexivity|]. rewrite ret_unfold.
  unfold throw_if. destruct (negb _); [right; eexists; reflexivity|].
  left. reflexivity.
Qed.

(** X1.  With [numOutputClasses = 0] the driver stops in its first
    iteration: it reseeds the generator, fills the input buffer, draws
    the class of the first sample and computes [rand() % 0], a remainder
    by zero, before any forward evaluation.  So no call of
    [EvaluationNewNetworkWithSharedParameters] with no output class
    returns or evaluates anything, whatever its other arguments; with
    arguments that pass the checks of lines 73-80 it stops at that
    remainder. *)
Theorem no_class_no_forward_evaluation
    (inputDim : size_t) (computeDevice : DeviceDescriptor) (w : World) :
  (∀ net,
     EvaluateNetwork inputDim 0 net computeDevice w
     = Fail DivisionByZero
         (mkWorld (next_uid w)
            (state_after (Datatypes.S (N.to_nat (size_mul inputDim 3))) (srand_state 2))
            (trace w)))
  ∧ (∀ H Win bin Ws bs Wout,
       ∃ e w',
         EvaluationNewNetworkWithSharedParameters inputDim 0 H Win bin Ws bs Wout
           computeDevice w = Fail e w'
         ∧ trace w' = trace w)
  ∧ ∀ H Win bin Ws bs Wout,
      1 ≤ H → 2 * H + 1 < 2 ^ 64 →
      length Ws = N.to_nat (H - 1) → length bs = N.to_nat (H - 1) →
      NoDup (param_uid <$> Win :: bin :: Wout :: Ws ++ bs) →
      EvaluationNewNetworkWithSharedParameters inputDim 0 H Win bin Ws bs Wout
        computeDevice w
      = Fail DivisionByZero
          (mkWorld (next_uid w + 2)
             (state_after (Datatypes.S (N.to_nat (size_mul inputDim 3))) (srand_state 2))
             (trace w)).
Proof.
  split; [intros net; apply EvaluateNetwork_no_class|]. split; cycle 1.
  { intros H Win bin Ws bs Wout HH Hlt HW Hb Hnd.
    unfold EvaluationNewNetworkWithSharedParameters.
    rewrite bind_unfold, AssembleNetwork_Ok by lia.
    destruct (assembled_counts inputDim 0 H Win bin Ws bs Wout (next_uid w) HH HW Hb)
      as (Hp & Ha & Ho).
    rewrite bind_unfold, CheckStructure_passes
      by (try assumption; repeat split; auto).
    rewrite EvaluateNetwork_no_class. reflexivity. }
  intros H Win bin Ws bs Wout. unfold EvaluationNewNetworkWithSharedParameters.
  rewrite bind_unfold.
  destruct (Nat.le_gt_cases (N.to_nat (H - 1)) (length Ws)) as [HW|HW];
    [destruct (Nat.le_gt_cases (N.to_nat (H - 1)) (length bs)) as [Hb|Hb]|].
  - rewrite AssembleNetwork_Ok by assumption. rewrite bind_unfold.
    destruct (CheckStructure_world "EvaluationNewNetworkWithSharedParameters"
                (ffNet (assembled inputDim 0 H Win bin Ws bs Wout (next_uid w))) H
                (advance 2 w)) as [E|[what E]]; rewrite E.
    + rewrite EvaluateNetwork_no_class. eexists _, _. split; reflexivity.
    + eexists _, _. split; reflexivity.
  - rewrite AssembleNetwork_Fail by (right; assumption).
    eexists _, _. split; reflexivity.
  - rewrite AssembleNetwork_Fail by (left; assumption).
    eexists _, _. split; reflexivity.
Qed.

(** *** A negative thread count *)

(** X2.  A negative [threadCount] is refused after the thirteen tensors
    are created and before any thread is started: converted to [size_t]
    for the vector of threads it exceeds [max_size()], and the
    constructor throws [std::length_error]. *)
Theorem negative_thread_count_refused
    (device : DeviceDescriptor) (threadCount : Z) (w : World) :
  (- 2 ^ 31 ≤ threadCount < 0)%Z →
  EvalMultiThreadsWithNewNetwork device threadCount w
  = Fail length_error (mkWorld (next_uid w + 13) (rand_state w) (trace w)).
Proof.
  intros HT. rewrite EvalMultiThreadsWithNewNetwork_unfold. unfold run_threads.
  rewrite bind_unfold, thread_vector_negative by exact HT. reflexivity.
Qed.

(** *** Tensors passed more than once, and no hidden layer *)

Lemma size_list_to_set_le (l : list N) : (size (list_to_set l : gset N) ≤ length l)%nat.
Proof.
  drop_runtime.
  induction l as [|a l IH]; cbn [list_to_set length].
  - rewrite size_empty. lia.
  - rewrite size_union_alt, size_singleton.
    pose proof (subseteq_size (list_to_set l ∖ {[a]}) (list_to_set l : gset N)
                  ltac:(set_solver)).
    lia.
Qed.

Lemma size_list_to_set_NoDup (l : list N) :
  size (list_to_set l : gset N) = length l → NoDup l.
Proof.
  drop_runtime.
  induction l as [|a l IH]; cbn [list_to_set length]; intros Hsz; [constructor|].
  pose proof (size_list_to_set_le l) as Hle.
  destruct (decide (a ∈ l)) as [Hin|Hnin].
  - exfalso.
    replace ({[a]} ∪ list_to_set l) with (list_to_set l : gset N) in Hsz by set_solver.
    lia.
  - constructor; [exact Hnin|]. apply IH.
    rewrite size_union, size_singleton in Hsz by set_solver. lia.
Qed.

Lemma assembled_parameter_count D K H Win bin Ws bs Wout u :
  (N.to_nat (H - 1) ≤ length Ws)%nat → (N.to_nat (H - 1) ≤ length bs)%nat →
  length (Parameters (ffNet (assembled D K H Win bin Ws bs Wout u)))
  = size (list_to_set (param_uid <$> Win :: bin :: Wout
                         :: take (N.to_nat (H - 1)) Ws ++ take (N.to_nat (H - 1)) bs)
          : gset N).
Proof.
  intros HW Hb. unfold assembled. cbn [ffNet].
  rewrite Parameters_model, pset_classifier_graph by reflexivity.
  rewrite fst_zip, snd_zip by (rewrite !length_take; lia). reflexivity.
Qed.

(** X3.  Where the assertion of line 33 is compiled out,
    [numHiddenLayers = 0] builds the graph of [numHiddenLayers = 1] (the
    loop of lines 36-37 does not run, and the arrays are not read), which
    has more than the [2 * 0 + 1 = 1] parameter the check of line 73
    expects unless one tensor serves as both weights and as the bias: the
    function throws the parameter-count error, having created its two
    input variables and evaluated nothing. *)
Theorem no_hidden_layer_is_refused
    (inputDim numOutputClasses : size_t) (Win bin : Parameter_)
    (Ws bs : list Parameter_) (Wout : Parameter_)
    (computeDevice : DeviceDescriptor) (w : World) :
  param_uid Win ≠ param_uid bin ∨ param_uid bin ≠ param_uid Wout →
  (∀ input nonLinearity w0,
     FullyConnectedFeedForwardClassifierNetWithSharedParameters
       input 0 Win bin Ws bs Wout nonLinearity w0
     = Ok (Times Wout
             (FullyConnectedDNNLayerWithSharedParameters input Win bin nonLinearity)
             1 "") w0)
  ∧ EvaluationNewNetworkWithSharedParameters inputDim numOutputClasses 0
      Win bin Ws bs Wout computeDevice w
    = Fail parameter_count_error
        (mkWorld (next_uid w + 2) (rand_state w) (trace w)).
Proof.
  intros Hne. split.
  - intros input nonLinearity w0. rewrite classifier_Ok by (cbn; lia). reflexivity.
  - unfold EvaluationNewNetworkWithSharedParameters.
    rewrite bind_unfold, AssembleNetwork_Ok by (cbn; lia).
    rewrite bind_unfold. unfold CheckStructure.
    set (f := ffNet (assembled inputDim numOutputClasses 0 Win bin Ws bs Wout (next_uid w))).
    assert (2 ≤ length (Parameters f))%nat as Hcount.
    { unfold f. rewrite assembled_parameter_count by (cbn; lia).
      change (N.to_nat (0 - 1)) with 0%nat. cbn [take app fmap list_fmap list_to_set].
      clear f. drop_runtime.
      destruct Hne as [Hne|Hne].
      - transitivity (size ({[param_uid Win]} ∪ {[param_uid bin]} : gset N)).
        + rewrite size_union, !size_singleton by set_solver. lia.
        + apply subseteq_size. set_solver.
      - transitivity (size ({[param_uid bin]} ∪ {[param_uid Wout]} : gset N)).
        + rewrite size_union, !size_singleton by set_solver. lia.
        + apply subseteq_size. set_solver. }
    change (size_add (size_mul 0 2) 1) with 1.
    destruct (N.eqb_spec (vector_size (Parameters f)) 1) as [E|E];
      [unfold vector_size in E; lia|reflexivity].
Qed.

(** *** The batches as a function of the random numbers *)

Lemma state_after_add a b s : state_after (a + b) s = state_after a (state_after b s).
Proof. unfold state_after. apply Nat.iter_add. Qed.

Lemma nth_draw_add a j s : nth_draw (j + a) s = nth_draw j (state_after a s).
Proof. unfold nth_draw. rewrite state_after_add. reflexivity. Qed.

(** Row [i] of the label buffer has its 1 in the column drawn by the
    [i]-th call of [rand] of the loop. *)
Lemma FillLabelData_draws K n w :
  0 < K → K * n < 2 ^ 64 →
  ∃ labelData,
    FillLabelData K n w
    = Ok labelData (with_rand w (state_after (N.to_nat n) (rand_state w)))
    ∧ length labelData = N.to_nat (K * n)
    ∧ ∀ i c, (i < N.to_nat n)%nat → (c < N.to_nat K)%nat →
        labelData !! (i * N.to_nat K + c)%nat
        = Some (if decide (c = drawn_class K (nth_draw i (rand_state w)))
                then 1%Q else 0%Q).
Proof.
  intros HK Hlt. unfold FillLabelData, for_. rewrite N.sub_0_r.
  assert (size_mul K n = K * n) as Esz
    by (unfold size_mul, size_wrap; apply N.mod_small; assumption).
  rewrite Esz.
  set (Kn := N.to_nat K). set (nn := N.to_nat n). set (s := rand_state w).
  assert (N.to_nat (K * n) = (Kn * nn)%nat) as Elen by (unfold Kn, nn; lia).
  destruct (for_loop_inv
    (λ k buf w', next_uid w' = next_uid w ∧ trace w' = trace w
                 ∧ rand_state w' = state_after k s
                 ∧ length buf = (Kn * nn)%nat
                 ∧ (∀ i c, (i < k)%nat → (c < Kn)%nat →
                      buf !! (i * Kn + c)%nat
                      = Some (if decide (c = drawn_class K (nth_draw i s))
                              then 1%Q else 0%Q))
                 ∧ (∀ i, (k ≤ i < nn)%nat → zero_row Kn buf i))
    (λ i labelData,
       r ← rand;
       class ← size_rem (size_of_int r) K;
       assign labelData (size_add (size_mul i K) class) 1%Q) 0 nn)
    with (s := vector_new (K * n) 0%Q) (w := w)
    as (buf & w' & E & Hu & Ht & Hs & Hl & Hrows & _).
  - intros k buf w1 Hk (Hu & Ht & Hs & Hl & Hdone & Htodo).
    rewrite bind_unfold, rand_unfold. rewrite Hs.
    fold (nth_draw k s). set (r := nth_draw k s).
    rewrite bind_unfold, size_rem_Ok by assumption.
    set (c := size_of_int r mod K).
    assert (c < K) as Hc by (apply N.mod_upper_bound; lia).
    assert (N.to_nat c < Kn)%nat as Hcn by (unfold Kn; lia).
    pose proof (label_index K n k c Hlt Hk Hc) as Eidx. fold Kn in Eidx.
    assert (k * Kn + N.to_nat c < Kn * nn)%nat as Hin
      by (apply row_index_lt; assumption).
    rewrite assign_Ok by (rewrite Eidx, Hl; exact Hin).
    rewrite Eidx.
    eexists _, _. split; [reflexivity|]. cbn [with_rand next_uid trace rand_state].
    split; [assumption|]. split; [assumption|]. split; [reflexivity|].
    split; [rewrite length_insert; assumption|]. split.
    + intros i c' Hi Hc'. destruct (decide (i = k)) as [->|Hik].
      * fold r. change (drawn_class K r) with (N.to_nat c).
        destruct (decide (c' = N.to_nat c)) as [->|Hne].
        -- apply list_lookup_insert_eq.
           change (k * Kn + N.to_nat c < length buf)%nat. rewrite Hl. exact Hin.
        -- rewrite list_lookup_insert_ne by lia. apply (Htodo k); [lia|assumption].
      * rewrite list_lookup_insert_ne
          by (apply not_eq_sym, row_index_ne; [assumption..]).
        apply Hdone; [lia|assumption].
    + intros i Hi c' Hc'.
      rewrite list_lookup_insert_ne
        by (apply not_eq_sym, row_index_ne; [lia|assumption..]).
      apply (Htodo i); [lia|assumption].
  - split; [reflexivity|]. split; [reflexivity|]. split; [reflexivity|]. split; [|split].
    + unfold vector_new. rewrite length_replicate. exact Elen.
    + intros i c Hi. lia.
    + intros i Hi c Hc. unfold vector_new. apply lookup_replicate_2.
      rewrite Elen. apply row_index_lt; [lia|assumption].
  - exists buf. split; [|split].
    + rewrite <- Hs, <- (with_rand_eq w w') by assumption. exact E.
    + rewrite Elen. exact Hl.
    + exact Hrows.
Qed.




(** *** The leaves of the assembled graph *)

Lemma chain_leaves_cons W b hidden :
  chain_leaves ((W, b) :: hidden) = chain_leaves hidden ++ [ParameterVar b; ParameterVar W].
Proof.
  unfold chain_leaves. rewrite reverse_cons, flat_map_app. cbn. reflexivity.
Qed.

Lemma Inputs_chain hidden : ∀ root,
  Inputs (chain sigmoid_ hidden root) = chain_leaves hidden ++ Inputs root.
Proof.
  induction hidden as [|[W b] hidden IH]; intros root; [reflexivity|].
  rewrite chain_cons, IH, Inputs_layer, chain_leaves_cons, <- app_assoc. reflexivity.
Qed.

Lemma Inputs_classifier_graph (x : Variable_) Win bin hidden Wout name :
  Inputs (classifier_graph x Win bin hidden Wout name)
  = ParameterVar Wout :: chain_leaves hidden ++ [ParameterVar bin; ParameterVar Win; x].
Proof.
  unfold classifier_graph. cbn [Inputs]. rewrite Inputs_chain, Inputs_layer. reflexivity.
Qed.

Lemma filter_input_chain_leaves hidden :
  filter (λ v, is_input v = true) (chain_leaves hidden) = [].
Proof.
  unfold chain_leaves. induction (reverse hidden) as [|[W b] l IH]; [reflexivity|].
  cbn [flat_map]. rewrite filter_app, IH. reflexivity.
Qed.

Lemma filter_parameter_chain_leaves hidden :
  filter (λ v, is_parameter v = true) (chain_leaves hidden) = chain_leaves hidden.
Proof.
  unfold chain_leaves. induction (reverse hidden) as [|[W b] l IH]; [reflexivity|].
  cbn [flat_map]. rewrite filter_app, IH. reflexivity.
Qed.

Lemma elem_of_chain_leaves v hidden :
  v ∈ chain_leaves hidden ↔ v ∈ ParameterVar <$> (hidden.*1 ++ hidden.*2).
Proof.
  drop_runtime.
  induction hidden as [|[W b] hidden IH].
  - cbn. reflexivity.
  - rewrite chain_leaves_cons, elem_of_app, IH. cbn [fmap list_fmap fst snd].
    rewrite !fmap_app, !fmap_cons, !elem_of_app, !elem_of_cons, elem_of_nil.
    tauto.
Qed.

(** The inputs among the leaves of the model, one entry per use. *)
Lemma filter_input_model (x labels : Variable_) Win bin hidden Wout name :
  is_input x = true → is_input labels = true →
  filter (λ v, is_input v = true)
    (Inputs (model (classifier_graph x Win bin hidden Wout name) labels))
  = [x; labels; x; labels; x].
Proof.
  intros Hx Hl. unfold model. cbn [Inputs flat_map].
  rewrite Inputs_classifier_graph.
  destruct x as [u sh dt nm|]; [|discriminate].
  destruct labels as [u' sh' dt' nm'|]; [|discriminate].
  rewrite !filter_app, !filter_cons. cbn [is_input].
  rewrite !filter_app, filter_input_chain_leaves. reflexivity.
Qed.

Lemma uniq_two_inputs (x labels : Variable_) :
  Uid x ≠ Uid labels → uniq [x; labels; x; labels; x] = [x; labels].
Proof.
  drop_runtime.
  intros Hne. unfold uniq. cbn [uniq_from].
  repeat match goal with
         | |- context [decide (?a ∈ ?S)] =>
             destruct (decide (a ∈ S)); try (exfalso; set_solver)
         end.
  reflexivity.
Qed.

Lemma Arguments_model_list (x labels : Variable_) Win bin hidden Wout name :
  is_input x = true → is_input labels = true → Uid x ≠ Uid labels →
  Arguments (model (classifier_graph x Win bin hidden Wout name) labels) = [x; labels].
Proof.
  intros Hx Hl Hne. unfold Arguments.
  rewrite filter_input_model by assumption. apply uniq_two_inputs. exact Hne.
Qed.

Lemma Arguments_assembled D K H Win bin Ws bs Wout u :
  Arguments (ffNet (assembled D K H Win bin Ws bs Wout u))
  = [features D u; labels_of K u].
Proof.
  unfold assembled. cbn [ffNet]. apply Arguments_model_list; [reflexivity..|].
  cbn. lia.
Qed.

(** X5.  Each of the four forward evaluations of
    [EvaluationNewNetworkWithSharedParameters] is of the combined graph,
    on the device passed; it binds a value to each argument of the graph
    and to nothing else, the value bound to an argument being a view on
    the CPU device, whatever the device passed, of the shape of the
    argument followed by [1] and the three samples; and it asks
    for two of the three outputs of the graph, the classifier output and
    the classification error, not for the loss. *)
Theorem forward_calls_bind_the_arguments
    (inputDim numOutputClasses H : size_t) (Win bin : Parameter_)
    (Ws bs : list Parameter_) (Wout : Parameter_)
    (computeDevice : DeviceDescriptor) (w : World) :
  1 ≤ H → 2 * H + 1 < 2 ^ 64 →
  length Ws = N.to_nat (H - 1) → length bs = N.to_nat (H - 1) →
  NoDup (param_uid <$> Win :: bin :: Wout :: Ws ++ bs) →
  0 < numOutputClasses → numOutputClasses * 3 < 2 ^ 64 →
  ∃ w',
    EvaluationNewNetworkWithSharedParameters inputDim numOutputClasses H
      Win bin Ws bs Wout computeDevice w = Ok tt w'
    ∧ length (forward_functions (new_events w w')) = 4%nat
    ∧ ∀ f arguments outputs device,
        Forward f arguments outputs device ∈ new_events w w' →
        arguments.*1 ≡ₚ Arguments f
        ∧ (∀ v value, (v, value) ∈ arguments →
             view_shape (Data value) = Shape v ++ [1; 3]
             ∧ view_device (Data value) = CPUDevice)
        ∧ (∃ (classifierOutput : Function) (labels : Variable_),
             let loss :=
               CrossEntropyWithSoftmax classifierOutput labels "LossFunction" in
             let prediction :=
               ClassificationError classifierOutput labels "ClassificationError" in
             Outputs f = [loss; prediction; classifierOutput]
             ∧ outputs = [(classifierOutput, None); (prediction, None)]
             ∧ loss ∉ outputs.*1)
        ∧ device = computeDevice.
Proof.
  intros HH Hlt HW Hb Hnd HK HK3.
  destruct (Evaluation_Ok inputDim numOutputClasses H Win bin Ws bs Wout computeDevice w
              HH Hlt HW Hb Hnd HK HK3) as (bs4 & s' & Eb & Hl4 & E).
  eexists. split; [exact E|]. rewrite new_events_app.
  set (net := assembled inputDim numOutputClasses H Win bin Ws bs Wout (next_uid w)).
  split.
  - clear Eb. induction bs4 as [|b bs4 IH] in Hl4 |- *; [discriminate|].
    clear IH. destruct bs4 as [|b1 [|b2 [|b3 [|b4 bs4]]]]; try discriminate.
    reflexivity.
  - intros f arguments outputs device Hin.
    apply list_elem_of_fmap in Hin as (b & Hcall & Hb4).
    unfold ForwardCall in Hcall. injection Hcall as -> -> -> ->.
    assert ((view_shape (Data b.1) = [inputDim; 1; 3]
             ∧ view_device (Data b.1) = CPUDevice)
            ∧ view_shape (Data b.2) = [numOutputClasses; 1; 3]
              ∧ view_device (Data b.2) = CPUDevice) as (Hs1 & Hs2).
    { revert b Hb4. apply Forall_forall. eapply batches_Forall; [|exact Eb].
      intros s b w1 E1.
      destruct (GenerateBatch_inv _ _ _ _ _ _ E1) as (inputData & labelData & -> & _).
      repeat split; reflexivity. }
    split; [|split; [|split]].
    + rewrite Arguments_model_list by (try reflexivity; cbn; lia). reflexivity.
    + intros v value Hv.
      apply elem_of_cons in Hv as [[= -> ->]|Hv]; [exact Hs1|].
      apply list_elem_of_singleton in Hv as [= -> ->]. exact Hs2.
    + cbn [Outputs flat_map app model]. unfold model.
      cbn [Outputs flat_map app classifier_graph].
      eexists _, _. cbn zeta. split; [reflexivity|]. split; [reflexivity|].
      cbn [fmap list_fmap fst]. rewrite !elem_of_cons, elem_of_nil.
      intros [Habs|[Habs|[]]]; discriminate Habs.
    + reflexivity.
Qed.

(** *** The tensors of the workers' graphs *)

Lemma elem_of_uniq_from vs : ∀ seen v,
  v ∈ uniq_from seen vs → v ∈ vs ∧ Uid v ∉ seen.
Proof.
  drop_runtime.
  induction vs as [|a vs IH]; intros seen v Hv; cbn [uniq_from] in Hv.
  - apply elem_of_nil in Hv as [].
  - destruct (decide (Uid a ∈ seen)) as [Hin|Hnin].
    + destruct (IH _ _ Hv) as (Hvs & Hseen). split; [right; exact Hvs|exact Hseen].
    + apply elem_of_cons in Hv as [->|Hv]; [split; [left|exact Hnin]|].
      destruct (IH _ _ Hv) as (Hvs & Hseen). split; [right; exact Hvs|set_solver].
Qed.

Lemma NoDup_uniq_from vs : ∀ seen, NoDup (uniq_from seen vs).
Proof.
  drop_runtime.
  induction vs as [|a vs IH]; intros seen; cbn [uniq_from]; [constructor|].
  destruct (decide (Uid a ∈ seen)) as [Hin|Hnin]; [apply IH|].
  constructor; [|apply IH].
  intros Ha. apply elem_of_uniq_from in Ha as (_ & Hseen). set_solver.
Qed.

Lemma uniq_from_complete vs : ∀ seen v,
  v ∈ vs → Uid v ∉ seen → (∀ v', v' ∈ vs → Uid v' = Uid v → v' = v) →
  v ∈ uniq_from seen vs.
Proof.
  drop_runtime.
  induction vs as [|a vs IH]; intros seen v Hv Hseen Hfun; cbn [uniq_from].
  - apply elem_of_nil in Hv as [].
  - destruct (decide (Uid a ∈ seen)) as [Hin|Hnin].
    + apply elem_of_cons in Hv as [->|Hv]; [contradiction|].
      apply IH; [exact Hv|exact Hseen|]. intros v' Hv'. apply Hfun. right. exact Hv'.
    + destruct (decide (Uid a = Uid v)) as [Hu|Hne].
      * rewrite (Hfun a) by (try left; assumption). left.
      * right. apply elem_of_cons in Hv as [->|Hv]; [contradiction|].
        apply IH; [exact Hv|set_solver|intros v' Hv'; apply Hfun; right; exact Hv'].
Qed.

Lemma NoDup_fmap_inj_on {A B} (f : A → B) (l : list A) :
  NoDup (f <$> l) → ∀ x y, x ∈ l → y ∈ l → f x = f y → x = y.
Proof.
  drop_runtime.
  induction l as [|a l IH]; intros Hnd x y Hx Hy Hf.
  - apply elem_of_nil in Hx as [].
  - rewrite fmap_cons in Hnd. apply NoDup_cons in Hnd as (Ha & Hnd).
    apply elem_of_cons in Hx as [->|Hx]; apply elem_of_cons in Hy as [->|Hy].
    + reflexivity.
    + exfalso. apply Ha. rewrite Hf. apply list_elem_of_fmap_2. exact Hy.
    + exfalso. apply Ha. rewrite <- Hf. apply list_elem_of_fmap_2. exact Hx.
    + apply IH; assumption.
Qed.

(** The parameters of the model are the tensors of its classifier, each
    once, when these are distinct tensors. *)
Lemma Parameters_model_tensors (x labels : Variable_) Win bin hidden Wout name :
  is_input x = true → is_input labels = true →
  NoDup (param_uid <$> Win :: bin :: Wout :: hidden.*1 ++ hidden.*2) →
  Parameters (model (classifier_graph x Win bin hidden Wout name) labels)
  ≡ₚ ParameterVar <$> Win :: bin :: Wout :: hidden.*1 ++ hidden.*2.
Proof.
  intros Hx Hl Hnd.
  set (P := Win :: bin :: Wout :: hidden.*1 ++ hidden.*2) in *.
  set (L := filter (λ v, is_parameter v = true)
              (Inputs (model (classifier_graph x Win bin hidden Wout name) labels))).
  assert (∀ v, v ∈ L ↔ v ∈ ParameterVar <$> P) as HL.
  { intros v. unfold L, model. cbn [Inputs flat_map].
    rewrite Inputs_classifier_graph. unfold P.
    destruct x as [u sh dt nm|]; [|discriminate].
    destruct labels as [u' sh' dt' nm'|]; [|discriminate].
    clear Hnd L P Hx Hl. drop_runtime.
    rewrite list_elem_of_filter.
    rewrite !elem_of_app, !elem_of_cons, !elem_of_app, !elem_of_cons, !elem_of_nil.
    rewrite !elem_of_chain_leaves, !fmap_cons, !elem_of_cons.
    split.
    - intros (Hp & Hv). destruct v as [|p]; [discriminate|].
      repeat match goal with
             | H : _ ∨ _ |- _ => destruct H as [H|H]
             | H : ParameterVar _ = InputVar _ _ _ _ |- _ => discriminate H
             | H : False |- _ => destruct H
             end; auto.
    - intros Hv. split.
      + repeat match goal with
               | H : _ ∨ _ |- _ => destruct H as [H|H]
               end; try (subst v; reflexivity).
        apply list_elem_of_fmap in Hv as (p & -> & _). reflexivity.
      + tauto. }
  assert (NoDup (ParameterVar <$> P)) as HndP.
  { apply NoDup_fmap_2; [intros p q [= ->]; reflexivity|].
    apply (NoDup_fmap_1 param_uid). exact Hnd. }
  unfold Parameters. fold L. apply NoDup_Permutation.
  - apply NoDup_uniq_from.
  - exact HndP.
  - intros v. split.
    + intros Hv. apply elem_of_uniq_from in Hv as (Hv & _). apply HL. exact Hv.
    + intros Hv. apply uniq_from_complete; [apply HL; exact Hv|set_solver|].
      intros v' Hv' Hu. apply HL in Hv'.
      apply list_elem_of_fmap in Hv as (p & -> & Hp).
      apply list_elem_of_fmap in Hv' as (q & -> & Hq).
      f_equal. apply (NoDup_fmap_inj_on param_uid P Hnd); assumption.
Qed.

Lemma Parameters_assembled D K H Win bin Ws bs Wout u :
  length Ws = N.to_nat (H - 1) → length bs = N.to_nat (H - 1) →
  NoDup (param_uid <$> Win :: bin :: Wout :: Ws ++ bs) →
  Parameters (ffNet (assembled D K H Win bin Ws bs Wout u))
  ≡ₚ ParameterVar <$> Win :: bin :: Wout :: Ws ++ bs.
Proof.
  intros HW Hb Hnd. unfold assembled. cbn [ffNet]. rewrite !firstn_all2 by lia.
  pose proof (Parameters_model_tensors (features D u) (labels_of K u) Win bin
                (zip Ws bs) Wout "" eq_refl eq_refl) as HP.
  rewrite fst_zip, snd_zip in HP by lia. apply HP. exact Hnd.
Qed.

Lemma forward_functions_ForwardCall net dev bs :
  forward_functions (ForwardCall net dev <$> bs) = replicate (length bs) (ffNet net).
Proof.
  induction bs as [|b bs IH]; [reflexivity|].
  cbn. unfold forward_functions in IH. rewrite IH. reflexivity.
Qed.

Lemma forward_functions_joined n T : forward_functions (joined n T) = [].
Proof.
  unfold forward_functions. induction T as [|T IH]; [reflexivity|].
  rewrite joined_S, omap_app, IH. reflexivity.
Qed.

Lemma forward_functions_trace args n bs4 T :
  length bs4 = 4%nat →
  forward_functions (started args n bs4 T ++ joined n T)
  = flat_map (replicate 4) ((λ k, ffNet (worker_net args n k)) <$> seq 0 T).
Proof.
  intros Hl. unfold forward_functions at 1. rewrite omap_app.
  fold (forward_functions (joined n T)). rewrite forward_functions_joined, app_nil_r.
  induction T as [|T IH]; [reflexivity|].
  rewrite started_S, omap_app, IH, seq_S, fmap_app, flat_map_app. f_equal.
  unfold start_events. cbn [omap list_omap fmap list_fmap flat_map]. rewrite app_nil_r.
  fold (forward_functions (ForwardCall (worker_net args n T) (arg_computeDevice args)
                             <$> bs4)).
  rewrite forward_functions_ForwardCall, Hl. reflexivity.
Qed.

Lemma worker_arguments args n T :
  Uid <$> flat_map Arguments ((λ k, ffNet (worker_net args n k)) <$> seq 0 T)
  = flat_map (λ k, [thread_id n k + 1; thread_id n k + 2]) (seq 0 T).
Proof.
  induction T as [|T IH]; [reflexivity|].
  rewrite seq_S, fmap_app, !flat_map_app, fmap_app, IH. f_equal.
  cbn [fmap list_fmap flat_map]. unfold worker_net. rewrite Arguments_assembled.
  cbn. f_equal. f_equal. lia.
Qed.

Lemma NoDup_worker_arguments n T :
  NoDup (flat_map (λ k, [thread_id n k + 1; thread_id n k + 2]) (seq 0 T))
  ∧ ∀ u, u ∈ flat_map (λ k, [thread_id n k + 1; thread_id n k + 2]) (seq 0 T) →
      u < thread_id n T + 1.
Proof.
  drop_runtime.
  induction T as [|T (IHnd & IHlt)].
  - split; [constructor|]. intros u Hu. apply elem_of_nil in Hu as [].
  - rewrite seq_S, flat_map_app. cbn [flat_map app]. split.
    + apply NoDup_app. split; [exact IHnd|]. split.
      * intros u Hu Hin. specialize (IHlt u Hu).
        rewrite !elem_of_cons, elem_of_nil in Hin. unfold thread_id in *. lia.
      * apply NoDup_cons. split; [|apply NoDup_singleton].
        rewrite list_elem_of_singleton. lia.
    + intros u Hu. apply elem_of_app in Hu as [Hu|Hu].
      * specialize (IHlt u Hu). unfold thread_id in *. lia.
      * rewrite !elem_of_cons, elem_of_nil in Hu. unfold thread_id in *. lia.
Qed.

(** X6.  The tensors are created once and every worker's graph refers
    to them: each forward evaluation of the fan-out, four for each of the
    [threadCount] workers, is of a graph whose parameters are the
    thirteen tensors the threads were started with, while the two
    arguments of a worker's graph are variables of its own, [2 *
    threadCount] distinct variables in all. *)
Theorem workers_share_the_tensors
    (device : DeviceDescriptor) (threadCount : Z) (w : World) :
  (0 ≤ threadCount < 2 ^ 31)%Z →
  ∃ w' (nets : list Function),
    EvalMultiThreadsWithNewNetwork device threadCount w = Ok tt w'
    ∧ length nets = Z.to_nat threadCount
    ∧ forward_functions (new_events w w') = flat_map (replicate 4) nets
    ∧ (∀ f, f ∈ nets →
         Parameters f ≡ₚ ParameterVar <$> tensors_of (shared_args (next_uid w) device))
    ∧ (∀ th args, (th, args) ∈ thread_starts (new_events w w') →
         args = shared_args (next_uid w) device)
    ∧ NoDup (Uid <$> flat_map Arguments nets)
    ∧ length (flat_map Arguments nets) = (2 * Z.to_nat threadCount)%nat.
Proof.
  intros HT.
  destruct (fan_out_Ok device threadCount w HT) as (bs4 & w' & E & Hl & Hev).
  set (args := shared_args (next_uid w) device) in *.
  set (n := next_uid w + 13) in *. set (T := Z.to_nat threadCount) in *.
  exists w', ((λ k, ffNet (worker_net args n k)) <$> seq 0 T).
  split; [exact E|]. split; [rewrite length_fmap, length_seq; reflexivity|].
  rewrite Hev. split; [apply forward_functions_trace; exact Hl|].
  split; [|split; [|split]].
  - intros f Hf. apply list_elem_of_fmap in Hf as (k & -> & _).
    unfold worker_net, tensors_of.
    destruct (shared_args_good (next_uid w) device) as (_ & _ & HW & Hb & Hnd & _).
    fold args in HW, Hb, Hnd. apply Parameters_assembled; assumption.
  - intros th a Hin. rewrite thread_starts_trace in Hin.
    apply list_elem_of_fmap in Hin as (k & [= -> ->] & _). reflexivity.
  - rewrite worker_arguments. apply NoDup_worker_arguments.
  - rewrite <- (length_fmap Uid), worker_arguments.
    clear. induction T as [|T IH]; [reflexivity|].
    rewrite seq_S, flat_map_app, length_app, IH. cbn. lia.
Qed.

(** *** A tensor passed twice *)

(** X7.  The graph never reports more than [2H + 1] parameters, and
    reports [2H + 1] exactly when the [2H + 1] tensors passed are distinct
    tensors; its parameters are then the tensors passed, each once.  When
    a tensor is passed for two parameters the function throws the
    parameter-count error before reseeding the generator and before any
    forward evaluation. *)
Theorem tensor_passed_twice_is_refused
    (inputDim numOutputClasses H : size_t) (Win bin : Parameter_)
    (Ws bs : list Parameter_) (Wout : Parameter_)
    (computeDevice : DeviceDescriptor) (w : World) :
  1 ≤ H → 2 * H + 1 < 2 ^ 64 →
  length Ws = N.to_nat (H - 1) → length bs = N.to_nat (H - 1) →
  ∃ net w1,
    AssembleNetwork inputDim numOutputClasses H Win bin Ws bs Wout w = Ok net w1
    ∧ vector_size (Parameters (ffNet net)) ≤ 2 * H + 1
    ∧ (vector_size (Parameters (ffNet net)) = 2 * H + 1
       ↔ NoDup (param_uid <$> Win :: bin :: Wout :: Ws ++ bs))
    ∧ (NoDup (param_uid <$> Win :: bin :: Wout :: Ws ++ bs) →
       Parameters (ffNet net) ≡ₚ ParameterVar <$> Win :: bin :: Wout :: Ws ++ bs)
    ∧ (¬ NoDup (param_uid <$> Win :: bin :: Wout :: Ws ++ bs) →
       EvaluationNewNetworkWithSharedParameters inputDim numOutputClasses H
         Win bin Ws bs Wout computeDevice w
       = Fail parameter_count_error w1
       ∧ trace w1 = trace w ∧ rand_state w1 = rand_state w).
Proof.
  intros HH Hlt HW Hb.
  exists (assembled inputDim numOutputClasses H Win bin Ws bs Wout (next_uid w)),
    (advance 2 w).
  split; [apply AssembleNetwork_Ok; lia|].
  set (f := ffNet (assembled inputDim numOutputClasses H Win bin Ws bs Wout (next_uid w))).
  set (uids := param_uid <$> Win :: bin :: Wout :: Ws ++ bs).
  assert (length (Parameters f) = size (list_to_set uids : gset N)) as Hcount.
  { unfold f, uids. rewrite assembled_parameter_count by lia.
    rewrite !firstn_all2 by lia. reflexivity. }
  assert (length uids = N.to_nat (2 * H + 1)) as Hlen.
  { unfold uids. rewrite length_fmap. cbn [length]. rewrite length_app. lia. }
  pose proof (size_list_to_set_le uids) as Hle.
  assert (vector_size (Parameters f) = 2 * H + 1 ↔ NoDup uids) as Hiff.
  { unfold vector_size. rewrite Hcount. split.
    - intros Hsz. apply size_list_to_set_NoDup. lia.
    - intros Hnd. rewrite size_list_to_set by exact Hnd. lia. }
  split; [unfold vector_size; lia|]. split; [exact Hiff|].
  split; [apply Parameters_assembled; assumption|].
  intros Hdup. split; [|split; reflexivity].
  unfold EvaluationNewNetworkWithSharedParameters.
  rewrite bind_unfold, AssembleNetwork_Ok by lia.
  rewrite bind_unfold. unfold CheckStructure.
  rewrite expected_parameter_count by assumption. fold f.
  destruct (N.eqb_spec (vector_size (Parameters f)) (2 * H + 1)) as [E|E];
    [exfalso; apply Hdup, Hiff, E|reflexivity].
Qed.


(** *** Lines 150-165: a layer with parameters of its own *)

(** X8.  [SetupFullyConnectedLinearLayer] creates a weight of shape
    [{outputDim, input.Shape()[0]}] and then a bias of shape
    [{outputDim}], two new tensors, and returns [bias + weight × input],
    the sum alone carrying [outputName];
    [SetupFullyConnectedDNNLayer] returns what
    [FullyConnectedDNNLayerWithSharedParameters] builds from the input and
    these two tensors.  Where the assertion of line 152 is compiled out,
    an input whose shape has no axis is read out of range at
    [Shape()[0]], and no tensor is created. *)
Theorem own_parameter_layer
    (input : Function) (outputDim : size_t) (device : DeviceDescriptor)
    (nonLinearity : Function → Function) (outputName : string) (w : World) :
  (∀ inputDim rest, ShapeOf input = inputDim :: rest →
     let timesParam :=
       mkParameter (next_uid w) [outputDim; inputDim] (RandomUniform (-0.05) 0.05 1)
         device in
     let plusParam :=
       mkParameter (next_uid w + 1) [outputDim] (RandomUniform (-0.05) 0.05 1) device in
     let w' := mkWorld (next_uid w + 2) (rand_state w) (trace w) in
     SetupFullyConnectedLinearLayer input outputDim device outputName w
     = Ok (Plus plusParam (Times timesParam input 1 "") outputName) w'
     ∧ SetupFullyConnectedDNNLayer input outputDim device nonLinearity w
       = Ok (FullyConnectedDNNLayerWithSharedParameters input timesParam plusParam
               nonLinearity) w')
  ∧ (ShapeOf input = [] →
     SetupFullyConnectedLinearLayer input outputDim device outputName w
     = Fail OutOfBounds w
     ∧ SetupFullyConnectedDNNLayer input outputDim device nonLinearity w
       = Fail OutOfBounds w).
Proof.
  split.
  - intros inputDim rest Hshape timesParam plusParam w'.
    assert (ShapeOf input !! 0%nat = Some inputDim) as H0 by (rewrite Hshape; reflexivity).
    assert (∀ name, SetupFullyConnectedLinearLayer input outputDim device name w
                    = Ok (Plus plusParam (Times timesParam input 1 "") name) w') as HL.
    { intros name. rewrite (SetupFullyConnectedLinearLayer_Ok _ inputDim) by exact H0.
      unfold plusParam, timesParam, w'.
      replace (N.succ (next_uid w)) with (next_uid w + 1) by lia.
      replace (N.succ (next_uid w + 1)) with (next_uid w + 2) by lia.
      reflexivity. }
    split; [apply HL|]. unfold SetupFullyConnectedDNNLayer. rewrite bind_unfold, HL.
    reflexivity.
  - intros Hshape.
    assert (∀ name, SetupFullyConnectedLinearLayer input outputDim device name w
                    = Fail OutOfBounds w) as HL.
    { intros name. unfold SetupFullyConnectedLinearLayer.
      rewrite bind_unfold, subscript_None by (rewrite Hshape; reflexivity). reflexivity. }
    split; [apply HL|]. unfold SetupFullyConnectedDNNLayer. rewrite bind_unfold, HL.
    reflexivity.
Qed.

(** *** Lines 200-238: what the graph with its own parameters is *)

(** X9.  The graph [EvalMultiThreadsWithClone] builds of the fifteen
    objects it creates is the one
    [FullyConnectedFeedForwardClassifierNetWithSharedParameters] builds
    for [numHiddenLayers = 6] of its "features" input and its thirteen
    tensors, the output node being named "classifierOutput"; and the
    call of [fprintf] at line 238 is given [threadCount], the vector of
    the two arguments of the combined graph (the "features" and the
    "Labels" input) and the vector of its three outputs (the loss, the
    classification error, the classifier output).  What text [%p] makes
    of a vector is not part of the statement. *)
Theorem clone_builds_the_six_layer_classifier
    (device : DeviceDescriptor) (threadCount : Z) (w : World) :
  let n := next_uid w in
  let x := InputVar n [937] Float "features" in
  let labels := InputVar (n + 14) [9304] Float "Labels" in
  ∃ root,
    (∀ w0,
       FullyConnectedFeedForwardClassifierNetWithSharedParameters x 6
         (own_weight n device 937 0) (own_bias n device 0)
         (own_hidden n device).*1 (own_hidden n device).*2 (own_output n device)
         (λ f, Sigmoid f "") w0
       = Ok (Times (own_output n device) root 1 "") w0)
    ∧ let classifierOutput := Times (own_output n device) root 1 "classifierOutput" in
      EvalMultiThreadsWithClone device threadCount w
      = Ok tt
          (mkWorld (n + 15) (rand_state w)
             (trace w
              ++ [Fprintf_stderr ("%d, %p, %p" +:+ LF)
                    [ArgInt threadCount;
                     ArgVariables [x; labels];
                     ArgFunctions
                       [CrossEntropyWithSoftmax classifierOutput labels "LossFunction";
                        ClassificationError classifierOutput labels
                          "ClassificationError";
                        classifierOutput]]])).
Proof.
  intros n x labels.
  exists (chain sigmoid_ (own_hidden n device)
            (FullyConnectedDNNLayerWithSharedParameters x (own_weight n device 937 0)
               (own_bias n device 0) sigmoid_)).
  split.
  - intros w0. rewrite classifier_Ok by (cbn; lia). reflexivity.
  - cbn zeta. rewrite EvalMultiThreadsWithClone_unfold.
    rewrite bind_unfold, CheckStructure_passes by (try apply own_graph_counts; lia).
    rewrite emit_unfold. unfold summary_line, own_graph. fold n x labels.
    rewrite Arguments_model_list by (try reflexivity; cbn; lia).
    reflexivity.
Qed.

(** *** The batches in closed form *)

Lemma length_draws_from s n : length (draws_from s n) = n.
Proof. unfold draws_from. rewrite length_fmap, length_seq. reflexivity. Qed.

Lemma lookup_draws_from s n k :
  (k < n)%nat → draws_from s n !! k = Some (nth_draw k s).
Proof.
  intros Hk. unfold draws_from. rewrite list_lookup_fmap, lookup_seq_lt by exact Hk.
  reflexivity.
Qed.

Lemma draws_from_add s a b :
  draws_from s (a + b) = draws_from s a ++ draws_from (state_after a s) b.
Proof.
  apply list_eq. intros k.
  destruct (Nat.lt_ge_cases k a) as [Hlt|Hge].
  - rewrite lookup_app_l by (rewrite length_draws_from; exact Hlt).
    rewrite !lookup_draws_from by lia. reflexivity.
  - rewrite lookup_app_r by (rewrite length_draws_from; exact Hge).
    rewrite length_draws_from.
    destruct (Nat.lt_ge_cases k (a + b)) as [Hlt|Hge'].
    + rewrite !lookup_draws_from by lia. rewrite <- nth_draw_add.
      do 2 f_equal. lia.
    + rewrite !lookup_ge_None_2 by (rewrite length_draws_from; lia). reflexivity.
Qed.

Lemma take_draws_from s a b : take a (draws_from s (a + b)) = draws_from s a.
Proof.
  rewrite draws_from_add. apply take_app_length'. symmetry. apply length_draws_from.
Qed.

Lemma drop_draws_from s a b :
  drop a (draws_from s (a + b)) = draws_from (state_after a s) b.
Proof.
  rewrite draws_from_add. apply drop_app_length'. symmetry. apply length_draws_from.
Qed.

(** A buffer of rows, known entry by entry, is the rows one after the
    other. *)
Lemma rows_eq (K : size_t) (rs : list Z) : ∀ buf : list float,
  length buf = (length rs * N.to_nat K)%nat →
  (∀ i c r, rs !! i = Some r → (c < N.to_nat K)%nat →
     buf !! (i * N.to_nat K + c)%nat
     = Some (if decide (c = drawn_class K r) then 1%Q else 0%Q)) →
  buf = flat_map (label_row K) rs.
Proof.
  drop_runtime.
  induction rs as [|r rs IH]; intros buf Hl Hrows.
  - destruct buf; [reflexivity|discriminate].
  - cbn [flat_map]. rewrite <- (take_drop (N.to_nat K) buf). f_equal.
    + apply list_eq. intros c. unfold label_row.
      destruct (Nat.lt_ge_cases c (N.to_nat K)) as [Hc|Hc].
      * rewrite lookup_take_lt by exact Hc.
        rewrite list_lookup_fmap, lookup_seq_lt by exact Hc.
        apply (Hrows 0%nat c r); [reflexivity|exact Hc].
      * rewrite lookup_take_ge by exact Hc.
        rewrite list_lookup_fmap, lookup_seq_ge by exact Hc. reflexivity.
    + apply IH.
      * rewrite length_drop, Hl. cbn [length]. lia.
      * intros i c r' Hi Hc. rewrite lookup_drop.
        replace (N.to_nat K + (i * N.to_nat K + c))%nat
          with (Datatypes.S i * N.to_nat K + c)%nat by lia.
        apply Hrows; assumption.
Qed.

Lemma GenerateBatch_closed D K w :
  0 < K → K * 3 < 2 ^ 64 →
  GenerateBatch D K 3 w
  = Ok (batch_of_draws D K (draws_from (rand_state w) (draws_per_iteration D)))
      (with_rand w (state_after (draws_per_iteration D) (rand_state w))).
Proof.
  intros HK Hlt. unfold GenerateBatch. rewrite bind_unfold.
  destruct (FillInputData_draws D 3 w) as (inputData & E & Hl & Hj). rewrite E.
  set (m := N.to_nat (size_mul D 3)) in *.
  rewrite bind_unfold.
  destruct (FillLabelData_draws K 3 (with_rand w (state_after m (rand_state w))) HK Hlt)
    as (labelData & E' & Hl' & Hrows).
  rewrite E', ret_unfold. cbn [with_rand rand_state next_uid trace] in *.
  unfold draws_per_iteration, batch_of_draws. fold m.
  rewrite take_draws_from, drop_draws_from.
  rewrite (firstn_all2 (draws_from (state_after m (rand_state w)) 3))
    by (rewrite length_draws_from; lia).
  rewrite (Nat.add_comm m 3), state_after_add.
  assert (inputData = unit_sample <$> draws_from (rand_state w) m) as <-.
  { apply list_eq. intros j. destruct (Nat.lt_ge_cases j m) as [Hjm|Hjm].
    - rewrite Hj by exact Hjm.
      rewrite list_lookup_fmap, lookup_draws_from by exact Hjm. reflexivity.
    - rewrite lookup_ge_None_2 by lia.
      rewrite list_lookup_fmap, lookup_ge_None_2
        by (rewrite length_draws_from; exact Hjm).
      reflexivity. }
  assert (labelData = flat_map (label_row K) (draws_from (state_after m (rand_state w)) 3))
    as <-.
  { apply rows_eq.
    - rewrite length_draws_from, Hl'. lia.
    - intros i c r Hi Hc.
      assert (i < 3)%nat as Hi3
        by (apply lookup_lt_Some in Hi; rewrite length_draws_from in Hi; exact Hi).
      rewrite lookup_draws_from in Hi by exact Hi3. injection Hi as <-.
      apply Hrows; [exact Hi3|exact Hc]. }
  reflexivity.
Qed.

Lemma batches_closed D K n : ∀ s,
  0 < K → K * 3 < 2 ^ 64 →
  batches D K n s
  = Some (batches_of_draws D K n (draws_from s (n * draws_per_iteration D)),
          state_after (n * draws_per_iteration D) s).
Proof.
  induction n as [|n IH]; intros s HK Hlt; [reflexivity|].
  cbn [batches batches_of_draws]. unfold pure_run.
  rewrite GenerateBatch_closed by assumption. cbn [with_rand rand_state].
  rewrite IH by assumption.
  replace (Datatypes.S n * draws_per_iteration D)%nat
    with (draws_per_iteration D + n * draws_per_iteration D)%nat by lia.
  rewrite take_draws_from, drop_draws_from.
  rewrite (Nat.add_comm (draws_per_iteration D)), state_after_add. reflexivity.
Qed.

Lemma EvaluateNetwork_closed D K net dev w :
  0 < K → K * 3 < 2 ^ 64 →
  EvaluateNetwork D K net dev w
  = Ok tt
      (mkWorld (next_uid w)
         (state_after (4 * draws_per_iteration D) (srand_state 2))
         (trace w
          ++ (ForwardCall net dev
                <$> batches_of_draws D K 4
                      (draws_from (srand_state 2) (4 * draws_per_iteration D))))).
Proof.
  intros HK Hlt. apply EvaluateNetwork_Ok. apply batches_closed; assumption.
Qed.


(** An invariant that every iteration which ends normally carries on
    holds after a loop that ends normally. *)
Lemma for_loop_Ok_inv {S} (Inv : nat → World → Prop)
    (body : size_t → S → M S) (lo : size_t) (n : nat) :
  (∀ k s w s' w', Inv k w → body (lo + N.of_nat k) s w = Ok s' w' →
     Inv (Datatypes.S k) w') →
  ∀ s w s' w', Inv 0%nat w → for_loop n lo body s w = Ok s' w' → Inv n w'.
Proof.
  intros Hstep.
  assert (∀ m k s w s' w', (k + m = n)%nat → Inv k w →
            for_loop m (lo + N.of_nat k) body s w = Ok s' w' → Inv n w') as Hgen.
  { induction m as [|m IH]; intros k s w s' w' Hk HI E.
    - cbn in E. injection E as _ <-. replace n with k by lia. exact HI.
    - cbn [for_loop] in E. rewrite bind_unfold in E.
      destruct (body (lo + N.of_nat k) s w) as [s1 w1|e w1] eqn:E1; [|discriminate].
      replace (N.succ (lo + N.of_nat k)) with (lo + N.of_nat (Datatypes.S k)) in E by lia.
      apply (IH (Datatypes.S k) s1 w1 s' w'); [lia| |exact E].
      apply (Hstep k s w s1 w1); assumption. }
  intros s w s' w' HI E. apply (Hgen n 0%nat s w s' w'); [reflexivity|exact HI|].
  rewrite N.add_0_r. exact E.
Qed.

Lemma FillLabelData_Ok_state K n w labelData w' :
  FillLabelData K n w = Ok labelData w' →
  w' = with_rand w (state_after (N.to_nat n) (rand_state w)).
Proof.
  unfold FillLabelData, for_. rewrite N.sub_0_r. intros E.
  apply (for_loop_Ok_inv
           (λ k w1, w1 = with_rand w (state_after k (rand_state w))) _ _ _)
    in E; [exact E| |destruct w; reflexivity].
  clear. intros k buf w1 buf' w1' -> E.
  rewrite bind_unfold, rand_unfold in E. cbn [with_rand rand_state] in E.
  rewrite bind_unfold in E. unfold size_rem in E.
  destruct (K =? 0); [discriminate|]. rewrite ret_unfold in E.
  unfold assign in E. destruct (decide _); [|discriminate].
  rewrite ret_unfold in E. injection E as _ <-. reflexivity.
Qed.

Lemma GenerateBatch_Ok_input D K w b w' :
  GenerateBatch D K 3 w = Ok b w' →
  w' = with_rand w (state_after (draws_per_iteration D) (rand_state w))
  ∧ inputData_of b
    = unit_sample <$> draws_from (rand_state w) (N.to_nat (size_mul D 3)).
Proof.
  unfold GenerateBatch. rewrite bind_unfold.
  destruct (FillInputData_draws D 3 w) as (inputData & E & Hl & Hj). rewrite E.
  set (m := N.to_nat (size_mul D 3)) in *.
  rewrite bind_unfold.
  destruct (FillLabelData K 3 _) as [labelData w2|e w2] eqn:E2; [|discriminate].
  apply FillLabelData_Ok_state in E2. cbn [with_rand rand_state next_uid trace] in E2.
  rewrite ret_unfold. intros [= <- <-]. split.
  - rewrite E2. unfold draws_per_iteration. fold m.
    rewrite (Nat.add_comm m 3), state_after_add. reflexivity.
  - cbn [inputData_of fst Data view_dataBuffer].
    apply list_eq. intros j. destruct (Nat.lt_ge_cases j m) as [Hjm|Hjm].
    + rewrite Hj by exact Hjm.
      rewrite list_lookup_fmap, lookup_draws_from by exact Hjm. reflexivity.
    + rewrite lookup_ge_None_2 by lia.
      rewrite list_lookup_fmap, lookup_ge_None_2
        by (rewrite length_draws_from; exact Hjm).
      reflexivity.
Qed.

Lemma batches_inputs D K n : ∀ s bs s',
  batches D K n s = Some (bs, s') →
  s' = state_after (n * draws_per_iteration D) s
  ∧ length bs = n
  ∧ ∀ t b, bs !! t = Some b →
      inputData_of b
      = unit_sample
          <$> draws_from (state_after (t * draws_per_iteration D) s)
                (N.to_nat (size_mul D 3)).
Proof.
  induction n as [|n IH]; intros s bs s' E; cbn [batches] in E.
  - injection E as <- <-. split; [reflexivity|]. split; [reflexivity|].
    intros t b Hb. discriminate.
  - destruct (pure_run (GenerateBatch D K 3) s) as [b0 w1|e w1] eqn:E0; [|discriminate].
    apply GenerateBatch_Ok_input in E0 as (-> & Hb0). cbn [with_rand rand_state] in E.
    destruct (batches D K n (state_after (draws_per_iteration D) s))
      as [[bs1 s1]|] eqn:E1; [|discriminate].
    injection E as <- <-.
    destruct (IH _ _ _ E1) as (Hs1 & Hl1 & Hbs1). split; [|split].
    + rewrite Hs1, <- state_after_add. f_equal. lia.
    + cbn [length]. rewrite Hl1. reflexivity.
    + intros [|t] b Hb.
      * injection Hb as <-. exact Hb0.
      * cbn in Hb. rewrite (Hbs1 t b Hb), <- state_after_add. do 3 f_equal. lia.
Qed.

(** *** Schedules of the workers *)

Lemma make_call_rand s calls rs :
  make_call s (mkWorker (call_rand :: calls) rs)
  = ((rand_step s).2, mkWorker calls (rs ++ [(rand_step s).1])).
Proof. unfold make_call. cbn [pending returned]. destruct (rand_step s). reflexivity. Qed.

Lemma draws_from_S s j : draws_from s (Datatypes.S j) = draws_from s j ++ [nth_draw j s].
Proof. unfold draws_from. rewrite seq_S, fmap_app. reflexivity. Qed.

Lemma make_call_on_the_way D s wk :
  on_the_way D (s, wk) → on_the_way D (make_call s wk).
Proof.
  intros [Hnew|(j & Hj & Hs & Hwk)]; cbn [fst snd] in *.
  - subst wk. right. exists 0%nat. cbn [make_call new_worker driver_calls pending returned].
    split; [lia|]. split; [reflexivity|]. cbn [fst snd]. rewrite Nat.sub_0_r. reflexivity.
  - subst s wk.
    destruct (decide (j = 4 * draws_per_iteration D)%nat) as [->|Hne].
    + rewrite Nat.sub_diag. right. exists (4 * draws_per_iteration D)%nat.
      cbn [replicate make_call pending fst snd]. rewrite Nat.sub_diag.
      split; [lia|]. split; reflexivity.
    + replace (4 * draws_per_iteration D - j)%nat
        with (Datatypes.S (4 * draws_per_iteration D - Datatypes.S j)) by lia.
      cbn [replicate]. rewrite make_call_rand. right. exists (Datatypes.S j).
      cbn [fst snd]. split; [lia|]. split; [reflexivity|].
      rewrite draws_from_S. reflexivity.
Qed.

Lemma run_own_on_the_way D schedule : ∀ cfg,
  Forall (on_the_way D) cfg → Forall (on_the_way D) (run_own schedule cfg).
Proof.
  induction schedule as [|i schedule IH]; intros cfg Hcfg; [exact Hcfg|].
  cbn [run_own fold_left]. apply IH. unfold own_step.
  destruct (cfg !! i) as [[s wk]|] eqn:Ei; [|exact Hcfg].
  apply Forall_insert; [exact Hcfg|]. apply make_call_on_the_way.
  exact (proj1 (Forall_lookup _ _) Hcfg i (s, wk) Ei).
Qed.

Lemma on_the_way_returned D s wk :
  on_the_way D (s, wk) →
  ∃ j, (j ≤ 4 * draws_per_iteration D)%nat
       ∧ returned wk = draws_from (srand_state 2) j
       ∧ (pending wk = [] → j = (4 * draws_per_iteration D)%nat).
Proof.
  intros [Hnew|(j & Hj & Hs & Hwk)]; cbn [fst snd] in *; subst wk.
  - exists 0%nat. split; [lia|]. split; [reflexivity|]. discriminate.
  - exists j. split; [exact Hj|]. split; [reflexivity|].
    cbn [pending]. intros Hnil. apply (f_equal length) in Hnil.
    rewrite length_replicate in Hnil. cbn in Hnil. lia.
Qed.

(** A worker whose calls of [rand] all follow one another on the shared
    generator. *)
Lemma shared_rands i k : ∀ s rs workers,
  workers !! i = Some (mkWorker (replicate k call_rand) rs) →
  fold_left shared_step (replicate k i) (s, workers)
  = (state_after k s, <[i := finished (rs ++ draws_from s k)]> workers).
Proof.
  induction k as [|k IH]; intros s rs workers Hi.
  - cbn. rewrite app_nil_r, list_insert_id by exact Hi. reflexivity.
  - cbn [replicate fold_left]. unfold shared_step at 2. cbn [fst snd].
    rewrite Hi. cbn [replicate]. rewrite make_call_rand.
    assert (i < length workers)%nat as Hlen by (apply lookup_lt_Some in Hi; exact Hi).
    rewrite (IH _ (rs ++ [(rand_step s).1]))
      by (apply list_lookup_insert_eq; exact Hlen).
    rewrite list_insert_insert_eq.
    change (rand_step s).2 with (state_after 1 s).
    rewrite <- state_after_add.
    replace (k + 1)%nat with (Datatypes.S k) by lia.
    pose proof (draws_from_add s 1 k) as Hd. change (1 + k)%nat with (Datatypes.S k) in Hd.
    rewrite Hd, <- app_assoc. reflexivity.
Qed.

Lemma shared_worker D i s workers :
  workers !! i = Some (new_worker D) →
  fold_left shared_step (replicate (length (driver_calls D)) i) (s, workers)
  = (state_after (4 * draws_per_iteration D) (srand_state 2),
     <[i := finished (draws_from (srand_state 2) (4 * draws_per_iteration D))]> workers).
Proof.
  intros Hi. unfold driver_calls. cbn [length]. rewrite length_replicate.
  cbn [replicate fold_left]. unfold shared_step at 2. cbn [fst snd].
  rewrite Hi. cbn [make_call new_worker driver_calls pending returned].
  assert (i < length workers)%nat as Hlen by (apply lookup_lt_Some in Hi; exact Hi).
  rewrite (shared_rands i _ _ []) by (apply list_lookup_insert_eq; exact Hlen).
  rewrite list_insert_insert_eq. reflexivity.
Qed.

Lemma shared_one_after_another D T : ∀ k s,
  (k ≤ T)%nat →
  ∃ s',
    fold_left shared_step
      (flat_map (λ i, replicate (length (driver_calls D)) i) (seq 0 k))
      (s, replicate T (new_worker D))
    = (s', replicate k (finished (draws_from (srand_state 2) (4 * draws_per_iteration D)))
           ++ replicate (T - k) (new_worker D)).
Proof.
  induction k as [|k IH]; intros s Hk.
  - exists s. cbn. rewrite Nat.sub_0_r. reflexivity.
  - destruct (IH s ltac:(lia)) as (s1 & E1).
    rewrite seq_S, flat_map_app, fold_left_app, E1. cbn [flat_map].
    rewrite app_nil_r.
    eexists. rewrite shared_worker.
    + f_equal.
      replace (T - k)%nat with (Datatypes.S (T - Datatypes.S k)) by lia.
      cbn [replicate].
      rewrite insert_app_r_alt by (rewrite length_replicate; lia).
      rewrite length_replicate, Nat.sub_diag. cbn [insert list_insert].
      rewrite <- replicate_S, replicate_S_end, <- app_assoc. reflexivity.
    + rewrite lookup_app_r by (rewrite length_replicate; lia).
      rewrite length_replicate, Nat.sub_diag.
      replace (T - k)%nat with (Datatypes.S (T - Datatypes.S k)) by lia. reflexivity.
Qed.

(** *** The four calls and their batches *)





(** *** The values of the input buffer *)

Section InputValues.
(** What the C standard and IEEE 754 promise of the runtime: [rand]
    returns a number between 0 and [RAND_MAX], which is positive, and
    rounding is monotone and keeps 0 and 1. *)
Hypothesis rand_range : ∀ s, (0 ≤ (rand_step s).1 ≤ RAND_MAX)%Z.
Hypothesis RAND_MAX_pos : (0 < RAND_MAX)%Z.
Hypothesis round_monotone : ∀ x y, (x <= y)%Q → (round x <= round y)%Q.
Hypothesis round_0 : (round 0 == 0)%Q.
Hypothesis round_1 : (round 1 == 1)%Q.

Lemma unit_sample_range r :
  (0 ≤ r ≤ RAND_MAX)%Z → (0 <= unit_sample r)%Q ∧ (unit_sample r <= 1)%Q.
Proof using RAND_MAX_pos round_monotone round_0 round_1.
  intros [Hr0 Hr1]. unfold unit_sample, float_div, float_of_int.
  set (a := round (inject_Z r)). set (b := round (inject_Z RAND_MAX)).
  assert (0 <= a)%Q as Ha.
  { rewrite <- round_0. apply round_monotone.
    change 0%Q with (inject_Z 0). rewrite <- Zle_Qle. exact Hr0. }
  assert (a <= b)%Q as Hab by (apply round_monotone; rewrite <- Zle_Qle; exact Hr1).
  assert (1 <= b)%Q as Hb.
  { rewrite <- round_1. apply round_monotone.
    change 1%Q with (inject_Z 1). rewrite <- Zle_Qle. lia. }
  assert (0 < b)%Q as Hb0 by (apply Qlt_le_trans with 1%Q; [reflexivity|exact Hb]).
  split.
  - rewrite <- round_0. apply round_monotone.
    apply Qle_shift_div_l; [exact Hb0|]. rewrite Qmult_0_l. exact Ha.
  - rewrite <- round_1. apply round_monotone.
    apply Qle_shift_div_r; [exact Hb0|]. rewrite Qmult_1_l. exact Hab.
Qed.

(** C3, as the code has it.  The input buffer of every batch the driver
    feeds to the forward evaluation holds, element for element, the
    quotients [((float) r) / RAND_MAX] of the numbers [r] that the calls
    of [rand] of its iteration returned, and every one of its values lies
    in the closed interval between 0 and 1; and the driver does feed its
    four batches whenever there is a class to draw and the label buffer
    has a size. *)
Theorem input_values_in_closed_unit_interval
    (inputDim numOutputClasses : size_t) (net : Network)
    (computeDevice : DeviceDescriptor) (w : World) :
  (∀ w', EvaluateNetwork inputDim numOutputClasses net computeDevice w = Ok tt w' →
     ∀ t b, forward_batches (new_events w w') !! t = Some b →
       inputData_of b
       = (λ r, float_div (float_of_int r) (float_of_int RAND_MAX))
           <$> draws_from
                 (state_after (t * draws_per_iteration inputDim) (srand_state 2))
                 (N.to_nat (size_mul inputDim 3))
       ∧ ∀ v, v ∈ inputData_of b → (0 <= v)%Q ∧ (v <= 1)%Q)
  ∧ (0 < numOutputClasses → numOutputClasses * 3 < 2 ^ 64 →
     ∃ w', EvaluateNetwork inputDim numOutputClasses net computeDevice w = Ok tt w'
           ∧ length (forward_batches (new_events w w')) = 4%nat).
Proof using rand_range RAND_MAX_pos round_monotone round_0 round_1.
  split; [|apply EvaluateNetwork_total].
  intros w' E t b Hb.
  destruct (EvaluateNetwork_batches _ _ _ _ _ _ E) as (s' & Eb & _).
  destruct (batches_inputs _ _ _ _ _ _ Eb) as (_ & _ & Hbs).
  specialize (Hbs t b Hb). split; [exact Hbs|].
  intros v Hv. rewrite Hbs in Hv.
  apply list_elem_of_fmap in Hv as (r & -> & Hr).
  apply list_elem_of_fmap in Hr as (k & -> & _).
  apply unit_sample_range, rand_range.
Qed.
End InputValues.

(** *** Two invocations, and workers that run at the same time *)

(** C9.  The driver starts by reseeding the generator with 2, so the
    state the generator was in before does not matter, and two
    invocations for the same dimensions that run one after the other and
    return, on whatever network, device and state, fed the same batches:
    those of the numbers [rs] that [rand] returns after [srand(2)].  The
    driver makes the calls [driver_calls], and feeds the batches of the
    numbers its calls of [rand] returned.  For workers that run at the
    same time this gives the same batches in two cases.  Where every
    thread has a generator state of its own, the numbers returned to a
    worker are the first of [rs], whatever the schedule, and all of [rs]
    once it has made all its calls.  Where the process has one generator
    state, this holds when each worker makes all its calls before the
    next makes its first.  The workers of the fan-out are such
    invocations, all for the dimensions 937 and 9304. *)
Theorem batches_depend_on_the_dimensions_only (inputDim numOutputClasses : size_t) :
  let n := (4 * draws_per_iteration inputDim)%nat in
  let rs := draws_from (srand_state 2) n in
  (∀ net dev w s,
     EvaluateNetwork inputDim numOutputClasses net dev (with_rand w s)
     = EvaluateNetwork inputDim numOutputClasses net dev w)
  ∧ (∀ net1 dev1 w1 w1' net2 dev2 w2 w2',
       EvaluateNetwork inputDim numOutputClasses net1 dev1 w1 = Ok tt w1' →
       EvaluateNetwork inputDim numOutputClasses net2 dev2 w2 = Ok tt w2' →
       forward_batches (new_events w1 w1') = forward_batches (new_events w2 w2')
       ∧ rand_state w1' = rand_state w2')
  ∧ (∀ H1 Win1 bin1 Ws1 bs1 Wout1 dev1 w1 w1' H2 Win2 bin2 Ws2 bs2 Wout2 dev2 w2 w2',
       EvaluationNewNetworkWithSharedParameters inputDim numOutputClasses
         H1 Win1 bin1 Ws1 bs1 Wout1 dev1 w1 = Ok tt w1' →
       EvaluationNewNetworkWithSharedParameters inputDim numOutputClasses
         H2 Win2 bin2 Ws2 bs2 Wout2 dev2 w2 = Ok tt w2' →
       forward_batches (new_events w1 w1') = forward_batches (new_events w2 w2'))
  ∧ (0 < numOutputClasses → numOutputClasses * 3 < 2 ^ 64 →
     ∀ net dev w s,
       run_shared (one_after_another inputDim 1) s [new_worker inputDim]
       = (state_after n (srand_state 2), [finished rs])
       ∧ EvaluateNetwork inputDim numOutputClasses net dev w
         = Ok tt
             (mkWorld (next_uid w) (state_after n (srand_state 2))
                (trace w
                 ++ (ForwardCall net dev
                       <$> batches_of_draws inputDim numOutputClasses 4 rs))))
  ∧ (∀ (states : list RandState) (schedule : list nat) i s wk,
       run_own schedule ((λ s, (s, new_worker inputDim)) <$> states) !! i = Some (s, wk) →
       ∃ j, (j ≤ n)%nat
            ∧ returned wk = draws_from (srand_state 2) j
            ∧ (pending wk = [] → returned wk = rs))
  ∧ (∀ T s,
       ∃ s', run_shared (one_after_another inputDim T) s
               (replicate T (new_worker inputDim))
             = (s', replicate T (finished rs)))
  ∧ (∀ device threadCount w,
       (0 ≤ threadCount < 2 ^ 31)%Z →
       ∃ w',
         EvalMultiThreadsWithNewNetwork device threadCount w = Ok tt w'
         ∧ length (thread_starts (new_events w w')) = Z.to_nat threadCount
         ∧ ∀ th args, (th, args) ∈ thread_starts (new_events w w') →
             arg_inputDim args = 937 ∧ arg_numOutputClasses args = 9304).
Proof.
  intros n rs.
  assert (∀ net1 dev1 w1 w1' net2 dev2 w2 w2',
       EvaluateNetwork inputDim numOutputClasses net1 dev1 w1 = Ok tt w1' →
       EvaluateNetwork inputDim numOutputClasses net2 dev2 w2 = Ok tt w2' →
       forward_batches (new_events w1 w1') = forward_batches (new_events w2 w2')
       ∧ rand_state w1' = rand_state w2') as Hsame.
  { intros net1 dev1 w1 w1' net2 dev2 w2 w2' E1 E2.
    destruct (EvaluateNetwork_inv _ _ _ _ _ _ E1) as (bs1 & s1 & Eb1 & ->).
    destruct (EvaluateNetwork_inv _ _ _ _ _ _ E2) as (bs2 & s2 & Eb2 & ->).
    rewrite Eb1 in Eb2. injection Eb2 as <- <-.
    rewrite !new_events_app, !forward_batches_ForwardCall. split; reflexivity. }
  split; [reflexivity|]. split; [exact Hsame|]. split; [|split; [|split; [|split]]].
  - intros H1 Win1 bin1 Ws1 bs1 Wout1 dev1 w1 w1' H2 Win2 bin2 Ws2 bs2 Wout2 dev2 w2 w2'
      E1 E2.
    apply Evaluation_inv in E1, E2.
    rewrite <- (new_events_advance 2 w1), <- (new_events_advance 2 w2).
    exact (proj1 (Hsame _ _ _ _ _ _ _ _ E1 E2)).
  - intros HK Hlt net dev w s. split.
    + unfold run_shared, one_after_another. cbn [seq flat_map]. rewrite app_nil_r.
      rewrite (shared_worker inputDim 0 s [new_worker inputDim]) by reflexivity.
      reflexivity.
    + apply EvaluateNetwork_closed; assumption.
  - intros states schedule i s wk Hi.
    assert (Forall (on_the_way inputDim)
              (run_own schedule ((λ s, (s, new_worker inputDim)) <$> states))) as Hall.
    { apply run_own_on_the_way. apply Forall_fmap, Forall_forall.
      intros s0 _. left. reflexivity. }
    pose proof (proj1 (Forall_lookup _ _) Hall i (s, wk) Hi) as Hway.
    destruct (on_the_way_returned _ _ _ Hway) as (j & Hj & Hr & Hdone).
    exists j. split; [exact Hj|]. split; [exact Hr|].
    intros Hnil. rewrite Hr, (Hdone Hnil). reflexivity.
  - intros T s.
    destruct (shared_one_after_another inputDim T T s (le_n T)) as (s' & E).
    exists s'. unfold run_shared, one_after_another. rewrite E, Nat.sub_diag.
    cbn [replicate]. rewrite app_nil_r. reflexivity.
  - intros device threadCount w HT.
    destruct (fan_out_Ok device threadCount w HT) as (bs4 & w' & E & Hl & Hev).
    exists w'. split; [exact E|]. rewrite Hev, thread_starts_trace.
    split; [rewrite length_fmap, length_seq; reflexivity|].
    intros th args Hin. apply list_elem_of_fmap in Hin as (k & [= -> ->] & _).
    split; reflexivity.
Qed.

End Program.

Arguments Ok {RandState A}.
Arguments Fail {RandState A}.
Arguments mkWorld {RandState}.
Arguments next_uid {RandState}.
Arguments rand_state {RandState}.
Arguments trace {RandState}.
Arguments new_events {RandState}.
Arguments nth_draw {RandState}.
Arguments FullyConnectedFeedForwardClassifierNetWithSharedParameters {RandState}.
Arguments AssembleNetwork {RandState}.
Arguments CheckStructure {RandState}.
Arguments GenerateBatch {RandState}.
Arguments EvaluateNetwork {RandState}.
Arguments EvaluationNewNetworkWithSharedParameters {RandState}.
Arguments EvalMultiThreadsWithNewNetwork {RandState}.
Arguments EvalMultiThreadsWithClone {RandState}.

(** ** The properties on the reference runtime *)

Lemma MSVC_rand_range s : (0 ≤ (MSVC.rand_step s).1 ≤ MSVC.RAND_MAX)%Z.
Proof.
  unfold MSVC.rand_step, MSVC.RAND_MAX. cbn [fst]. change (2 ^ 15) with 32768.
  pose proof (N.mod_upper_bound ((s * 214013 + 2531011) mod 2 ^ 32 / 2 ^ 16) 32768
                ltac:(lia)) as Hlt.
  set (r := _ mod 32768) in *. clearbody r. lia.
Qed.

Lemma exact_monotone x y : (x <= y)%Q → (exact x <= exact y)%Q.
Proof. intros Hxy. exact Hxy. Qed.

(** The first numbers of the generator after [srand(2)]. *)
Example MSVC_first_draws :
  map (λ k, nth_draw MSVC.rand_step k (MSVC.srand_state 2)) [0; 1; 2]%nat
  = [45; 29216; 24198]%Z.
Proof. reflexivity. Qed.

(** A run on small dimensions: the batches of the first iteration. *)
Example first_iteration_batch :
  match EvaluationNewNetworkWithSharedParameters
          MSVC.srand_state MSVC.rand_step MSVC.RAND_MAX exact 2 3 3
          (Example.tensor 0) (Example.tensor 1)
          [Example.tensor 2; Example.tensor 3] [Example.tensor 4; Example.tensor 5]
          (Example.tensor 6) CPUDevice (mkWorld 100 (MSVC.srand_state 1) []) with
  | Ok _ w' =>
      (λ b, (view_shape (Data b.1), inputData_of b, view_shape (Data b.2), labelData_of b))
        <$> head (forward_batches (trace w'))
  | Fail _ _ => None
  end
  = Some ([2; 1; 3], [45 # 32767; 29216 # 32767; 24198 # 32767;
                      17795 # 32767; 29484 # 32767; 19650 # 32767]%Q,
          [3; 1; 3], [0; 1; 0; 0; 1; 0; 0; 1; 0]%Q).
Proof. vm_compute. reflexivity. Qed.

(** A tensor passed for two parameters is counted once, and the graph is
    refused. *)
Example aliased_tensors_are_refused :
  ∃ w',
    EvaluationNewNetworkWithSharedParameters
      MSVC.srand_state MSVC.rand_step MSVC.RAND_MAX exact 2 3 3
      (Example.tensor 0) (Example.tensor 1)
      [Example.tensor 2; Example.tensor 3] [Example.tensor 4; Example.tensor 5]
      (Example.tensor 0) CPUDevice (mkWorld 100 (MSVC.srand_state 1) [])
    = Fail (runtime_error
              "EvaluationNewNetworkWithSharedParameters: Function does not have expected Parameter count")
        w'
    ∧ trace w' = [].
Proof. eexists. split; vm_compute; reflexivity. Qed.

(** A negative thread count is refused by the vector of threads. *)
Example negative_thread_count :
  ∃ w',
    EvalMultiThreadsWithNewNetwork
      MSVC.srand_state MSVC.rand_step MSVC.RAND_MAX exact CPUDevice (-1)
      (mkWorld 0 (MSVC.srand_state 1) [])
    = Fail length_error w'.
Proof. eexists. vm_compute. reflexivity. Qed.

(** ** The theorems at concrete inputs *)

(** C3 as the specification words it, with the half-open interval, fails:
    with the reference runtime the 70180th number after [srand(2)] is
    [RAND_MAX], and with inputs of dimension 23394 (3 × 23394 = 70182
    values a batch) the driver stores its quotient by [RAND_MAX], which is
    1, in the first input buffer. *)
Lemma input_value_reaches_one :
  ∃ w' b v,
    EvaluateNetwork MSVC.srand_state MSVC.rand_step MSVC.RAND_MAX exact
      23394 9304 (assembled 23394 9304 1 (Example.tensor 0) (Example.tensor 1) [] []
                    (Example.tensor 2) 3)
      CPUDevice (mkWorld 5 (MSVC.srand_state 1) []) = Ok tt w'
    ∧ b ∈ forward_batches (new_events (mkWorld 5 (MSVC.srand_state 1) []) w')
    ∧ v ∈ inputData_of b
    ∧ ¬ ((0 <= v)%Q ∧ (v < 1)%Q).
Proof.
  destruct (EvaluateNetwork_total MSVC.RandState MSVC.srand_state MSVC.rand_step
              MSVC.RAND_MAX exact 23394 9304
              (assembled 23394 9304 1 (Example.tensor 0) (Example.tensor 1) [] []
                 (Example.tensor 2) 3)
              CPUDevice (mkWorld 5 (MSVC.srand_state 1) []))
    as (w' & E & _); [reflexivity|reflexivity|].
  destruct (first_batch_draws _ _ _ _ _ _ _ _ _ _ _ E) as (b & Hhead & Hdraws).
  specialize (Hdraws (N.to_nat 70179)).
  exists w', b, (unit_sample MSVC.RAND_MAX exact
                  (nth_draw MSVC.rand_step (N.to_nat 70179) (MSVC.srand_state 2))).
  split; [exact E|]. split; [apply head_Some_elem_of; exact Hhead|]. split.
  - apply list_elem_of_lookup. exists (N.to_nat 70179). apply Hdraws.
    change (size_mul 23394 3) with 70182. lia.
  - assert (unit_sample MSVC.RAND_MAX exact
              (nth_draw MSVC.rand_step (N.to_nat 70179) (MSVC.srand_state 2))
            = (32767 # 32767)%Q) as -> by (vm_compute; reflexivity).
    intros [_ Hlt]. revert Hlt. vm_compute. intros Hlt. discriminate Hlt.
Qed.

Lemma structure_counts_enforced_witness :
  assert_numHiddenLayers 3 ∧ 2 * 3 + 1 < 2 ^ 64
  ∧ ∃ net w1,
      AssembleNetwork 2 3 3 (Example.tensor 0) (Example.tensor 1)
        [Example.tensor 2; Example.tensor 3] [Example.tensor 4; Example.tensor 5]
        (Example.tensor 6) (mkWorld 100 (MSVC.srand_state 1) []) = Ok net w1
      ∧ vector_size (Parameters (ffNet net)) = 7
      ∧ vector_size (Arguments (ffNet net)) = 2
      ∧ vector_size (Outputs (ffNet net)) = 3.
Proof.
  assert (assert_numHiddenLayers 3) as HH by (unfold assert_numHiddenLayers; lia).
  assert (2 * 3 + 1 < 2 ^ 64) as Hlt by reflexivity.
  split; [exact HH|]. split; [exact Hlt|].
  destruct (structure_counts_enforced MSVC.RandState MSVC.srand_state MSVC.rand_step
              MSVC.RAND_MAX exact 2 3 3 (Example.tensor 0) (Example.tensor 1)
              [Example.tensor 2; Example.tensor 3] [Example.tensor 4; Example.tensor 5]
              (Example.tensor 6) CPUDevice (mkWorld 100 (MSVC.srand_state 1) [])
              HH Hlt eq_refl eq_refl)
    as (net & w1 & E & _ & Hp & Ha & Ho & _).
  exists net, w1. split; [exact E|]. split; [|split; assumption].
  apply Hp. vm_compute.
  repeat (apply NoDup_cons; split; [rewrite ?elem_of_cons, elem_of_nil; lia|]).
  apply NoDup_nil_2.
Defined.

Lemma classifier_computes_layers_witness :
  assert_rank1 Example.x ∧ assert_numHiddenLayers 3
  ∧ ∃ classifierRoot,
      FullyConnectedFeedForwardClassifierNetWithSharedParameters Example.x 3
        (Example.tensor 0) (Example.tensor 1)
        [Example.tensor 2; Example.tensor 3] [Example.tensor 4; Example.tensor 5]
        (Example.tensor 6) (λ f, Sigmoid f "") (mkWorld 100 (MSVC.srand_state 1) [])
      = Ok classifierRoot (mkWorld 100 (MSVC.srand_state 1) [])
      ∧ denote (Z_algebra Example.values) classifierRoot
        = classifier_value (Z_algebra Example.values) Example.half
            8%Z 1%Z 2%Z [(3, 5); (4, 6)]%Z 7%Z.
Proof.
  assert (assert_rank1 Example.x) as Hr by reflexivity.
  assert (assert_numHiddenLayers 3) as HH by (unfold assert_numHiddenLayers; lia).
  split; [exact Hr|]. split; [exact HH|].
  destruct (classifier_computes_layers MSVC.RandState Example.x 3
              (Example.tensor 0) (Example.tensor 1)
              [Example.tensor 2; Example.tensor 3] [Example.tensor 4; Example.tensor 5]
              (Example.tensor 6) (λ f, Sigmoid f "") (mkWorld 100 (MSVC.srand_state 1) [])
              Hr HH (le_n 2) (le_n 2)) as (root & E & Hden).
  exists root. split; [exact E|].
  destruct (Hden Z (Z_algebra Example.values) Example.half Z.add_comm
              (λ f, eq_refl)) as (hidden & -> & _ & ->).
  reflexivity.
Defined.


Lemma label_batches_one_hot_witness :
  0 < 3 ∧ 3 * 3 < 2 ^ 64
  ∧ ∃ w',
      EvaluateNetwork MSVC.srand_state MSVC.rand_step MSVC.RAND_MAX exact 2 3
        (assembled 2 3 1 (Example.tensor 0) (Example.tensor 1) [] [] (Example.tensor 2) 3)
        CPUDevice (mkWorld 5 (MSVC.srand_state 1) []) = Ok tt w'
      ∧ ∀ b, b ∈ forward_batches (new_events (mkWorld 5 (MSVC.srand_state 1) []) w') →
          ∀ i, (i < 3)%nat → one_hot_row 3 (labelData_of b) i.
Proof.
  assert (0 < 3) as HK by reflexivity.
  assert (3 * 3 < 2 ^ 64) as Hlt by reflexivity.
  split; [exact HK|]. split; [exact Hlt|].
  destruct (label_batches_one_hot MSVC.RandState MSVC.srand_state MSVC.rand_step
              MSVC.RAND_MAX exact 2 3
              (assembled 2 3 1 (Example.tensor 0) (Example.tensor 1) [] []
                 (Example.tensor 2) 3)
              CPUDevice (mkWorld 5 (MSVC.srand_state 1) []) HK Hlt)
    as (w' & E & _ & Hrows).
  exists w'. split; [exact E|]. intros b Hb. exact (proj2 (Hrows b Hb)).
Defined.

Lemma fan_out_starts_and_joins_every_thread_witness :
  (0 ≤ 4 < 2 ^ 31)%Z
  ∧ ∃ w',
      EvalMultiThreadsWithNewNetwork MSVC.srand_state MSVC.rand_step MSVC.RAND_MAX exact
        CPUDevice 4 (mkWorld 0 (MSVC.srand_state 1) []) = Ok tt w'
      ∧ thread_joins (new_events (mkWorld 0 (MSVC.srand_state 1) []) w') = [13; 16; 19; 22]
      ∧ stderr_lines (new_events (mkWorld 0 (MSVC.srand_state 1) []) w')
        = (λ k, ("thread %d joined." +:+ LF, [ArgInt k])) <$> [0; 1; 2; 3]%Z.
Proof.
  assert (0 ≤ 4 < 2 ^ 31)%Z as HT by (split; [discriminate|reflexivity]).
  split; [exact HT|].
  destruct (fan_out_starts_and_joins_every_thread MSVC.RandState MSVC.srand_state
              MSVC.rand_step MSVC.RAND_MAX exact CPUDevice 4
              (mkWorld 0 (MSVC.srand_state 1) []) HT)
    as (bs4 & w' & E & _ & _ & _ & Hj & Hd & _).
  exists w'. split; [exact E|]. split; [exact Hj|exact Hd].
Defined.



Lemma hidden_arrays_read_in_bounds_witness :
  (∃ classifierRoot,
     FullyConnectedFeedForwardClassifierNetWithSharedParameters Example.x 3
       (Example.tensor 0) (Example.tensor 1)
       [Example.tensor 2; Example.tensor 3] [Example.tensor 4; Example.tensor 5]
       (Example.tensor 6) (λ f, Sigmoid f "") (mkWorld 100 (MSVC.srand_state 1) [])
     = Ok classifierRoot (mkWorld 100 (MSVC.srand_state 1) []))
  ∧ FullyConnectedFeedForwardClassifierNetWithSharedParameters Example.x 3
      (Example.tensor 0) (Example.tensor 1)
      [Example.tensor 2] [Example.tensor 4; Example.tensor 5]
      (Example.tensor 6) (λ f, Sigmoid f "") (mkWorld 100 (MSVC.srand_state 1) [])
    = Fail OutOfBounds (mkWorld 100 (MSVC.srand_state 1) []).
Proof.
  destruct (hidden_arrays_read_in_bounds MSVC.RandState MSVC.srand_state MSVC.rand_step
              MSVC.RAND_MAX exact) as (Hclassifier & _).
  assert (assert_numHiddenLayers 3) as HH by (unfold assert_numHiddenLayers; lia).
  destruct (Hclassifier Example.x 3 (Example.tensor 0) (Example.tensor 1)
              [Example.tensor 2; Example.tensor 3] [Example.tensor 4; Example.tensor 5]
              (Example.tensor 6) (λ f, Sigmoid f "") (mkWorld 100 (MSVC.srand_state 1) [])
              HH eq_refl eq_refl) as (Hok & _ & Hshort).
  split; [exact Hok|]. apply Hshort. left. cbn. lia.
Defined.


(** ** The further properties at concrete inputs *)

Lemma no_class_no_forward_evaluation_witness :
  EvaluationNewNetworkWithSharedParameters
    MSVC.srand_state MSVC.rand_step MSVC.RAND_MAX exact 2 0 1
    (Example.tensor 0) (Example.tensor 1) [] [] (Example.tensor 2) CPUDevice
    (mkWorld 100 (MSVC.srand_state 1) [])
  = Fail DivisionByZero
      (mkWorld 102 (state_after MSVC.RandState MSVC.rand_step 7 (MSVC.srand_state 2)) []).
Proof.
  assert (NoDup (param_uid <$> Example.tensor 0 :: Example.tensor 1 :: Example.tensor 2
                   :: [] ++ [])) as Hnd.
  { vm_compute.
    repeat (apply NoDup_cons; split; [rewrite ?elem_of_cons, elem_of_nil; lia|]).
    apply NoDup_nil_2. }
  exact (proj2 (proj2 (no_class_no_forward_evaluation MSVC.RandState MSVC.srand_state
                         MSVC.rand_step MSVC.RAND_MAX exact 2 CPUDevice
                         (mkWorld 100 (MSVC.srand_state 1) [])))
           1 (Example.tensor 0) (Example.tensor 1) [] [] (Example.tensor 2)
           (N.le_refl 1) eq_refl eq_refl eq_refl Hnd).
Defined.

Lemma negative_thread_count_refused_witness :
  (- 2 ^ 31 ≤ -1 < 0)%Z
  ∧ EvalMultiThreadsWithNewNetwork MSVC.srand_state MSVC.rand_step MSVC.RAND_MAX exact
      CPUDevice (-1) (mkWorld 0 (MSVC.srand_state 1) [])
    = Fail length_error (mkWorld 13 (MSVC.srand_state 1) []).
Proof.
  assert (- 2 ^ 31 ≤ -1 < 0)%Z as HT by (split; [discriminate|reflexivity]).
  split; [exact HT|].
  exact (negative_thread_count_refused MSVC.RandState MSVC.srand_state MSVC.rand_step
           MSVC.RAND_MAX exact CPUDevice (-1) (mkWorld 0 (MSVC.srand_state 1) []) HT).
Defined.

Lemma no_hidden_layer_is_refused_witness :
  (param_uid (Example.tensor 0) ≠ param_uid (Example.tensor 1)
   ∨ param_uid (Example.tensor 1) ≠ param_uid (Example.tensor 2))
  ∧ EvaluationNewNetworkWithSharedParameters
      MSVC.srand_state MSVC.rand_step MSVC.RAND_MAX exact 2 3 0
      (Example.tensor 0) (Example.tensor 1) [] [] (Example.tensor 2) CPUDevice
      (mkWorld 100 (MSVC.srand_state 1) [])
    = Fail parameter_count_error (mkWorld 102 (MSVC.srand_state 1) []).
Proof.
  assert (param_uid (Example.tensor 0) ≠ param_uid (Example.tensor 1)
          ∨ param_uid (Example.tensor 1) ≠ param_uid (Example.tensor 2)) as Hne
    by (left; discriminate).
  split; [exact Hne|].
  exact (proj2 (no_hidden_layer_is_refused MSVC.RandState MSVC.srand_state MSVC.rand_step
                  MSVC.RAND_MAX exact 2 3 (Example.tensor 0) (Example.tensor 1) [] []
                  (Example.tensor 2) CPUDevice (mkWorld 100 (MSVC.srand_state 1) [])
                  Hne)).
Defined.


Lemma forward_calls_bind_the_arguments_witness :
  1 ≤ 3 ∧ 2 * 3 + 1 < 2 ^ 64 ∧ 0 < 3 ∧ 3 * 3 < 2 ^ 64
  ∧ ∃ w',
      EvaluationNewNetworkWithSharedParameters
        MSVC.srand_state MSVC.rand_step MSVC.RAND_MAX exact 2 3 3
        (Example.tensor 0) (Example.tensor 1)
        [Example.tensor 2; Example.tensor 3] [Example.tensor 4; Example.tensor 5]
        (Example.tensor 6) CPUDevice (mkWorld 100 (MSVC.srand_state 1) []) = Ok tt w'
      ∧ length (forward_functions (new_events (mkWorld 100 (MSVC.srand_state 1) []) w'))
        = 4%nat.
Proof.
  assert (1 ≤ 3) as HH by discriminate.
  assert (2 * 3 + 1 < 2 ^ 64) as Hlt by reflexivity.
  assert (0 < 3) as HK by reflexivity.
  assert (3 * 3 < 2 ^ 64) as HK3 by reflexivity.
  assert (NoDup (param_uid <$> Example.tensor 0 :: Example.tensor 1 :: Example.tensor 6
                   :: [Example.tensor 2; Example.tensor 3]
                   ++ [Example.tensor 4; Example.tensor 5])) as Hnd.
  { vm_compute.
    repeat (apply NoDup_cons; split; [rewrite ?elem_of_cons, elem_of_nil; lia|]).
    apply NoDup_nil_2. }
  split; [exact HH|]. split; [exact Hlt|]. split; [exact HK|]. split; [exact HK3|].
  destruct (forward_calls_bind_the_arguments MSVC.RandState MSVC.srand_state
              MSVC.rand_step MSVC.RAND_MAX exact 2 3 3 (Example.tensor 0)
              (Example.tensor 1) [Example.tensor 2; Example.tensor 3]
              [Example.tensor 4; Example.tensor 5] (Example.tensor 6) CPUDevice
              (mkWorld 100 (MSVC.srand_state 1) []) HH Hlt eq_refl eq_refl Hnd HK HK3)
    as (w' & E & Hl & _).
  exists w'. split; [exact E|exact Hl].
Defined.

Lemma workers_share_the_tensors_witness :
  (0 ≤ 4 < 2 ^ 31)%Z
  ∧ ∃ w' nets,
      EvalMultiThreadsWithNewNetwork MSVC.srand_state MSVC.rand_step MSVC.RAND_MAX exact
        CPUDevice 4 (mkWorld 0 (MSVC.srand_state 1) []) = Ok tt w'
      ∧ length nets = 4%nat
      ∧ forward_functions (new_events (mkWorld 0 (MSVC.srand_state 1) []) w')
        = flat_map (replicate 4) nets
      ∧ length (flat_map Arguments nets) = 8%nat.
Proof.
  assert (0 ≤ 4 < 2 ^ 31)%Z as HT by (split; [discriminate|reflexivity]).
  split; [exact HT|].
  destruct (workers_share_the_tensors MSVC.RandState MSVC.srand_state MSVC.rand_step
              MSVC.RAND_MAX exact CPUDevice 4 (mkWorld 0 (MSVC.srand_state 1) []) HT)
    as (w' & nets & E & Hl & Hf & _ & _ & _ & Ha).
  exists w', nets. split; [exact E|]. split; [exact Hl|]. split; [exact Hf|exact Ha].
Defined.

Lemma tensor_passed_twice_is_refused_witness :
  1 ≤ 3 ∧ 2 * 3 + 1 < 2 ^ 64
  ∧ EvaluationNewNetworkWithSharedParameters
      MSVC.srand_state MSVC.rand_step MSVC.RAND_MAX exact 2 3 3
      (Example.tensor 0) (Example.tensor 1)
      [Example.tensor 2; Example.tensor 3] [Example.tensor 4; Example.tensor 5]
      (Example.tensor 0) CPUDevice (mkWorld 100 (MSVC.srand_state 1) [])
    = Fail parameter_count_error (mkWorld 102 (MSVC.srand_state 1) []).
Proof.
  assert (1 ≤ 3) as HH by discriminate.
  assert (2 * 3 + 1 < 2 ^ 64) as Hlt by reflexivity.
  split; [exact HH|]. split; [exact Hlt|].
  destruct (tensor_passed_twice_is_refused MSVC.RandState MSVC.srand_state MSVC.rand_step
              MSVC.RAND_MAX exact 2 3 3 (Example.tensor 0) (Example.tensor 1)
              [Example.tensor 2; Example.tensor 3] [Example.tensor 4; Example.tensor 5]
              (Example.tensor 0) CPUDevice (mkWorld 100 (MSVC.srand_state 1) [])
              HH Hlt eq_refl eq_refl)
    as (net & w1 & E & _ & _ & _ & Hdup).
  injection E as _ <-. apply Hdup.
  intros Hnd. apply NoDup_cons in Hnd as (Hnin & _). apply Hnin.
  apply elem_of_cons. right. apply elem_of_cons. left. reflexivity.
Defined.

Lemma own_parameter_layer_witness :
  SetupFullyConnectedDNNLayer MSVC.RandState Example.x 5 CPUDevice (λ f, Sigmoid f "")
    (mkWorld 100 (MSVC.srand_state 1) [])
  = Ok (FullyConnectedDNNLayerWithSharedParameters Example.x
          (mkParameter 100 [5; 2] (RandomUniform (-0.05) 0.05 1) CPUDevice)
          (mkParameter 101 [5] (RandomUniform (-0.05) 0.05 1) CPUDevice)
          (λ f, Sigmoid f ""))
      (mkWorld 102 (MSVC.srand_state 1) [])
  ∧ SetupFullyConnectedDNNLayer MSVC.RandState (InputVar 7 [] Float "Features") 5
      CPUDevice (λ f, Sigmoid f "") (mkWorld 100 (MSVC.srand_state 1) [])
    = Fail OutOfBounds (mkWorld 100 (MSVC.srand_state 1) []).
Proof.
  split.
  - exact (proj2 (proj1 (own_parameter_layer MSVC.RandState Example.x 5 CPUDevice
                           (λ f, Sigmoid f "") "" (mkWorld 100 (MSVC.srand_state 1) []))
                    2 [] eq_refl)).
  - exact (proj2 (proj2 (own_parameter_layer MSVC.RandState
                           (InputVar 7 [] Float "Features") 5 CPUDevice
                           (λ f, Sigmoid f "") "" (mkWorld 100 (MSVC.srand_state 1) []))
                    eq_refl)).
Defined.

(** ** The iterations and the workers at concrete inputs *)

Lemma input_values_in_closed_unit_interval_witness :
  (∀ s, (0 ≤ (MSVC.rand_step s).1 ≤ MSVC.RAND_MAX)%Z)
  ∧ (0 < MSVC.RAND_MAX)%Z
  ∧ (∀ x y, (x <= y)%Q → (exact x <= exact y)%Q)
  ∧ (exact 0 == 0)%Q ∧ (exact 1 == 1)%Q
  ∧ ∃ w',
      EvaluateNetwork MSVC.srand_state MSVC.rand_step MSVC.RAND_MAX exact 2 3
        (assembled 2 3 1 (Example.tensor 0) (Example.tensor 1) [] [] (Example.tensor 2) 3)
        CPUDevice (mkWorld 5 (MSVC.srand_state 1) []) = Ok tt w'
      ∧ ∀ t b,
          forward_batches (new_events (mkWorld 5 (MSVC.srand_state 1) []) w') !! t = Some b →
          ∀ v, v ∈ inputData_of b → (0 <= v)%Q ∧ (v <= 1)%Q.
Proof.
  assert (0 < MSVC.RAND_MAX)%Z as Hpos by reflexivity.
  assert (exact 0 == 0)%Q as H0 by reflexivity.
  assert (exact 1 == 1)%Q as H1 by reflexivity.
  split; [exact MSVC_rand_range|]. split; [exact Hpos|]. split; [exact exact_monotone|].
  split; [exact H0|]. split; [exact H1|].
  destruct (input_values_in_closed_unit_interval MSVC.RandState MSVC.srand_state
              MSVC.rand_step MSVC.RAND_MAX exact MSVC_rand_range Hpos exact_monotone H0 H1
              2 3
              (assembled 2 3 1 (Example.tensor 0) (Example.tensor 1) [] []
                 (Example.tensor 2) 3)
              CPUDevice (mkWorld 5 (MSVC.srand_state 1) [])) as (Hvalues & Htotal).
  destruct Htotal as (w' & E & _); [reflexivity|reflexivity|].
  exists w'. split; [exact E|]. intros t b Hb. exact (proj2 (Hvalues w' E t b Hb)).
Defined.


Lemma batches_depend_on_the_dimensions_only_witness :
  0 < 3 ∧ 3 * 3 < 2 ^ 64
  ∧ ∃ w1' w2',
      EvaluateNetwork MSVC.srand_state MSVC.rand_step MSVC.RAND_MAX exact 2 3
        (assembled 2 3 1 (Example.tensor 0) (Example.tensor 1) [] [] (Example.tensor 2) 3)
        CPUDevice (mkWorld 5 (MSVC.srand_state 1) []) = Ok tt w1'
      ∧ EvaluateNetwork MSVC.srand_state MSVC.rand_step MSVC.RAND_MAX exact 2 3
          (assembled 2 3 2 (Example.tensor 3) (Example.tensor 4) [Example.tensor 5]
             [Example.tensor 6] (Example.tensor 7) 9)
          (GPUDevice 0) (mkWorld 11 (MSVC.srand_state 77) []) = Ok tt w2'
      ∧ forward_batches (trace w1') = forward_batches (trace w2').
Proof.
  assert (0 < 3) as HK by reflexivity.
  assert (3 * 3 < 2 ^ 64) as Hlt by reflexivity.
  split; [exact HK|]. split; [exact Hlt|].
  destruct (batches_depend_on_the_dimensions_only MSVC.RandState MSVC.srand_state
              MSVC.rand_step MSVC.RAND_MAX exact 2 3) as (_ & Hsame & _ & Hdriver & _).
  pose proof (proj2 (Hdriver HK Hlt
                       (assembled 2 3 1 (Example.tensor 0) (Example.tensor 1) [] []
                          (Example.tensor 2) 3)
                       CPUDevice (mkWorld 5 (MSVC.srand_state 1) []) (MSVC.srand_state 1)))
    as E1.
  pose proof (proj2 (Hdriver HK Hlt
                       (assembled 2 3 2 (Example.tensor 3) (Example.tensor 4)
                          [Example.tensor 5] [Example.tensor 6] (Example.tensor 7) 9)
                       (GPUDevice 0) (mkWorld 11 (MSVC.srand_state 77) [])
                       (MSVC.srand_state 1)))
    as E2.
  eexists _, _. split; [exact E1|]. split; [exact E2|].
  exact (proj1 (Hsame _ _ _ _ _ _ _ _ E1 E2)).
Defined.

(** A thread's view of the generator: with [rand] returning the numbers
    [rs] to its calls, the driver feeds the batches of [rs]. *)
Lemma Replay_state_after k : ∀ rs : list Z,
  state_after Replay.RandState Replay.rand_step k rs = drop k rs.
Proof.
  induction k as [|k IH]; intros rs; [reflexivity|].
  change (state_after Replay.RandState Replay.rand_step (S k) rs)
    with (tl (state_after Replay.RandState Replay.rand_step k rs)).
  rewrite IH. clear IH. revert rs. induction k as [|k IH]; intros [|r rs]; try reflexivity.
  apply IH.
Qed.

Lemma Replay_draws (rs : list Z) :
  draws_from Replay.RandState Replay.rand_step rs (length rs) = rs.
Proof.
  apply list_eq. intros k. destruct (rs !! k) as [r|] eqn:Ek.
  - rewrite lookup_draws_from by (apply lookup_lt_Some in Ek; exact Ek).
    unfold nth_draw. rewrite Replay_state_after. f_equal.
    revert k Ek. induction rs as [|r0 rs IH]; intros [|k] Ek; try discriminate.
    + injection Ek as ->. reflexivity.
    + apply IH. exact Ek.
  - apply lookup_ge_None_2. rewrite length_draws_from.
    apply lookup_ge_None_1 in Ek. exact Ek.
Qed.

Lemma driver_on_returned_numbers (RAND_MAX : Z) (round : Q → Q)
    (inputDim numOutputClasses : size_t) (net : Network) (dev : DeviceDescriptor)
    (rs : list Z) (w : World Replay.RandState) :
  0 < numOutputClasses → numOutputClasses * 3 < 2 ^ 64 →
  length rs = (4 * draws_per_iteration inputDim)%nat →
  EvaluateNetwork (Replay.srand_state rs) Replay.rand_step RAND_MAX round
    inputDim numOutputClasses net dev w
  = Ok tt
      (mkWorld (next_uid w) []
         (trace w
          ++ (ForwardCall net dev
                <$> batches_of_draws RAND_MAX round inputDim numOutputClasses 4 rs))).
Proof.
  intros HK Hlt Hl. rewrite EvaluateNetwork_closed by assumption.
  unfold Replay.srand_state. rewrite Replay_state_after, <- Hl, Replay_draws.
  rewrite drop_all. reflexivity.
Qed.

(** C9 as the specification words it, with every worker thread feeding
    the same data, fails where the process has one generator state, as
    with the generator of the C standard.  Two workers on inputs of
    dimension 2 with 3 classes take turns: both reseed, then worker 0
    gets the first number after [srand(2)], worker 1 the second, worker 0
    the third, and so on.  The first input buffer of worker 0 starts with
    [908 / 32767] and that of worker 1 with [22817 / 32767]. *)
Lemma interleaved_workers_feed_different_batches :
  let schedule := flat_map (λ _ : nat, [0; 1]%nat) (seq 0 37) in
  let net :=
    assembled 2 3 1 (Example.tensor 0) (Example.tensor 1) [] [] (Example.tensor 2) 3 in
  ∃ s rs0 rs1 w0 w1,
    run_shared ISO_C.RandState ISO_C.srand_state ISO_C.rand_step schedule
      (ISO_C.srand_state 1) [new_worker 2; new_worker 2]
    = (s, [finished rs0; finished rs1])
    ∧ EvaluateNetwork (Replay.srand_state rs0) Replay.rand_step ISO_C.RAND_MAX exact 2 3
        net CPUDevice (mkWorld 5 rs0 []) = Ok tt w0
    ∧ EvaluateNetwork (Replay.srand_state rs1) Replay.rand_step ISO_C.RAND_MAX exact 2 3
        net CPUDevice (mkWorld 5 rs1 []) = Ok tt w1
    ∧ inputData_of <$> head (forward_batches (trace w0))
      = Some [908 # 32767; 10239 # 32767; 25837 # 32767;
              29976 # 32767; 20302 # 32767; 26005 # 32767]%Q
    ∧ inputData_of <$> head (forward_batches (trace w1))
      = Some [22817 # 32767; 12914 # 32767; 27095 # 32767;
              27865 # 32767; 32531 # 32767; 31251 # 32767]%Q
    ∧ forward_batches (trace w0) ≠ forward_batches (trace w1).
Proof.
  intros schedule net.
  eexists _, _, _, _, _.
  split; [vm_compute; reflexivity|].
  split; [vm_compute; reflexivity|].
  split; [vm_compute; reflexivity|].
  split; [vm_compute; reflexivity|].
  split; [vm_compute; reflexivity|].
  intros Heq. apply (f_equal (λ bs, inputData_of <$> head bs)) in Heq.
  vm_compute in Heq. discriminate Heq.
Qed.

